(** * run_deep_research.py: a shallow embedding and its properties

    The script sends one research query to two providers (Perplexity, a
    single blocking HTTP call; Gemini, a background job that is polled),
    writes a raw JSON artifact and a markdown report per provider, and
    prints a summary.

    Everything the script receives from outside its own source file is
    gathered in one [environment] record: the two credentials, the outcome
    of the HTTP call, the outcomes of the client-library calls, clock
    readings.  The script's effects (console output, files, calls made)
    are threaded through a small state-and-exception monad. *)

From Stdlib Require Import ZArith DecimalString Ascii String List Bool Lia.
From stdpp Require Import base option list gmap strings.

Set Warnings "-register-all".

Local Open Scope string_scope.
Local Open Scope Z_scope.

(** ** Text *)

Definition nl : string := String (Ascii.ascii_of_nat 10) EmptyString.
Definition cr : string := String (Ascii.ascii_of_nat 13) EmptyString.

(** [s * n] on a one-character string. *)
Fixpoint str_repeat (s : string) (n : nat) : string :=
  match n with
  | O => ""
  | S n' => s +:+ str_repeat s n'
  end.

(** [str(n)] on integers. *)
Definition str_of_Z (z : Z) : string := NilZero.string_of_int (Z.to_int z).
Definition str_of_nat (n : nat) : string := NilZero.string_of_uint (Nat.to_uint n).

(** [needle in hay] as a proposition. *)
Definition contains (hay needle : string) : Prop :=
  ∃ before after, hay = before +:+ needle +:+ after.

(** ** Values

    [json] is what [response.json()] can return and what [json.dump]
    writes.  A number with a fraction is kept by its Python [repr].  A
    decoded object is an association list in document order; lookup takes
    the first binding of a key. *)

Inductive json : Type :=
| JNull
| JBool (b : bool)
| JInt (z : Z)
| JFloat (repr : string)
| JStr (s : string)
| JList (items : list json)
| JDict (entries : list (string * json)).

(** [pyval] is what the client library can hand back: the JSON-like
    builtins plus opaque objects, which carry a class name and named
    attributes. *)

Inductive pyval : Type :=
| PNone
| PBool (b : bool)
| PInt (z : Z)
| PFloat (repr : string)
| PStr (s : string)
| PList (items : list pyval)
| PDict (entries : list (string * pyval))
| PObj (cls : string) (attrs : list (string * pyval)).

Fixpoint assoc {A : Type} (k : string) (l : list (string * A)) : option A :=
  match l with
  | [] => None
  | (k', v) :: rest => if String.eqb k k' then Some v else assoc k rest
  end.

Fixpoint of_json (j : json) : pyval :=
  match j with
  | JNull => PNone
  | JBool b => PBool b
  | JInt z => PInt z
  | JFloat r => PFloat r
  | JStr s => PStr s
  | JList l => PList (map of_json l)
  | JDict d => PDict (map (λ kv, (kv.1, of_json kv.2)) d)
  end.

(** ** Exceptions

    A class stands for itself and its subclasses: [RequestException]
    covers [HTTPError], [ConnectionError], [Timeout] and requests'
    [JSONDecodeError]; [ImportError] covers [ModuleNotFoundError].
    [OtherException] is any other subclass of [Exception].  Interrupts
    delivered from outside the process are not modelled. *)

Inductive exc_class : Type :=
| RequestException
| ImportError
| AttributeError
| IndexError
| KeyError
| TypeError
| OtherException (name : string).

Record exc : Type := mkExc {
  exc_cls : exc_class;
  exc_msg : string;               (* str(e) *)
  exc_response : option string    (* e.response.text, when e.response is not None *)
}.

Definition is_RequestException (e : exc) : bool :=
  match exc_cls e with RequestException => true | _ => false end.

Definition is_ImportError (e : exc) : bool :=
  match exc_cls e with ImportError => true | _ => false end.

Definition json_type_name (j : json) : string :=
  match j with
  | JNull => "NoneType"
  | JBool _ => "bool"
  | JInt _ => "int"
  | JFloat _ => "float"
  | JStr _ => "str"
  | JList _ => "list"
  | JDict _ => "dict"
  end.

Definition py_type_name (v : pyval) : string :=
  match v with
  | PObj cls _ => cls
  | PNone => "NoneType"
  | PBool _ => "bool"
  | PInt _ => "int"
  | PFloat _ => "float"
  | PStr _ => "str"
  | PList _ => "list"
  | PDict _ => "dict"
  end.

Definition no_attribute (type_name attr : string) : exc :=
  mkExc AttributeError
        ("'" +:+ type_name +:+ "' object has no attribute '" +:+ attr +:+ "'")
        None.

Definition type_error (msg : string) : exc := mkExc TypeError msg None.

(** ** The environment *)

Inductive provider : Type := Perplexity | Gemini.

Record http_response : Type := mkResponse {
  status_code : Z;
  reason : string;
  url : string;                       (* response.url *)
  text : string;                      (* response.text *)
  json_body : string + json           (* response.json(): decode error message, or the value *)
}.

Inductive post_outcome : Type :=
| PostRaises (e : exc)
| PostReturns (r : http_response).

Record environment : Type := mkEnv {
  PERPLEXITY_API_KEY : option string;       (* os.getenv: None when unset *)
  GOOGLE_API_KEY : option string;
  OUTPUT_DIR_absolute : string;             (* str(OUTPUT_DIR.absolute()) *)
  strftime : provider → string;             (* time.strftime at each report *)
  str_compound : pyval → string;            (* str() of lists, dicts and objects *)
  requests_post : post_outcome;
  import_genai : option exc;                (* from google import genai *)
  genai_Client : option exc;                (* genai.Client(api_key=...) *)
  pip_install : option exc;                 (* subprocess.run([...], check=True) *)
  import_genai_again : option exc;
  genai_Client_again : option exc;
  interactions_create : exc + pyval;        (* client.interactions.create(...) *)
  interactions_get : nat → exc + pyval;     (* the k-th client.interactions.get(...) *)
  elapsed_at : nat → Z                      (* int(time.time() - start_time) after the k-th get *)
}.

(** ** Effects

    A run either returns, raises, or is still inside the poll loop when
    the fuel given to it ends. *)

Inductive file : Type :=
| FText (s : string)        (* written with f.write *)
| FJson (j : json)          (* written whole by json.dump *)
| FPartial.                 (* opened for writing; json.dump raised midway *)

Inductive event : Type :=
| EvPost (endpoint : string) (headers : list (string * string)) (payload : json) (timeout : Z)
| EvImport
| EvPipInstall
| EvClient (api_key : option string)
| EvCreate (agent : string)
| EvGet (id : pyval)
| EvSleep (seconds : Z)
| EvMkdir (path : string).

Record world : Type := mkWorld {
  console : list string;          (* chunks written to stdout, oldest first *)
  files : gmap string file;       (* the files under the working directory, by path, as the
                                     script's writes leave them; what an installation adds
                                     to the Python environment is not recorded *)
  trace : list event              (* calls to the outside, oldest first *)
}.

Inductive res (A : Type) : Type :=
| Returned (a : A)
| Raised (e : exc)
| Pending.

Arguments Returned {A} a.
Arguments Raised {A} e.
Arguments Pending {A}.

Definition M (A : Type) : Type := world → res A * world.

Definition raise {A} (e : exc) : M A := λ w, (Raised e, w).
Definition pending {A} : M A := λ w, (Pending, w).

Definition ret {A} (a : A) : M A := λ w, (Returned a, w).

Definition bind {A B} (k : A → M B) (m : M A) : M B :=
  λ w, match m w with
       | (Returned a, w') => k a w'
       | (Raised e, w') => (Raised e, w')
       | (Pending, w') => (Pending, w')
       end.

#[global] Instance M_ret : MRet M := @ret.
#[global] Instance M_bind : MBind M := @bind.

(** [try: m except <classes accepted by catches> as e: handler e] *)
Definition try_except {A} (m : M A) (catches : exc → bool) (handler : exc → M A) : M A :=
  λ w, match m w with
       | (Raised e, w') => if catches e then handler e w' else (Raised e, w')
       | other => other
       end.

Definition lift {A} (r : exc + A) : M A :=
  match r with
  | inl e => raise e
  | inr a => ret a
  end.

Definition raise_if (o : option exc) : M unit :=
  match o with
  | Some e => raise e
  | None => ret tt
  end.

Definition print_end (s terminator : string) : M unit :=
  λ w, (Returned tt,
        mkWorld (console w ++ [s +:+ terminator]) (files w) (trace w)).

Definition print (s : string) : M unit := print_end s nl.

Definition emit (ev : event) : M unit :=
  λ w, (Returned tt, mkWorld (console w) (files w) (trace w ++ [ev])).

Definition write_file (path : string) (content : file) : M unit :=
  λ w, (Returned tt, mkWorld (console w) (<[path := content]> (files w)) (trace w)).

(** ** Python operations on values *)

(** [d.get(key, default)] *)
Definition json_get (v : json) (key : string) (dflt : json) : exc + json :=
  match v with
  | JDict d => inr (default dflt (assoc key d))
  | _ => inl (no_attribute (json_type_name v) "get")
  end.

(** [v[0]] *)
Definition json_first (v : json) : exc + json :=
  match v with
  | JList [] => inl (mkExc IndexError "list index out of range" None)
  | JList (x :: _) => inr x
  | JStr "" => inl (mkExc IndexError "string index out of range" None)
  | JStr (String c _) => inr (JStr (String c ""))
  | JDict _ => inl (mkExc KeyError "0" None)
  | _ => inl (type_error ("'" +:+ json_type_name v +:+ "' object is not subscriptable"))
  end.

(** [len(v)] *)
Definition json_len (v : json) : exc + nat :=
  match v with
  | JList l => inr (List.length l)
  | JDict d => inr (List.length d)
  | JStr s => inr (String.length s)
  | _ => inl (type_error ("object of type '" +:+ json_type_name v +:+ "' has no len()"))
  end.

Fixpoint chars (s : string) : list string :=
  match s with
  | EmptyString => []
  | String c rest => String c "" :: chars rest
  end.

(** the items a [for] loop sees *)
Definition json_iter (v : json) : exc + list json :=
  match v with
  | JList l => inr l
  | JDict d => inr (map (λ kv, JStr kv.1) d)
  | JStr s => inr (map JStr (chars s))
  | _ => inl (type_error ("'" +:+ json_type_name v +:+ "' object is not iterable"))
  end.

(** [bool(v)] *)
Definition json_truthy (v : json) : bool :=
  match v with
  | JNull => false
  | JBool b => b
  | JInt z => negb (z =? 0)
  | JFloat r => negb (String.eqb r "0.0" || String.eqb r "-0.0")
  | JStr s => negb (String.eqb s "")
  | JList l => negb (Nat.eqb (List.length l) 0)
  | JDict d => negb (Nat.eqb (List.length d) 0)
  end.

Definition py_truthy (v : pyval) : bool :=
  match v with
  | PNone => false
  | PBool b => b
  | PInt z => negb (z =? 0)
  | PFloat r => negb (String.eqb r "0.0" || String.eqb r "-0.0")
  | PStr s => negb (String.eqb s "")
  | PList l => negb (Nat.eqb (List.length l) 0)
  | PDict d => negb (Nat.eqb (List.length d) 0)
  | PObj _ _ => true
  end.

(** [obj.attr]: of the attributes the script reads (id, status, error,
    outputs, usage, text, type and the token counts) the builtin types
    have none. *)
Definition py_attr (v : pyval) (attr : string) : exc + pyval :=
  match v with
  | PObj cls attrs =>
      match assoc attr attrs with
      | Some x => inr x
      | None => inl (no_attribute cls attr)
      end
  | _ => inl (no_attribute (py_type_name v) attr)
  end.

(** [getattr(obj, attr, default)] *)
Definition py_getattr (v : pyval) (attr : string) (dflt : pyval) : pyval :=
  match py_attr v attr with
  | inr x => x
  | inl _ => dflt
  end.

(** [v[-1]] *)
Definition py_last (v : pyval) : exc + pyval :=
  match v with
  | PList l =>
      match last l with
      | Some x => inr x
      | None => inl (mkExc IndexError "list index out of range" None)
      end
  | PStr s =>
      match last (chars s) with
      | Some c => inr (PStr c)
      | None => inl (mkExc IndexError "string index out of range" None)
      end
  | PDict _ => inl (mkExc KeyError "-1" None)
  | _ => inl (type_error ("'" +:+ py_type_name v +:+ "' object is not subscriptable"))
  end.

Definition py_iter (v : pyval) : exc + list pyval :=
  match v with
  | PList l => inr l
  | PDict d => inr (map (λ kv, PStr kv.1) d)
  | PStr s => inr (map PStr (chars s))
  | _ => inl (type_error ("'" +:+ py_type_name v +:+ "' object is not iterable"))
  end.

(** [v == "literal"] *)
Definition py_eq_str (v : pyval) (s : string) : bool :=
  match v with
  | PStr s' => String.eqb s' s
  | _ => false
  end.

(** [str(v)], as an f-string renders a value *)
Definition py_str (env : environment) (v : pyval) : string :=
  match v with
  | PNone => "None"
  | PBool true => "True"
  | PBool false => "False"
  | PInt z => str_of_Z z
  | PFloat r => r
  | PStr s => s
  | _ => str_compound env v
  end.

Definition json_str (env : environment) (j : json) : string := py_str env (of_json j).

Definition str_of_key (k : option string) : string :=
  match k with
  | Some s => s
  | None => "None"
  end.

Definition key_truthy (k : option string) : bool :=
  match k with
  | Some s => negb (String.eqb s "")
  | None => false
  end.

(** ** The script *)

Definition RESEARCH_QUERY : string :=
  "As of today, produce a fully-cited, primary-source-backed comparison of current AI regulation and enforcement across EU, US, UK, and Canada: include a table with (1) legal instrument name, (2) status, (3) scope, (4) key obligations, (5) effective dates / phase-in timeline, (6) penalties, (7) enforcement agencies + at least 3 concrete enforcement actions or official notices where applicable; then add a 'What changed in the last 90 days' section and a 'Conflicts/uncertainties' section listing claims that differ across sources and how you resolved them (or couldn't).".

Definition OUTPUT_DIR : string := "research_results".

(** [OUTPUT_DIR / name] *)
Definition in_output_dir (name : string) : string := OUTPUT_DIR +:+ "/" +:+ name.

(** *** requests

    [raise_for_status] raises [HTTPError] for a 4xx or 5xx status code and
    returns for every other one; the error carries the response.
    [response.json()] raises requests' [JSONDecodeError], which is a
    [RequestException] without a response, when the body does not decode;
    an exception of another class raised while decoding is among the
    [hazards] further down. *)

(** the [HTTPError] that [raise_for_status] builds, when it builds one *)
Definition http_error (r : http_response) : option exc :=
  if (400 <=? status_code r) && (status_code r <? 500) then
    Some (mkExc RequestException
            (str_of_Z (status_code r) +:+ " Client Error: " +:+ reason r
               +:+ " for url: " +:+ url r)
            (Some (text r)))
  else if (500 <=? status_code r) && (status_code r <? 600) then
    Some (mkExc RequestException
            (str_of_Z (status_code r) +:+ " Server Error: " +:+ reason r
               +:+ " for url: " +:+ url r)
            (Some (text r)))
  else None.

Definition raise_for_status (r : http_response) : M unit := raise_if (http_error r).

Definition response_json (r : http_response) : M json :=
  match json_body r with
  | inl msg => raise (mkExc RequestException msg None)
  | inr v => mret v
  end.

Definition requests_post_call (env : environment) (endpoint : string)
    (headers : list (string * string)) (payload : json) (timeout : Z) : M http_response :=
  emit (EvPost endpoint headers payload timeout);;
  match requests_post env with
  | PostRaises e => raise e
  | PostReturns r => mret r
  end.

(** *** run_perplexity_research *)

Definition perplexity_payload : json :=
  JDict [("model", JStr "sonar-deep-research");
         ("messages",
          JList [JDict [("role", JStr "system");
                        ("content", JStr "You are a legal research assistant specializing in AI regulation. Provide comprehensive, well-cited reports with primary sources.")];
                 JDict [("role", JStr "user");
                        ("content", JStr RESEARCH_QUERY)]]);
         ("search_mode", JStr "web");
         ("temperature", JFloat "0.2");
         ("reasoning_effort", JStr "high")].

Definition perplexity_report_head (env : environment) (content : json) : string :=
  "# Perplexity Deep Research Report" +:+ nl +:+
  "## AI Regulation Comparison (EU, US, UK, Canada)" +:+ nl +:+
  nl +:+
  "*Generated: " +:+ strftime env Perplexity +:+ "*" +:+ nl +:+
  nl +:+
  "---" +:+ nl +:+
  nl +:+
  json_str env content +:+ nl +:+
  nl +:+
  "---" +:+ nl +:+
  nl +:+
  "## Sources" +:+ nl +:+
  nl.

(** the body of [for i, source in enumerate(search_results, 1)], from
    index [i] on *)
Fixpoint append_sources (env : environment) (i : nat) (sources : list json)
    (report_content : string) : M string :=
  match sources with
  | [] => mret report_content
  | source :: rest =>
      title ← lift (json_get source "title" (JStr "Untitled"));
      link ← lift (json_get source "url" (JStr ""));
      append_sources env (S i) rest
        (report_content +:+ str_of_nat i +:+ ". [" +:+ json_str env title +:+ "]("
           +:+ json_str env link +:+ ")" +:+ nl)
  end.

(** what follows [result = response.json()] inside the [try] *)
Definition save_perplexity_results (env : environment) (result : json) : M (option json) :=
  choices ← lift (json_get result "choices" (JList [JDict []]));
  choice ← lift (json_first choices);
  message ← lift (json_get choice "message" (JDict []));
  content ← lift (json_get message "content" (JStr ""));
  usage ← lift (json_get result "usage" (JDict []));
  search_results ← lift (json_get result "search_results" (JList []));
  print (nl +:+ "✓ Research completed!");;
  prompt_tokens ← lift (json_get usage "prompt_tokens" (JStr "N/A"));
  print ("  - Prompt tokens: " +:+ json_str env prompt_tokens);;
  completion_tokens ← lift (json_get usage "completion_tokens" (JStr "N/A"));
  print ("  - Completion tokens: " +:+ json_str env completion_tokens);;
  num_search_queries ← lift (json_get usage "num_search_queries" (JStr "N/A"));
  print ("  - Search queries: " +:+ json_str env num_search_queries);;
  n ← lift (json_len search_results);
  print ("  - Citations: " +:+ str_of_nat n +:+ " sources");;
  emit (EvMkdir OUTPUT_DIR);;
  write_file (in_output_dir "perplexity_full_response.json") (FJson result);;
  let report_content := perplexity_report_head env content in
  sources ← lift (json_iter search_results);
  report_content ← append_sources env 1 sources report_content;
  write_file (in_output_dir "perplexity_report.md") (FText report_content);;
  print ("  - Report saved to: " +:+ OUTPUT_DIR +:+ "/perplexity_report.md");;
  mret (Some result).

(** the body of the [try] *)
Definition perplexity_call (env : environment) : M (option json) :=
  let endpoint := "https://api.perplexity.ai/chat/completions" in
  let headers := [("Authorization", "Bearer " +:+ str_of_key (PERPLEXITY_API_KEY env));
                  ("Content-Type", "application/json")] in
  response ← requests_post_call env endpoint headers perplexity_payload 600;
  raise_for_status response;;
  result ← response_json response;
  save_perplexity_results env result.

(** the [except requests.exceptions.RequestException as e] clause *)
Definition perplexity_handler (e : exc) : M (option json) :=
  print ("✗ Perplexity API error: " +:+ exc_msg e);;
  match exc_response e with
  | Some body => print ("  Response: " +:+ body)
  | None => mret tt
  end;;
  mret None.

Definition run_perplexity_research (env : environment) : M (option json) :=
  print (nl +:+ str_repeat "=" 60);;
  print "PERPLEXITY SONAR DEEP RESEARCH";;
  print (str_repeat "=" 60);;
  print "Starting Perplexity deep research...";;
  print ("Query: " +:+ substring 0 100 RESEARCH_QUERY +:+ "...");;
  try_except (perplexity_call env) is_RequestException perplexity_handler.

(** *** json.dump on a client-library value

    The encoder walks the value in order and raises [TypeError] at the
    first thing that is not a JSON builtin. *)

Fixpoint to_json (v : pyval) : exc + json :=
  match v with
  | PNone => inr JNull
  | PBool b => inr (JBool b)
  | PInt z => inr (JInt z)
  | PFloat r => inr (JFloat r)
  | PStr s => inr (JStr s)
  | PList l =>
      let fix items (l : list pyval) : exc + list json :=
        match l with
        | [] => inr []
        | x :: rest =>
            match to_json x with
            | inl e => inl e
            | inr j =>
                match items rest with
                | inl e => inl e
                | inr js => inr (j :: js)
                end
            end
        end in
      match items l with
      | inl e => inl e
      | inr js => inr (JList js)
      end
  | PDict d =>
      let fix entries (d : list (string * pyval)) : exc + list (string * json) :=
        match d with
        | [] => inr []
        | (k, x) :: rest =>
            match to_json x with
            | inl e => inl e
            | inr j =>
                match entries rest with
                | inl e => inl e
                | inr js => inr ((k, j) :: js)
                end
            end
        end in
      match entries d with
      | inl e => inl e
      | inr js => inr (JDict js)
      end
  | PObj cls _ =>
      inl (type_error ("Object of type " +:+ cls +:+ " is not JSON serializable"))
  end.

(** [with open(path, "w") as f: json.dump(data, f, indent=2)] *)
Definition json_dump (path : string) (data : pyval) : M unit :=
  match to_json data with
  | inr j => write_file path (FJson j)
  | inl e => write_file path FPartial;; raise e
  end.

(** *** run_gemini_research *)

(** [[{"text": o.text, "type": getattr(o, 'type', None)} for o in outputs]] *)
Fixpoint output_records (outputs : list pyval) : exc + list pyval :=
  match outputs with
  | [] => inr []
  | o :: rest =>
      match py_attr o "text" with
      | inl e => inl e
      | inr t =>
          match output_records rest with
          | inl e => inl e
          | inr records =>
              inr (PDict [("text", t); ("type", py_getattr o "type" PNone)] :: records)
          end
      end
  end.

Definition usage_record (usage : pyval) : pyval :=
  if py_truthy usage then
    PDict [("prompt_tokens", py_getattr usage "prompt_tokens" PNone);
           ("completion_tokens", py_getattr usage "completion_tokens" PNone);
           ("total_tokens", py_getattr usage "total_tokens" PNone)]
  else PDict [].

Definition gemini_report (env : environment) (id content : pyval) : string :=
  "# Google Gemini Deep Research Report" +:+ nl +:+
  "## AI Regulation Comparison (EU, US, UK, Canada)" +:+ nl +:+
  nl +:+
  "*Generated: " +:+ strftime env Gemini +:+ "*" +:+ nl +:+
  "*Interaction ID: " +:+ py_str env id +:+ "*" +:+ nl +:+
  nl +:+
  "---" +:+ nl +:+
  nl +:+
  py_str env content +:+ nl.

(** The [while True] loop, entered for the [k]-th fetch.  [Some i]: the
    loop was left by [break] with the completed interaction [i]; [None]:
    the function returned [None] from inside the loop. *)
Fixpoint poll (env : environment) (fuel k : nat) (interaction : pyval) : M (option pyval) :=
  match fuel with
  | O => pending
  | S fuel' =>
      id ← lift (py_attr interaction "id");
      emit (EvGet id);;
      interaction ← lift (interactions_get env k);
      let elapsed := elapsed_at env k in
      status ← lift (py_attr interaction "status");
      if py_eq_str status "completed" then
        print (nl +:+ "✓ Research completed in " +:+ str_of_Z elapsed +:+ " seconds!");;
        mret (Some interaction)
      else if py_eq_str status "failed" then
        error ← lift (py_attr interaction "error");
        print (nl +:+ "✗ Research failed: " +:+ py_str env error);;
        mret None
      else
        print_end ("  Status: " +:+ py_str env status +:+ " (" +:+ str_of_Z elapsed
                     +:+ "s elapsed)...") cr;;
        emit (EvSleep 10);;
        poll env fuel' (S k) interaction
  end.

Definition make_client (env : environment) : M unit :=
  try_except
    (emit EvImport;;
     raise_if (import_genai env);;
     emit (EvClient (GOOGLE_API_KEY env));;
     raise_if (genai_Client env))
    is_ImportError
    (λ _,
       print "Installing google-genai package...";;
       emit EvPipInstall;;
       raise_if (pip_install env);;
       emit EvImport;;
       raise_if (import_genai_again env);;
       emit (EvClient (GOOGLE_API_KEY env));;
       raise_if (genai_Client_again env)).

(** [interaction.outputs[-1].text if interaction.outputs else ""] *)
Definition final_text (interaction : pyval) : exc + pyval :=
  match py_attr interaction "outputs" with
  | inl e => inl e
  | inr outputs =>
      if py_truthy outputs then
        match py_last outputs with
        | inl e => inl e
        | inr final => py_attr final "text"
        end
      else inr (PStr "")
  end.

(** the [raw_data] dictionary, its entries evaluated in source order *)
Definition raw_data (interaction usage : pyval) : exc + pyval :=
  match py_attr interaction "id" with
  | inl e => inl e
  | inr id =>
      match py_attr interaction "status" with
      | inl e => inl e
      | inr status =>
          match py_attr interaction "outputs" with
          | inl e => inl e
          | inr outputs =>
              let records :=
                if py_truthy outputs then
                  match py_iter outputs with
                  | inl e => inl e
                  | inr items => output_records items
                  end
                else inr [] in
              match records with
              | inl e => inl e
              | inr records =>
                  inr (PDict [("id", id); ("status", status);
                              ("outputs", PList records);
                              ("usage", usage_record usage)])
              end
          end
      end
  end.

(** what follows the loop once it was left by [break] *)
Definition save_gemini_results (env : environment) (interaction : pyval) : M (option pyval) :=
  content ← lift (final_text interaction);
  let usage := py_getattr interaction "usage" (PDict []) in
  print ("  - Total tokens: " +:+ py_str env (py_getattr usage "total_tokens" (PStr "N/A")));;
  emit (EvMkdir OUTPUT_DIR);;
  data ← lift (raw_data interaction usage);
  json_dump (in_output_dir "gemini_full_response.json") data;;
  print ("  - Raw response saved to: " +:+ OUTPUT_DIR +:+ "/gemini_full_response.json");;
  id ← lift (py_attr interaction "id");
  let report_content := gemini_report env id content in
  write_file (in_output_dir "gemini_report.md") (FText report_content);;
  print ("  - Report saved to: " +:+ OUTPUT_DIR +:+ "/gemini_report.md");;
  mret (Some interaction).

(** what the second [try] does once the poll loop has ended *)
Definition after_poll (env : environment) (polled : option pyval) : M (option pyval) :=
  match polled with
  | None => mret None
  | Some interaction => save_gemini_results env interaction
  end.

(** the body of the second [try] *)
Definition gemini_job (env : environment) (fuel : nat) : M (option pyval) :=
  emit (EvCreate "deep-research-pro-preview-12-2025");;
  interaction ← lift (interactions_create env);
  id ← lift (py_attr interaction "id");
  print ("Research started: " +:+ py_str env id);;
  polled ← poll env fuel 0 interaction;
  after_poll env polled.

(** the [except Exception as e] clause *)
Definition gemini_handler (e : exc) : M (option pyval) :=
  print ("✗ Gemini API error: " +:+ exc_msg e);;
  mret None.

Definition run_gemini_research (env : environment) (fuel : nat) : M (option pyval) :=
  print (nl +:+ str_repeat "=" 60);;
  print "GOOGLE GEMINI DEEP RESEARCH";;
  print (str_repeat "=" 60);;
  make_client env;;
  print "Starting Gemini deep research...";;
  print ("Query: " +:+ substring 0 100 RESEARCH_QUERY +:+ "...");;
  print "(This may take up to 20 minutes for comprehensive research)";;
  try_except (gemini_job env fuel) (λ _, true) gemini_handler.

(** *** main *)

Definition perplexity_truthy (result : option json) : bool :=
  match result with
  | Some v => json_truthy v
  | None => false
  end.

Definition gemini_truthy (result : option pyval) : bool :=
  match result with
  | Some v => py_truthy v
  | None => false
  end.

Definition summary_mark (ok : bool) : string :=
  if ok then "✓ Completed" else "✗ Failed or skipped".

Definition main (env : environment) (fuel : nat) : M unit :=
  print (nl +:+ str_repeat "#" 60);;
  print "# DEEP RESEARCH COMPARISON";;
  print "# Query: AI Regulation (EU, US, UK, Canada)";;
  print (str_repeat "#" 60);;
  (if key_truthy (PERPLEXITY_API_KEY env) then mret tt
   else print "Warning: PERPLEXITY_API_KEY not found in .env");;
  (if key_truthy (GOOGLE_API_KEY env) then mret tt
   else print "Warning: GOOGLE_API_KEY not found in .env");;
  perplexity_result ← (if key_truthy (PERPLEXITY_API_KEY env)
                        then run_perplexity_research env else mret None);
  gemini_result ← (if key_truthy (GOOGLE_API_KEY env)
                    then run_gemini_research env fuel else mret None);
  print (nl +:+ str_repeat "=" 60);;
  print "SUMMARY";;
  print (str_repeat "=" 60);;
  print ("Perplexity: " +:+ summary_mark (perplexity_truthy perplexity_result));;
  print ("Gemini:     " +:+ summary_mark (gemini_truthy gemini_result));;
  print (nl +:+ "Results saved to: " +:+ OUTPUT_DIR_absolute env +:+ "/").

(** The exit status of [python run_deep_research.py]: 0 when [main]
    returns, 1 when an exception leaves it; none while it still runs. *)
Definition exit_status {A} (r : res A) : option Z :=
  match r with
  | Returned _ => Some 0
  | Raised _ => Some 1
  | Pending => None
  end.

(** ** The script where the console, the file system and the decoder can refuse

    The definitions above run the script on a console that takes every
    line, a file system that takes every write and a decoder that fails
    only with requests' [JSONDecodeError].  The ones below are the same
    script, statement by statement, with each of these operations able to
    raise, as [hazards] says. *)

Record hazards : Type := mkHazards {
  print_raises : string → option exc;        (* print(s): UnicodeEncodeError when stdout's
                                                encoding cannot hold s, OSError on a closed pipe *)
  mkdir_raises : option exc;                 (* OUTPUT_DIR.mkdir(exist_ok=True): FileExistsError
                                                when the path is a file, PermissionError *)
  open_raises : string → option exc;         (* open(path, "w"): OSError *)
  write_raises : string → file → option exc; (* f.write / json.dump into the open file:
                                                UnicodeEncodeError for text the file's encoding
                                                cannot hold, OSError *)
  json_raises : option exc                   (* response.json() raises an exception that is not
                                                one of requests: ValueError for an integer
                                                beyond the digit limit, RecursionError *)
}.

(** nothing refuses *)
Definition calm (hz : hazards) : Prop :=
  (∀ s, print_raises hz s = None)
  ∧ mkdir_raises hz = None
  ∧ (∀ path, open_raises hz path = None)
  ∧ (∀ path content, write_raises hz path content = None)
  ∧ json_raises hz = None.

Definition print_end_on (hz : hazards) (s terminator : string) : M unit :=
  raise_if (print_raises hz (s +:+ terminator));;
  print_end s terminator.

Definition print_on (hz : hazards) (s : string) : M unit := print_end_on hz s nl.

Definition mkdir_on (hz : hazards) (path : string) : M unit :=
  emit (EvMkdir path);;
  raise_if (mkdir_raises hz).

(** [with open(path, "w") as f:] followed by one write of [content]; a
    write that raises leaves the file opened and cut short *)
Definition write_on (hz : hazards) (path : string) (content : file) : M unit :=
  raise_if (open_raises hz path);;
  match write_raises hz path content with
  | Some e => write_file path FPartial;; raise e
  | None => write_file path content
  end.

Definition json_dump_on (hz : hazards) (path : string) (data : pyval) : M unit :=
  raise_if (open_raises hz path);;
  match to_json data with
  | inr j =>
      match write_raises hz path (FJson j) with
      | Some e => write_file path FPartial;; raise e
      | None => write_file path (FJson j)
      end
  | inl e => write_file path FPartial;; raise e
  end.

Definition response_json_on (hz : hazards) (r : http_response) : M json :=
  raise_if (json_raises hz);;
  response_json r.

Definition save_perplexity_results_on (hz : hazards) (env : environment) (result : json)
    : M (option json) :=
  choices ← lift (json_get result "choices" (JList [JDict []]));
  choice ← lift (json_first choices);
  message ← lift (json_get choice "message" (JDict []));
  content ← lift (json_get message "content" (JStr ""));
  usage ← lift (json_get result "usage" (JDict []));
  search_results ← lift (json_get result "search_results" (JList []));
  print_on hz (nl +:+ "✓ Research completed!");;
  prompt_tokens ← lift (json_get usage "prompt_tokens" (JStr "N/A"));
  print_on hz ("  - Prompt tokens: " +:+ json_str env prompt_tokens);;
  completion_tokens ← lift (json_get usage "completion_tokens" (JStr "N/A"));
  print_on hz ("  - Completion tokens: " +:+ json_str env completion_tokens);;
  num_search_queries ← lift (json_get usage "num_search_queries" (JStr "N/A"));
  print_on hz ("  - Search queries: " +:+ json_str env num_search_queries);;
  n ← lift (json_len search_results);
  print_on hz ("  - Citations: " +:+ str_of_nat n +:+ " sources");;
  mkdir_on hz OUTPUT_DIR;;
  write_on hz (in_output_dir "perplexity_full_response.json") (FJson result);;
  let report_content := perplexity_report_head env content in
  sources ← lift (json_iter search_results);
  report_content ← append_sources env 1 sources report_content;
  write_on hz (in_output_dir "perplexity_report.md") (FText report_content);;
  print_on hz ("  - Report saved to: " +:+ OUTPUT_DIR +:+ "/perplexity_report.md");;
  mret (Some result).

Definition perplexity_call_on (hz : hazards) (env : environment) : M (option json) :=
  let endpoint := "https://api.perplexity.ai/chat/completions" in
  let headers := [("Authorization", "Bearer " +:+ str_of_key (PERPLEXITY_API_KEY env));
                  ("Content-Type", "application/json")] in
  response ← requests_post_call env endpoint headers perplexity_payload 600;
  raise_for_status response;;
  result ← response_json_on hz response;
  save_perplexity_results_on hz env result.

Definition perplexity_handler_on (hz : hazards) (e : exc) : M (option json) :=
  print_on hz ("✗ Perplexity API error: " +:+ exc_msg e);;
  match exc_response e with
  | Some body => print_on hz ("  Response: " +:+ body)
  | None => mret tt
  end;;
  mret None.

Definition run_perplexity_research_on (hz : hazards) (env : environment) : M (option json) :=
  print_on hz (nl +:+ str_repeat "=" 60);;
  print_on hz "PERPLEXITY SONAR DEEP RESEARCH";;
  print_on hz (str_repeat "=" 60);;
  print_on hz "Starting Perplexity deep research...";;
  print_on hz ("Query: " +:+ substring 0 100 RESEARCH_QUERY +:+ "...");;
  try_except (perplexity_call_on hz env) is_RequestException (perplexity_handler_on hz).

Fixpoint poll_on (hz : hazards) (env : environment) (fuel k : nat) (interaction : pyval)
    : M (option pyval) :=
  match fuel with
  | O => pending
  | S fuel' =>
      id ← lift (py_attr interaction "id");
      emit (EvGet id);;
      interaction ← lift (interactions_get env k);
      let elapsed := elapsed_at env k in
      status ← lift (py_attr interaction "status");
      if py_eq_str status "completed" then
        print_on hz (nl +:+ "✓ Research completed in " +:+ str_of_Z elapsed +:+ " seconds!");;
        mret (Some interaction)
      else if py_eq_str status "failed" then
        error ← lift (py_attr interaction "error");
        print_on hz (nl +:+ "✗ Research failed: " +:+ py_str env error);;
        mret None
      else
        print_end_on hz ("  Status: " +:+ py_str env status +:+ " (" +:+ str_of_Z elapsed
                           +:+ "s elapsed)...") cr;;
        emit (EvSleep 10);;
        poll_on hz env fuel' (S k) interaction
  end.

Definition make_client_on (hz : hazards) (env : environment) : M unit :=
  try_except
    (emit EvImport;;
     raise_if (import_genai env);;
     emit (EvClient (GOOGLE_API_KEY env));;
     raise_if (genai_Client env))
    is_ImportError
    (λ _,
       print_on hz "Installing google-genai package...";;
       emit EvPipInstall;;
       raise_if (pip_install env);;
       emit EvImport;;
       raise_if (import_genai_again env);;
       emit (EvClient (GOOGLE_API_KEY env));;
       raise_if (genai_Client_again env)).

Definition save_gemini_results_on (hz : hazards) (env : environment) (interaction : pyval)
    : M (option pyval) :=
  content ← lift (final_text interaction);
  let usage := py_getattr interaction "usage" (PDict []) in
  print_on hz ("  - Total tokens: "
                 +:+ py_str env (py_getattr usage "total_tokens" (PStr "N/A")));;
  mkdir_on hz OUTPUT_DIR;;
  data ← lift (raw_data interaction usage);
  json_dump_on hz (in_output_dir "gemini_full_response.json") data;;
  print_on hz ("  - Raw response saved to: " +:+ OUTPUT_DIR +:+ "/gemini_full_response.json");;
  id ← lift (py_attr interaction "id");
  let report_content := gemini_report env id content in
  write_on hz (in_output_dir "gemini_report.md") (FText report_content);;
  print_on hz ("  - Report saved to: " +:+ OUTPUT_DIR +:+ "/gemini_report.md");;
  mret (Some interaction).

Definition after_poll_on (hz : hazards) (env : environment) (polled : option pyval)
    : M (option pyval) :=
  match polled with
  | None => mret None
  | Some interaction => save_gemini_results_on hz env interaction
  end.

Definition gemini_job_on (hz : hazards) (env : environment) (fuel : nat) : M (option pyval) :=
  emit (EvCreate "deep-research-pro-preview-12-2025");;
  interaction ← lift (interactions_create env);
  id ← lift (py_attr interaction "id");
  print_on hz ("Research started: " +:+ py_str env id);;
  polled ← poll_on hz env fuel 0 interaction;
  after_poll_on hz env polled.

Definition gemini_handler_on (hz : hazards) (e : exc) : M (option pyval) :=
  print_on hz ("✗ Gemini API error: " +:+ exc_msg e);;
  mret None.

Definition run_gemini_research_on (hz : hazards) (env : environment) (fuel : nat)
    : M (option pyval) :=
  print_on hz (nl +:+ str_repeat "=" 60);;
  print_on hz "GOOGLE GEMINI DEEP RESEARCH";;
  print_on hz (str_repeat "=" 60);;
  make_client_on hz env;;
  print_on hz "Starting Gemini deep research...";;
  print_on hz ("Query: " +:+ substring 0 100 RESEARCH_QUERY +:+ "...");;
  print_on hz "(This may take up to 20 minutes for comprehensive research)";;
  try_except (gemini_job_on hz env fuel) (λ _, true) (gemini_handler_on hz).

Definition main_on (hz : hazards) (env : environment) (fuel : nat) : M unit :=
  print_on hz (nl +:+ str_repeat "#" 60);;
  print_on hz "# DEEP RESEARCH COMPARISON";;
  print_on hz "# Query: AI Regulation (EU, US, UK, Canada)";;
  print_on hz (str_repeat "#" 60);;
  (if key_truthy (PERPLEXITY_API_KEY env) then mret tt
   else print_on hz "Warning: PERPLEXITY_API_KEY not found in .env");;
  (if key_truthy (GOOGLE_API_KEY env) then mret tt
   else print_on hz "Warning: GOOGLE_API_KEY not found in .env");;
  perplexity_result ← (if key_truthy (PERPLEXITY_API_KEY env)
                        then run_perplexity_research_on hz env else mret None);
  gemini_result ← (if key_truthy (GOOGLE_API_KEY env)
                    then run_gemini_research_on hz env fuel else mret None);
  print_on hz (nl +:+ str_repeat "=" 60);;
  print_on hz "SUMMARY";;
  print_on hz (str_repeat "=" 60);;
  print_on hz ("Perplexity: " +:+ summary_mark (perplexity_truthy perplexity_result));;
  print_on hz ("Gemini:     " +:+ summary_mark (gemini_truthy gemini_result));;
  print_on hz (nl +:+ "Results saved to: " +:+ OUTPUT_DIR_absolute env +:+ "/").

(** [m1] and [m2] do the same in every world *)
Definition same {A} (m1 m2 : M A) : Prop := ∀ w, m1 w = m2 w.

(** nothing refuses: the calm hazards *)
Definition no_hazards : hazards := mkHazards (λ _, None) None (λ _, None) (λ _ _, None) None.

(** a file system that cannot encode the text of the report *)
Definition unencodable_report (report : string) : hazards :=
  mkHazards (λ _, None) None (λ _, None)
            (λ path content,
               match content with
               | FText s =>
                   if String.eqb s report
                   then Some (mkExc (OtherException "UnicodeEncodeError")
                                "'utf-8' codec can't encode character: surrogates not allowed"
                                None)
                   else None
               | _ => None
               end)
            None.

(** ** Vocabulary of the statements *)

(** Events by kind. *)
Definition is_fetch (ev : event) : bool :=
  match ev with EvGet _ => true | _ => false end.

Definition is_poll_event (ev : event) : bool :=
  match ev with EvGet _ | EvSleep _ => true | _ => false end.

Definition is_post (ev : event) : bool :=
  match ev with EvPost _ _ _ _ => true | _ => false end.

Definition is_import (ev : event) : bool :=
  match ev with EvImport => true | _ => false end.

Definition is_setup (ev : event) : bool :=
  match ev with EvImport | EvPipInstall | EvClient _ => true | _ => false end.

(** the number of [client.interactions.get] calls in a trace *)
Definition fetches (evs : list event) : nat := List.length (List.filter is_fetch evs).

(** [json.load] on an artifact *)
Definition json_load (f : file) : option json :=
  match f with
  | FJson j => Some j
  | _ => None
  end.

Definition returned {A} (r : res A) : bool :=
  match r with Returned _ => true | _ => false end.

(** a process starts with nothing printed and no call made *)
Definition initial_world (fs : gmap string file) : world := mkWorld [] fs [].

(** The failure of the HTTP call that [run_perplexity_research] handles:
    an exception of requests raised by the call, or the [HTTPError] of a
    4xx or 5xx response. *)
Definition transport_failure (env : environment) : option exc :=
  match requests_post env with
  | PostRaises e => if is_RequestException e then Some e else None
  | PostReturns r => http_error r
  end.

(** the lines that report a failure [e] of the HTTP call *)
Definition failure_report (e : exc) : list string :=
  (("✗ Perplexity API error: " +:+ exc_msg e) +:+ nl) ::
  match exc_response e with
  | Some body => [("  Response: " +:+ body) +:+ nl]
  | None => []
  end.

(** The wire contract of provider A with every field optional: a decoded
    body is an object; [choices], when there, is a non-empty list whose
    first element is an object whose [message], when there, is an object;
    [usage], when there, is an object; [search_results], when there, is a
    list of objects. *)
Definition is_dict (j : json) : bool :=
  match j with JDict _ => true | _ => false end.

Definition field_ok (d : list (string * json)) (key : string) (ok : json → bool) : bool :=
  match assoc key d with
  | None => true
  | Some v => ok v
  end.

Definition choices_ok (v : json) : bool :=
  match v with
  | JList (JDict c :: _) => field_ok c "message" is_dict
  | _ => false
  end.

Definition sources_ok (v : json) : bool :=
  match v with
  | JList l => forallb is_dict l
  | _ => false
  end.

Definition shape_ok (result : json) : bool :=
  match result with
  | JDict d =>
      field_ok d "choices" choices_ok && field_ok d "usage" is_dict
        && field_ok d "search_results" sources_ok
  | _ => false
  end.

(** a field of an object, or a default when the field is missing *)
Definition field_or (v : json) (key : string) (dflt : json) : json :=
  match v with
  | JDict d => default dflt (assoc key d)
  | _ => dflt
  end.

Definition first_or (v : json) (dflt : json) : json :=
  match v with
  | JList (x :: _) => x
  | _ => dflt
  end.

Definition items_of (v : json) : list json :=
  match v with
  | JList l => l
  | _ => []
  end.

(** the three things the report and the console lines are built from *)
Definition content_of (result : json) : json :=
  field_or (field_or (first_or (field_or result "choices" (JList [JDict []])) (JDict []))
              "message" (JDict []))
    "content" (JStr "").

Definition usage_of (result : json) : json := field_or result "usage" (JDict []).

Definition sources_of (result : json) : list json :=
  items_of (field_or result "search_results" (JList [])).

(** one entry of the numbered source list *)
Definition citation (env : environment) (i : nat) (source : json) : string :=
  str_of_nat i +:+ ". [" +:+ json_str env (field_or source "title" (JStr "Untitled"))
    +:+ "](" +:+ json_str env (field_or source "url" (JStr "")) +:+ ")" +:+ nl.

(** the entries numbered from [i] on, one after the other *)
Fixpoint citations (env : environment) (i : nat) (sources : list json) : string :=
  match sources with
  | [] => ""
  | source :: rest => citation env i source +:+ citations env (S i) rest
  end.

(** the console lines of a successful provider-A run after the banner *)
Definition perplexity_summary (env : environment) (result : json) : list string :=
  [(nl +:+ "✓ Research completed!") +:+ nl;
   ("  - Prompt tokens: "
      +:+ json_str env (field_or (usage_of result) "prompt_tokens" (JStr "N/A"))) +:+ nl;
   ("  - Completion tokens: "
      +:+ json_str env (field_or (usage_of result) "completion_tokens" (JStr "N/A"))) +:+ nl;
   ("  - Search queries: "
      +:+ json_str env (field_or (usage_of result) "num_search_queries" (JStr "N/A"))) +:+ nl;
   ("  - Citations: " +:+ str_of_nat (List.length (sources_of result)) +:+ " sources") +:+ nl;
   ("  - Report saved to: " +:+ OUTPUT_DIR +:+ "/perplexity_report.md") +:+ nl].

(** the text of [perplexity_report.md] *)
Definition perplexity_report (env : environment) (result : json) : string :=
  perplexity_report_head env (content_of result) +:+ citations env 1 (sources_of result).

(** the world a successful provider-A extraction leaves *)
Definition perplexity_saved (env : environment) (result : json) (w : world) : world :=
  mkWorld (console w ++ perplexity_summary env result)
          (<[in_output_dir "perplexity_report.md" := FText (perplexity_report env result)]>
             (<[in_output_dir "perplexity_full_response.json" := FJson result]> (files w)))
          (trace w ++ [EvMkdir OUTPUT_DIR]).

(** ** Footprints

    [extends P F w w']: from [w] to [w'] the console and the trace only
    grew, every new event satisfies [P], and no file outside [F] changed. *)
Definition extends (P : event → bool) (F : string → bool) (w w' : world) : Prop :=
  (∃ lines : list string, console w' = (console w ++ lines)%list) ∧
  (∃ evs : list event, trace w' = (trace w ++ evs)%list ∧ forallb P evs = true) ∧
  (∀ path, F path = false → files w' !! path = files w !! path).

Definition no_event (ev : event) : bool := false.
Definition no_file (path : string) : bool := false.

Definition is_mkdir (ev : event) : bool :=
  match ev with EvMkdir _ => true | _ => false end.

Definition perplexity_files (path : string) : bool :=
  String.eqb path (in_output_dir "perplexity_full_response.json")
  || String.eqb path (in_output_dir "perplexity_report.md").

Definition gemini_files (path : string) : bool :=
  String.eqb path (in_output_dir "gemini_full_response.json")
  || String.eqb path (in_output_dir "gemini_report.md").

(** the lines [run_perplexity_research] prints before the request, and the
    request it sends *)
Definition perplexity_banner : list string :=
  [(nl +:+ str_repeat "=" 60) +:+ nl;
   "PERPLEXITY SONAR DEEP RESEARCH" +:+ nl;
   str_repeat "=" 60 +:+ nl;
   "Starting Perplexity deep research..." +:+ nl;
   ("Query: " +:+ substring 0 100 RESEARCH_QUERY +:+ "...") +:+ nl].

Definition perplexity_request (env : environment) : event :=
  EvPost "https://api.perplexity.ai/chat/completions"
         [("Authorization", "Bearer " +:+ str_of_key (PERPLEXITY_API_KEY env));
          ("Content-Type", "application/json")]
         perplexity_payload 600.

Definition perplexity_started (env : environment) (w : world) : world :=
  mkWorld (console w ++ perplexity_banner) (files w) (trace w ++ [perplexity_request env]).

(** [keeps P F m]: whatever [m] does and however it ends, it stays within
    the footprint [P], [F]. *)
Definition keeps {A} (P : event → bool) (F : string → bool) (m : M A) : Prop :=
  ∀ w, extends P F w (m w).2.

(** the numbered list of (title, url) pairs, from number [i] on *)
Fixpoint numbered (i : nat) (pairs : list (string * string)) : string :=
  match pairs with
  | [] => ""
  | (title, link) :: rest =>
      (str_of_nat i +:+ ". [" +:+ title +:+ "](" +:+ link +:+ ")" +:+ nl)
        +:+ numbered (S i) rest
  end.

(** a source record that carries the strings [pair.1] as title and
    [pair.2] as url *)
Definition cites (source : json) (pair : string * string) : Prop :=
  ∃ fields, source = JDict fields
            ∧ assoc "title" fields = Some (JStr pair.1)
            ∧ assoc "url" fields = Some (JStr pair.2).

(** what the report has before the content, and between the content and
    the source list *)
Definition report_opening (env : environment) : string :=
  "# Perplexity Deep Research Report" +:+ nl +:+
  "## AI Regulation Comparison (EU, US, UK, Canada)" +:+ nl +:+
  nl +:+
  "*Generated: " +:+ strftime env Perplexity +:+ "*" +:+ nl +:+
  nl +:+
  "---" +:+ nl +:+
  nl.

Definition report_divider : string :=
  nl +:+ nl +:+ "---" +:+ nl +:+ nl +:+ "## Sources" +:+ nl +:+ nl.

(** ** Sample environments *)

Definition sample_str (v : pyval) : string := "<object>".

Definition no_client : exc := mkExc (OtherException "RuntimeError") "no client in this run" None.

(** both credentials set; the HTTP call times out; the client library is
    installed; no job can be created *)
Definition sample_env : environment :=
  mkEnv (Some "pplx-key") (Some "google-key") "/work/research_results"
        (λ _, "2025-01-01 12:00:00") sample_str
        (PostRaises (mkExc RequestException "Read timed out." None))
        None None None None None
        (inl no_client) (λ _, inl no_client) (λ k, 10 * Z.of_nat k).

Definition with_post (outcome : post_outcome) (env : environment) : environment :=
  mkEnv (PERPLEXITY_API_KEY env) (GOOGLE_API_KEY env) (OUTPUT_DIR_absolute env)
        (strftime env) (str_compound env) outcome
        (import_genai env) (genai_Client env) (pip_install env)
        (import_genai_again env) (genai_Client_again env)
        (interactions_create env) (interactions_get env) (elapsed_at env).

Definition with_keys (a b : option string) (env : environment) : environment :=
  mkEnv a b (OUTPUT_DIR_absolute env)
        (strftime env) (str_compound env) (requests_post env)
        (import_genai env) (genai_Client env) (pip_install env)
        (import_genai_again env) (genai_Client_again env)
        (interactions_create env) (interactions_get env) (elapsed_at env).

Definition with_job (create : exc + pyval) (get : nat → exc + pyval) (env : environment)
    : environment :=
  mkEnv (PERPLEXITY_API_KEY env) (GOOGLE_API_KEY env) (OUTPUT_DIR_absolute env)
        (strftime env) (str_compound env) (requests_post env)
        (import_genai env) (genai_Client env) (pip_install env)
        (import_genai_again env) (genai_Client_again env)
        create get (elapsed_at env).

Definition with_setup (import1 client1 pip import2 client2 : option exc) (env : environment)
    : environment :=
  mkEnv (PERPLEXITY_API_KEY env) (GOOGLE_API_KEY env) (OUTPUT_DIR_absolute env)
        (strftime env) (str_compound env) (requests_post env)
        import1 client1 pip import2 client2
        (interactions_create env) (interactions_get env) (elapsed_at env).

Definition endpoint_url : string := "https://api.perplexity.ai/chat/completions".

(** an HTTP response with a decodable body *)
Definition json_response (status : Z) (reason : string) (body : json) : http_response :=
  mkResponse status reason endpoint_url "<body>" (inr body).

(** a 500 response with an HTML error page *)
Definition server_error : http_response :=
  mkResponse 500 "Internal Server Error" endpoint_url "<html>oops</html>"
             (inl "Expecting value: line 1 column 1 (char 0)").

(** a 300 response whose body is the JSON object [{}] *)
Definition multiple_choices : http_response := json_response 300 "Multiple Choices" (JDict []).

(** a 200 response with one answer, usage figures and two sources *)
Definition sample_result : json :=
  JDict [("id", JStr "r-1");
         ("choices",
          JList [JDict [("index", JInt 0);
                        ("message", JDict [("role", JStr "assistant");
                                           ("content", JStr "FINDINGS")])]]);
         ("usage", JDict [("prompt_tokens", JInt 120);
                          ("completion_tokens", JInt 4500);
                          ("num_search_queries", JInt 28)]);
         ("search_results",
          JList [JDict [("title", JStr "AI Act"); ("url", JStr "https://eur-lex.europa.eu/ai");
                        ("date", JStr "2024-07-12")];
                 JDict [("url", JStr "https://www.ftc.gov/ai"); ("title", JStr "FTC notice")]])].

(** a 200 response that names one source without a title or url *)
Definition untitled_result : json := JDict [("search_results", JList [JDict []])].

(** a 200 response whose [choices] list is empty *)
Definition no_choices_result : json := JDict [("choices", JList [])].

(** ** Provider B: vocabulary *)

Definition has_id (v : pyval) : bool :=
  match py_attr v "id" with inr _ => true | inl _ => false end.

(** A fetched interaction that keeps the loop going: it has a status that
    is neither "completed" nor "failed", and an id for the next fetch. *)
Definition keeps_polling (v : pyval) : bool :=
  match py_attr v "status" with
  | inr status =>
      has_id v && negb (py_eq_str status "completed") && negb (py_eq_str status "failed")
  | inl _ => false
  end.

(** obtaining the client in a process that has done nothing yet *)
Definition client_run (env : environment) : res unit * world :=
  make_client env (initial_world ∅).

(** the client is obtained: at once, or after the package was installed *)
Definition client_ready (env : environment) : bool := returned (client_run env).1.

(** the world in which [run_gemini_research] enters its second [try] *)
Definition gemini_started (env : environment) (w : world) : world :=
  mkWorld (console w
             ++ [(nl +:+ str_repeat "=" 60) +:+ nl;
                 "GOOGLE GEMINI DEEP RESEARCH" +:+ nl;
                 str_repeat "=" 60 +:+ nl]
             ++ console (client_run env).2
             ++ ["Starting Gemini deep research..." +:+ nl;
                 ("Query: " +:+ substring 0 100 RESEARCH_QUERY +:+ "...") +:+ nl;
                 "(This may take up to 20 minutes for comprehensive research)" +:+ nl])%list
          (files w)
          (trace w ++ trace (client_run env).2)%list.

(** the world in which the poll loop is entered, the job created with id [id] *)
Definition job_created (env : environment) (id : pyval) (w : world) : world :=
  mkWorld (console w ++ [("Research started: " +:+ py_str env id) +:+ nl])%list
          (files w)
          (trace w ++ [EvCreate "deep-research-pro-preview-12-2025"])%list.

(** the console line of an idle round *)
Definition status_line (env : environment) (k : nat) (status : pyval) : string :=
  ("  Status: " +:+ py_str env status +:+ " (" +:+ str_of_Z (elapsed_at env k)
     +:+ "s elapsed)...") +:+ cr.

(** [json.dump]'s view of the snapshot of a completed interaction *)
Definition snapshot (interaction : pyval) : exc + json :=
  match raw_data interaction (py_getattr interaction "usage" (PDict [])) with
  | inl e => inl e
  | inr data => to_json data
  end.

(** the world a successful provider-B save leaves *)
Definition gemini_saved (env : environment) (interaction id content : pyval) (j : json)
    (w : world) : world :=
  mkWorld (console w
             ++ [("  - Total tokens: "
                    +:+ py_str env (py_getattr (py_getattr interaction "usage" (PDict []))
                                      "total_tokens" (PStr "N/A"))) +:+ nl;
                 ("  - Raw response saved to: " +:+ OUTPUT_DIR +:+ "/gemini_full_response.json")
                   +:+ nl;
                 ("  - Report saved to: " +:+ OUTPUT_DIR +:+ "/gemini_report.md") +:+ nl])%list
          (<[in_output_dir "gemini_report.md" := FText (gemini_report env id content)]>
             (<[in_output_dir "gemini_full_response.json" := FJson j]> (files w)))
          (trace w ++ [EvMkdir OUTPUT_DIR])%list.

Definition is_job_event (ev : event) : bool :=
  match ev with
  | EvCreate _ | EvGet _ | EvSleep _ | EvMkdir _ => true
  | _ => false
  end.

Definition is_gemini_event (ev : event) : bool := is_setup ev || is_job_event ev.


(** what [gemini_report.md] has before the report text *)
Definition gemini_opening (env : environment) (id : pyval) : string :=
  "# Google Gemini Deep Research Report" +:+ nl +:+
  "## AI Regulation Comparison (EU, US, UK, Canada)" +:+ nl +:+
  nl +:+
  "*Generated: " +:+ strftime env Gemini +:+ "*" +:+ nl +:+
  "*Interaction ID: " +:+ py_str env id +:+ "*" +:+ nl +:+
  nl +:+
  "---" +:+ nl +:+
  nl.

(** *** Sample interactions *)

Definition interaction_obj (id status : string) (more : list (string * pyval)) : pyval :=
  PObj "Interaction" (("id", PStr id) :: ("status", PStr status) :: more).

Definition text_output (t : string) : pyval :=
  PObj "TextContent" [("text", PStr t); ("type", PStr "text")].

Definition usage_obj (total : Z) : pyval :=
  PObj "Usage" [("total_tokens", PInt total)].

Definition running : pyval := interaction_obj "job-1" "in_progress" [("outputs", PNone)].

Definition finished : pyval :=
  interaction_obj "job-1" "completed"
    [("outputs", PList [text_output "thinking"; text_output "REPORT"]);
     ("usage", usage_obj 9000)].

Definition failed : pyval :=
  interaction_obj "job-1" "failed" [("error", PStr "quota exceeded"); ("outputs", PNone)].

Definition finished_empty : pyval :=
  interaction_obj "job-1" "completed" [("outputs", PNone); ("usage", usage_obj 0)].

(** completed, with a usage object that has no total *)
Definition finished_unmetered : pyval :=
  interaction_obj "job-1" "completed"
    [("outputs", PList [text_output "REPORT"]); ("usage", PObj "Usage" [])].

(** a job that is running at the first [idle] fetches and then reports [final] *)
Definition job_then (idle : nat) (final : pyval) (env : environment) : environment :=
  with_job (inr (interaction_obj "job-1" "created" []))
           (λ k, if (k <? idle)%nat then inr running
                 else if (k =? idle)%nat then inr final
                 else inl no_client)
           env.

(** a job that never leaves "in_progress" *)
Definition job_forever (env : environment) : environment :=
  with_job (inr (interaction_obj "job-1" "created" [])) (λ _, inr running) env.

(** a usage figure of a parsed raw artifact *)
Definition metric_of (parsed : json) (key : string) : option json :=
  match field_or parsed "usage" (JDict []) with
  | JDict u => assoc key u
  | _ => None
  end.

(** the usage figures provider A's pipeline prints, with their labels *)
Definition perplexity_metrics : list (string * string) :=
  [("prompt_tokens", "  - Prompt tokens: ");
   ("completion_tokens", "  - Completion tokens: ");
   ("num_search_queries", "  - Search queries: ")].

(** ** The driver: vocabulary *)

(** [m] never waits: however it ends, it has ended *)
Definition settles {A} (m : M A) : Prop := ∀ w, (m w).1 ≠ Pending.

Definition warning_a : string := "Warning: PERPLEXITY_API_KEY not found in .env" +:+ nl.
Definition warning_b : string := "Warning: GOOGLE_API_KEY not found in .env" +:+ nl.

(** what [main] prints before the pipelines *)
Definition main_opening (env : environment) : list string :=
  ([(nl +:+ str_repeat "#" 60) +:+ nl;
    "# DEEP RESEARCH COMPARISON" +:+ nl;
    "# Query: AI Regulation (EU, US, UK, Canada)" +:+ nl;
    str_repeat "#" 60 +:+ nl]
   ++ (if key_truthy (PERPLEXITY_API_KEY env) then [] else [warning_a])
   ++ (if key_truthy (GOOGLE_API_KEY env) then [] else [warning_b]))%list.

Definition main_started (env : environment) (w : world) : world :=
  mkWorld (console w ++ main_opening env)%list (files w) (trace w).

(** the two conditional calls of [main] *)
Definition pipeline_a (env : environment) : M (option json) :=
  if key_truthy (PERPLEXITY_API_KEY env) then run_perplexity_research env else mret None.

Definition pipeline_b (env : environment) (fuel : nat) : M (option pyval) :=
  if key_truthy (GOOGLE_API_KEY env) then run_gemini_research env fuel else mret None.

(** the summary block for the results [pr] and [gr] *)
Definition summary_lines (env : environment) (pr : option json) (gr : option pyval)
    : list string :=
  [(nl +:+ str_repeat "=" 60) +:+ nl;
   "SUMMARY" +:+ nl;
   str_repeat "=" 60 +:+ nl;
   ("Perplexity: " +:+ summary_mark (perplexity_truthy pr)) +:+ nl;
   ("Gemini:     " +:+ summary_mark (gemini_truthy gr)) +:+ nl;
   (nl +:+ "Results saved to: " +:+ OUTPUT_DIR_absolute env +:+ "/") +:+ nl].

(** [main], seen as its two calls and what it does with their outcomes *)
Definition main_outline (env : environment) (fuel : nat) (w : world) : res unit * world :=
  match pipeline_a env (main_started env w) with
  | (Returned pr, w2) =>
      match pipeline_b env fuel w2 with
      | (Returned gr, w3) =>
          (Returned tt,
           mkWorld (console w3 ++ summary_lines env pr gr)%list (files w3) (trace w3))
      | (Raised e, w3) => (Raised e, w3)
      | (Pending, w3) => (Pending, w3)
      end
  | (Raised e, w2) => (Raised e, w2)
  | (Pending, w2) => (Pending, w2)
  end.

(** Provider A's pipeline cannot raise: it is skipped, or the call fails
    the way the pipeline handles, or the body does not decode, or the
    decoded body has the shape of the wire contract. *)
Definition perplexity_contained (env : environment) : bool :=
  negb (key_truthy (PERPLEXITY_API_KEY env))
  || match requests_post env with
     | PostRaises e => is_RequestException e
     | PostReturns r =>
         match http_error r with
         | Some _ => true
         | None =>
             match json_body r with
             | inl _ => true
             | inr result => shape_ok result
             end
         end
     end.

(** Provider B's pipeline cannot raise: it is skipped, or the client is
    obtained. *)
Definition gemini_contained (env : environment) : bool :=
  negb (key_truthy (GOOGLE_API_KEY env)) || client_ready env.

Definition is_pip_install (ev : event) : bool :=
  match ev with EvPipInstall => true | _ => false end.

(** only provider B's credential is set; the package is missing and
    cannot be installed *)
Definition install_fails : environment :=
  with_setup (Some (mkExc ImportError "cannot import name 'genai' from 'google'" None)) None
             (Some (mkExc (OtherException "CalledProcessError")
                      "Command '['pip', 'install', 'google-genai']' returned non-zero exit status 1."
                      None))
             None None
             (with_keys None (Some "google-key") sample_env).

(** the world in which provider A's pipeline enters the loop over the
    sources: the figures printed, the directory made, the raw artifact
    written *)
Definition perplexity_dumped (env : environment) (result : json) (w : world) : world :=
  mkWorld (console w ++ firstn 5 (perplexity_summary env result))%list
          (<[in_output_dir "perplexity_full_response.json" := FJson result]> (files w))
          (trace w ++ [EvMkdir OUTPUT_DIR])%list.

(** a 200 response whose second source is a bare string *)
Definition bad_source_result : json :=
  JDict [("choices", JList [JDict [("message", JDict [("content", JStr "FINDINGS")])]]);
         ("search_results",
          JList [JDict [("title", JStr "AI Act"); ("url", JStr "https://eur-lex.europa.eu/ai")];
                 JStr "https://www.ftc.gov/ai"])].

(** a 200 response whose body is a JSON list *)
Definition list_body : http_response := json_response 200 "OK" (JList [JStr "unexpected"]).

(** a 200 response whose body is not JSON *)
Definition html_body : http_response :=
  mkResponse 200 "OK" endpoint_url "<html>maintenance</html>"
             (inl "Expecting value: line 1 column 1 (char 0)").

(** a world in which both reports of an earlier run are on disk *)
Definition earlier_run : world :=
  initial_world (<[in_output_dir "gemini_report.md" := FText "old gemini report"]>
                   (<[in_output_dir "perplexity_report.md" := FText "old perplexity report"]> ∅)).

(** no credential is set *)
Definition no_keys : environment := with_keys None (Some "") sample_env.

(** whether obtaining the client goes through the installation *)
Definition install_needed (env : environment) : bool :=
  match import_genai env with
  | Some e => is_ImportError e
  | None =>
      match genai_Client env with
      | Some e => is_ImportError e
      | None => false
      end
  end.

Definition is_create (ev : event) : bool :=
  match ev with EvCreate _ => true | _ => false end.

Definition has_text (o : pyval) : bool :=
  match py_attr o "text" with inr _ => true | inl _ => false end.

(** the world in which [run_gemini_research] ends when the client is not
    obtained *)
Definition gemini_stopped (env : environment) (w : world) : world :=
  mkWorld (console w
             ++ [(nl +:+ str_repeat "=" 60) +:+ nl;
                 "GOOGLE GEMINI DEEP RESEARCH" +:+ nl;
                 str_repeat "=" 60 +:+ nl]
             ++ console (client_run env).2)%list
          (files w)
          (trace w ++ trace (client_run env).2)%list.

(** the package is missing and gets installed *)
Definition fresh_machine : environment :=
  with_setup (Some (mkExc ImportError "cannot import name 'genai' from 'google'" None)) None
             None None None sample_env.

(** the client library rejects the credential *)
Definition rejected_key : environment :=
  with_setup None (Some (mkExc (OtherException "ValueError") "invalid API key" None))
             None None None sample_env.

(** completed, with a total that [json.dump] cannot write *)
Definition finished_decimal : pyval :=
  interaction_obj "job-1" "completed"
    [("outputs", PList [text_output "REPORT"]);
     ("usage", PObj "Usage" [("total_tokens", PObj "Decimal" [])])].

(** completed, with a first output segment that has no text *)
Definition finished_with_image : pyval :=
  interaction_obj "job-1" "completed"
    [("outputs", PList [PObj "ImageContent" [("type", PStr "image")]; text_output "REPORT"]);
     ("usage", usage_obj 9000)].

(** a job whose [idle]-th fetch raises *)
Definition job_then_raises (idle : nat) (e : exc) (env : environment) : environment :=
  with_job (inr (interaction_obj "job-1" "created" []))
           (λ k, if (k <? idle)%nat then inr running else inl e)
           env.

Definition connection_lost : exc :=
  mkExc (OtherException "ConnectError") "connection reset by peer" None.

Definition is_loop_event (ev : event) : bool := is_poll_event ev || is_mkdir ev.

(** completed without outputs, with a total that [json.dump] cannot write *)
Definition finished_empty_decimal : pyval :=
  interaction_obj "job-1" "completed"
    [("outputs", PNone); ("usage", PObj "Usage" [("total_tokens", PObj "Decimal" [])])].

(** only provider B's credential is set *)
Definition only_gemini (env : environment) : environment :=
  with_keys None (Some "google-key") env.

(** * Properties *)

Local Open Scope list_scope.

#[local] Arguments String.append : simpl never.
#[local] Arguments substring : simpl never.
#[local] Arguments str_repeat : simpl never.
#[local] Arguments str_of_Z : simpl never.
#[local] Arguments str_of_nat : simpl never.
#[local] Arguments is_RequestException : simpl never.
#[local] Arguments is_ImportError : simpl never.
#[local] Arguments in_output_dir : simpl never.
#[local] Arguments py_str : simpl never.
#[local] Arguments json_str : simpl never.
#[local] Arguments perplexity_report_head : simpl never.
#[local] Arguments gemini_report : simpl never.
#[local] Arguments citation : simpl never.
#[local] Arguments perplexity_banner : simpl never.
#[local] Arguments failure_report : simpl never.
#[local] Arguments fetches : simpl never.

(** One step of a run: unfold the monad's operations and compute. *)
Ltac exec :=
  repeat (progress (unfold mbind, mret, M_bind, M_ret, bind, ret, print, print_end,
                      emit, raise, lift, write_file, raise_if, pending; cbn)).

(** ** Text *)

Lemma append_assoc (a b c : string) : (a +:+ b) +:+ c = a +:+ (b +:+ c).
Proof.
  induction a as [|ch a IH]; [reflexivity|].
  change (String ch ((a +:+ b) +:+ c) = String ch (a +:+ (b +:+ c))).
  now rewrite IH.
Qed.

Lemma append_empty_r (a : string) : a +:+ "" = a.
Proof.
  induction a as [|ch a IH]; [reflexivity|].
  change (String ch (a +:+ "") = String ch a).
  now rewrite IH.
Qed.

Lemma contains_intro (before needle after : string) :
  contains (before +:+ needle +:+ after) needle.
Proof. now exists before, after. Qed.

(** ** Provider A: the successful path *)

Lemma json_get_field_or (d : list (string * json)) (key : string) (dflt : json) :
  json_get (JDict d) key dflt = inr (field_or (JDict d) key dflt).
Proof. reflexivity. Qed.

Lemma append_sources_ok (env : environment) (sources : list json) :
  ∀ (i : nat) (acc : string) (w : world),
    forallb is_dict sources = true →
    append_sources env i sources acc w = (Returned (acc +:+ citations env i sources), w).
Proof.
  induction sources as [|source rest IH]; intros i acc w Hok.
  - cbn. now rewrite append_empty_r.
  - cbn in Hok. apply andb_prop in Hok as [Hd Hrest].
    destruct source; try discriminate.
    cbn. exec. rewrite (IH _ _ _ Hrest).
    now rewrite append_assoc.
Qed.

Lemma save_perplexity_results_ok (env : environment) (result : json) (w : world) :
  shape_ok result = true →
  save_perplexity_results env result w = (Returned (Some result), perplexity_saved env result w).
Proof.
  intros H. destruct result as [| | | | | |d]; try discriminate.
  cbn in H. apply andb_prop in H as [H Hs]. apply andb_prop in H as [Hc Hu].
  unfold save_perplexity_results, perplexity_saved, perplexity_summary, perplexity_report,
    content_of, usage_of, sources_of, field_or, field_ok in *.
  exec.
  destruct (assoc "choices" d) as [choices|]; cbn in *.
  - destruct choices as [| | | | |[|[| | | | | |c] others]|]; try discriminate. cbn in *.
    unfold field_ok in Hc.
    destruct (assoc "message" c) as [[| | | | | |m]|]; try discriminate; cbn in *.
    all: destruct (assoc "usage" d) as [[| | | | | |u]|]; try discriminate; cbn in *.
    all: destruct (assoc "search_results" d) as [[| | | | |srcs|]|]; try discriminate; cbn in *.
    all: exec; try rewrite (append_sources_ok _ _ _ _ _ Hs); exec.
    all: rewrite <- ?app_assoc, ?append_empty_r; reflexivity.
  - destruct (assoc "usage" d) as [[| | | | | |u]|]; try discriminate; cbn in *.
    all: destruct (assoc "search_results" d) as [[| | | | |srcs|]|]; try discriminate; cbn in *.
    all: exec; try rewrite (append_sources_ok _ _ _ _ _ Hs); exec.
    all: rewrite <- ?app_assoc, ?append_empty_r; reflexivity.
Qed.

(** ** Footprints *)

Lemma extends_refl (P : event → bool) (F : string → bool) (w : world) : extends P F w w.
Proof.
  repeat split.
  - exists []. now rewrite app_nil_r.
  - exists []. now rewrite app_nil_r.
Qed.

Lemma extends_trans (P : event → bool) (F : string → bool) (w1 w2 w3 : world) :
  extends P F w1 w2 → extends P F w2 w3 → extends P F w1 w3.
Proof.
  intros (Hc1 & (evs1 & Ht1 & Hp1) & Hf1) (Hc2 & (evs2 & Ht2 & Hp2) & Hf2).
  destruct Hc1 as [l1 Hc1], Hc2 as [l2 Hc2].
  repeat split.
  - exists (l1 ++ l2). now rewrite Hc2, Hc1, app_assoc.
  - exists (evs1 ++ evs2). split.
    + now rewrite Ht2, Ht1, app_assoc.
    + now rewrite forallb_app, Hp1, Hp2.
  - intros path HF. now rewrite Hf2, Hf1.
Qed.

Lemma extends_weaken (P P' : event → bool) (F F' : string → bool) (w w' : world) :
  (∀ ev, P ev = true → P' ev = true) →
  (∀ path, F path = true → F' path = true) →
  extends P F w w' → extends P' F' w w'.
Proof.
  intros HP HF (Hc & (evs & Ht & Hp) & Hf).
  repeat split; [exact Hc| |].
  - exists evs. split; [exact Ht|].
    rewrite forallb_forall in *. intros ev Hin. apply HP, Hp, Hin.
  - intros path Hpath. apply Hf.
    destruct (F path) eqn:E; [|reflexivity]. now rewrite (HF _ E) in Hpath.
Qed.

Lemma extends_print (P : event → bool) (F : string → bool) (w : world) (line : string) :
  extends P F w (mkWorld (console w ++ [line]) (files w) (trace w)).
Proof.
  repeat split; cbn.
  - now exists [line].
  - exists []. now rewrite app_nil_r.
Qed.

Lemma extends_emit (P : event → bool) (F : string → bool) (w : world) (ev : event) :
  P ev = true →
  extends P F w (mkWorld (console w) (files w) (trace w ++ [ev])).
Proof.
  intros HP. repeat split; cbn.
  - exists []. now rewrite app_nil_r.
  - exists [ev]. cbn. now rewrite HP.
Qed.

Lemma extends_write (P : event → bool) (F : string → bool) (w : world)
    (path : string) (content : file) :
  F path = true →
  extends P F w (mkWorld (console w) (<[path := content]> (files w)) (trace w)).
Proof.
  intros HF. repeat split; cbn.
  - exists []. now rewrite app_nil_r.
  - exists []. now rewrite app_nil_r.
  - intros path' HF'. apply lookup_insert_ne. intros ->. congruence.
Qed.

Section Keeps.
Context {A B : Type} (P : event → bool) (F : string → bool).

Lemma keeps_ret (a : A) : keeps P F (mret a).
Proof. intros w. apply extends_refl. Qed.

Lemma keeps_raise (e : exc) : keeps P F (@raise A e).
Proof. intros w. apply extends_refl. Qed.

Lemma keeps_pending : keeps P F (@pending A).
Proof. intros w. apply extends_refl. Qed.

Lemma keeps_lift (r : exc + A) : keeps P F (lift r).
Proof. destruct r; intros w; apply extends_refl. Qed.

Lemma keeps_raise_if (o : option exc) : keeps P F (raise_if o).
Proof. destruct o; intros w; apply extends_refl. Qed.

Lemma keeps_print_end (s t : string) : keeps P F (print_end s t).
Proof. intros w. apply extends_print. Qed.

Lemma keeps_print (s : string) : keeps P F (print s).
Proof. apply keeps_print_end. Qed.

Lemma keeps_emit (ev : event) : P ev = true → keeps P F (emit ev).
Proof. intros HP w. now apply extends_emit. Qed.

Lemma keeps_write_file (path : string) (content : file) :
  F path = true → keeps P F (write_file path content).
Proof. intros HF w. now apply extends_write. Qed.

Lemma keeps_bind (m : M A) (k : A → M B) :
  keeps P F m → (∀ a, keeps P F (k a)) → keeps P F (m ≫= k).
Proof.
  intros Hm Hk w. specialize (Hm w).
  unfold mbind, M_bind, bind. destruct (m w) as [[a|e|] w1]; cbn in *; try exact Hm.
  eapply extends_trans; [exact Hm|apply Hk].
Qed.

Lemma keeps_try_except (m : M A) (catches : exc → bool) (handler : exc → M A) :
  keeps P F m → (∀ e, keeps P F (handler e)) → keeps P F (try_except m catches handler).
Proof.
  intros Hm Hh w. specialize (Hm w).
  unfold try_except. destruct (m w) as [[a|e|] w1]; cbn in *; try exact Hm.
  destruct (catches e); [|exact Hm].
  eapply extends_trans; [exact Hm|apply Hh].
Qed.

(** what runs after [m] starts from the world [m] leaves *)
Lemma bind_extends (m : M A) (k : A → M B) (w : world) :
  (∀ a, keeps P F (k a)) → extends P F (m w).2 ((m ≫= k) w).2.
Proof.
  intros Hk. unfold mbind, M_bind, bind.
  destruct (m w) as [[a|e|] w1]; cbn; try apply extends_refl. apply Hk.
Qed.

Lemma try_except_extends (m : M A) (catches : exc → bool) (handler : exc → M A)
    (w : world) :
  (∀ e, keeps P F (handler e)) → extends P F (m w).2 (try_except m catches handler w).2.
Proof.
  intros Hh. unfold try_except.
  destruct (m w) as [[a|e|] w1]; cbn; try apply extends_refl.
  destruct (catches e); [apply Hh|apply extends_refl].
Qed.
End Keeps.

(** Walk a script along its binds; at a branch on data, take every case. *)
Ltac keeps_walk :=
  repeat first
    [ match goal with
      | |- keeps _ _ (mbind _ _) => apply keeps_bind; [|intros ?]
      | |- keeps _ _ (try_except _ _ _) => apply keeps_try_except; [|intros ?]
      end
    | apply keeps_ret | apply keeps_raise | apply keeps_pending | apply keeps_lift
    | apply keeps_raise_if | apply keeps_print | apply keeps_print_end
    | apply keeps_emit; reflexivity
    | apply keeps_write_file; reflexivity
    | match goal with
      | |- keeps _ _ (if ?b then _ else _) => destruct b
      | |- keeps _ _ (match ?x with _ => _ end) => destruct x
      end ].

Lemma append_sources_keeps (env : environment) (P : event → bool) (F : string → bool)
    (sources : list json) :
  ∀ (i : nat) (acc : string), keeps P F (append_sources env i sources acc).
Proof.
  induction sources as [|source rest IH]; intros i acc; cbn [append_sources].
  - apply keeps_ret.
  - keeps_walk. apply IH.
Qed.

Lemma save_perplexity_results_keeps (env : environment) (result : json) :
  keeps is_mkdir perplexity_files (save_perplexity_results env result).
Proof.
  unfold save_perplexity_results. keeps_walk. apply append_sources_keeps.
Qed.

Lemma perplexity_call_keeps (env : environment) :
  keeps (λ ev, is_post ev || is_mkdir ev) perplexity_files (perplexity_call env).
Proof.
  unfold perplexity_call, requests_post_call, raise_for_status, response_json. keeps_walk.
  intros w. eapply extends_weaken; [| |apply save_perplexity_results_keeps]; cbn.
  - intros ev ->. apply orb_true_r.
  - auto.
Qed.

(** ** Provider A: the whole pipeline *)

Lemma run_perplexity_research_eq (env : environment) (w : world) :
  run_perplexity_research env w =
  try_except (perplexity_call env) is_RequestException perplexity_handler
    (mkWorld (console w ++ perplexity_banner) (files w) (trace w)).
Proof.
  unfold run_perplexity_research, perplexity_banner, mbind, M_bind, bind, print, print_end.
  cbn. now rewrite <- !app_assoc.
Qed.

Lemma perplexity_handler_keeps (P : event → bool) (F : string → bool) (e : exc) :
  keeps P F (perplexity_handler e).
Proof. unfold perplexity_handler. keeps_walk. Qed.

Lemma perplexity_handler_eq (e : exc) (w : world) :
  perplexity_handler e w =
  (Returned None, mkWorld (console w ++ failure_report e) (files w) (trace w)).
Proof.
  unfold perplexity_handler, failure_report. destruct (exc_response e); exec.
  - now rewrite <- app_assoc.
  - reflexivity.
Qed.

(** Every run sends the request first; after that it only creates the
    output directory and writes its own two files. *)
Lemma run_perplexity_research_footprint (env : environment) (w : world) :
  extends is_mkdir perplexity_files
    (mkWorld (console w ++ perplexity_banner) (files w) (trace w ++ [perplexity_request env]))
    (run_perplexity_research env w).2.
Proof.
  rewrite run_perplexity_research_eq.
  set (w5 := mkWorld (console w ++ perplexity_banner) (files w) (trace w)).
  eapply extends_trans; [|apply try_except_extends; intros e; apply perplexity_handler_keeps].
  unfold perplexity_call.
  match goal with
  | |- extends _ _ ?w0 ((?m ≫= ?k) w5).2 =>
      replace w0 with (m w5).2; [apply bind_extends|]
  end.
  - intros response. unfold raise_for_status, response_json. keeps_walk.
    apply save_perplexity_results_keeps.
  - unfold requests_post_call, perplexity_request. exec.
    destruct (requests_post env); reflexivity.
Qed.

Lemma http_error_Some (r : http_response) (e : exc) :
  http_error r = Some e →
  is_RequestException e = true ∧ exc_response e = Some (text r)
  ∧ (400 <= status_code r < 600)%Z.
Proof.
  unfold http_error. intros H.
  destruct ((400 <=? status_code r)%Z && (status_code r <? 500)%Z) eqn:E4.
  - inversion H; subst. repeat split; cbn; lia.
  - destruct ((500 <=? status_code r)%Z && (status_code r <? 600)%Z) eqn:E5; [|discriminate].
    inversion H; subst. repeat split; cbn; lia.
Qed.

Lemma http_error_None (r : http_response) :
  http_error r = None ↔ (status_code r < 400 ∨ 600 <= status_code r)%Z.
Proof.
  unfold http_error.
  destruct ((400 <=? status_code r)%Z && (status_code r <? 500)%Z) eqn:E4;
    [split; [discriminate|lia]|].
  destruct ((500 <=? status_code r)%Z && (status_code r <? 600)%Z) eqn:E5;
    [split; [discriminate|lia]|].
  split; [lia|reflexivity].
Qed.

Lemma transport_failure_caught (env : environment) (e : exc) :
  transport_failure env = Some e → is_RequestException e = true.
Proof.
  unfold transport_failure. destruct (requests_post env) as [e'|r].
  - destruct (is_RequestException e') eqn:E; [|discriminate]. now intros [= <-].
  - intros H. now apply http_error_Some in H.
Qed.

Lemma run_perplexity_failure (env : environment) (e : exc) (w : world) :
  transport_failure env = Some e →
  run_perplexity_research env w =
  (Returned None,
   mkWorld (console w ++ perplexity_banner ++ failure_report e) (files w)
           (trace w ++ [perplexity_request env])).
Proof.
  intros H. pose proof (transport_failure_caught _ _ H) as Hc.
  rewrite run_perplexity_research_eq.
  unfold try_except, perplexity_call, requests_post_call, raise_for_status, transport_failure in *.
  exec. destruct (requests_post env) as [e'|r]; exec.
  - destruct (is_RequestException e'); [|discriminate]. injection H as ->.
    rewrite perplexity_handler_eq. cbn. now rewrite <- app_assoc.
  - rewrite H. exec. rewrite Hc, perplexity_handler_eq. cbn. now rewrite <- app_assoc.
Qed.

Lemma run_perplexity_undecodable (env : environment) (r : http_response) (msg : string)
    (w : world) :
  requests_post env = PostReturns r → http_error r = None → json_body r = inl msg →
  run_perplexity_research env w =
  (Returned None,
   mkWorld (console w ++ perplexity_banner ++ failure_report (mkExc RequestException msg None))
           (files w) (trace w ++ [perplexity_request env])).
Proof.
  intros Hp He Hb. rewrite run_perplexity_research_eq.
  unfold try_except, perplexity_call, requests_post_call, raise_for_status, response_json.
  exec. rewrite Hp. exec. rewrite He. exec. rewrite Hb. exec.
  change (is_RequestException _) with true. cbv iota.
  rewrite perplexity_handler_eq. cbn. now rewrite <- app_assoc.
Qed.

Lemma run_perplexity_decoded (env : environment) (r : http_response) (result : json)
    (w : world) :
  requests_post env = PostReturns r → http_error r = None → json_body r = inr result →
  run_perplexity_research env w =
  try_except (save_perplexity_results env result) is_RequestException perplexity_handler
    (perplexity_started env w).
Proof.
  intros Hp He Hb. rewrite run_perplexity_research_eq.
  unfold try_except, perplexity_call, requests_post_call, raise_for_status, response_json.
  exec. rewrite Hp. exec. rewrite He. exec. rewrite Hb. exec. reflexivity.
Qed.

Lemma run_perplexity_success (env : environment) (r : http_response) (result : json)
    (w : world) :
  requests_post env = PostReturns r → http_error r = None → json_body r = inr result →
  shape_ok result = true →
  run_perplexity_research env w =
  (Returned (Some result), perplexity_saved env result (perplexity_started env w)).
Proof.
  intros Hp He Hb Hs. rewrite (run_perplexity_decoded _ _ _ _ Hp He Hb).
  unfold try_except. now rewrite save_perplexity_results_ok.
Qed.

(** ** Provider A: claims *)

(** [C2], for a call that fails with an exception of requests or returns a
    4xx or 5xx status: the pipeline function catches the error, ends its
    output with the error message and, when the error carries a response,
    the response body, returns [None], sends nothing but the one request
    and leaves every file as it was; [perplexity_report.md] in particular
    has the content, or the absence, it had before. *)
Theorem transport_failure_yields_no_result (env : environment) (e : exc) (w : world) :
  transport_failure env = Some e →
  ∃ w',
    run_perplexity_research env w = (Returned None, w')
    ∧ files w' = files w
    ∧ files w' !! in_output_dir "perplexity_report.md"
      = files w !! in_output_dir "perplexity_report.md"
    ∧ (∃ before, console w' = before ++ failure_report e)
    ∧ (∀ r, requests_post env = PostReturns r → exc_response e = Some (text r))
    ∧ trace w' = trace w ++ [perplexity_request env].
Proof.
  intros H. eexists. split; [apply (run_perplexity_failure _ _ _ H)|]. cbn.
  repeat split.
  - exists (console w ++ perplexity_banner). now rewrite app_assoc.
  - intros r Hr. unfold transport_failure in H. rewrite Hr in H.
    now apply http_error_Some in H.
Qed.

Lemma transport_failure_yields_no_result_witness :
  ∃ w',
    run_perplexity_research (with_post (PostReturns server_error) sample_env)
      (initial_world ∅) = (Returned None, w')
    ∧ files w' = ∅
    ∧ (∃ before,
         console w' = before ++ ["✗ Perplexity API error: 500 Server Error: Internal Server Error for url: https://api.perplexity.ai/chat/completions" +:+ nl;
                                 "  Response: <html>oops</html>" +:+ nl]).
Proof.
  destruct (transport_failure_yields_no_result
              (with_post (PostReturns server_error) sample_env)
              (mkExc RequestException
                 "500 Server Error: Internal Server Error for url: https://api.perplexity.ai/chat/completions"
                 (Some "<html>oops</html>"))
              (initial_world ∅)) as (w' & Hrun & Hfiles & _ & Hconsole & _).
  - vm_compute. reflexivity.
  - exists w'. split; [exact Hrun|]. split; [exact Hfiles|exact Hconsole].
Defined.

(** Against [C2] as written: a 300 response is not a 2xx response, and
    when its body decodes the pipeline returns the body and writes the
    report. *)
Lemma redirect_status_counterexample :
  let env := with_post (PostReturns multiple_choices) sample_env in
  let run := run_perplexity_research env (initial_world ∅) in
  requests_post env = PostReturns multiple_choices
  ∧ status_code multiple_choices = 300%Z
  ∧ run.1 = Returned (Some (JDict []))
  ∧ run.2.(files) !! in_output_dir "perplexity_report.md"
    = Some (FText (perplexity_report env (JDict []))).
Proof.
  cbv zeta. repeat split.
Qed.

Lemma citations_numbered (env : environment) (sources : list json)
    (pairs : list (string * string)) :
  Forall2 cites sources pairs →
  ∀ i, citations env i sources = numbered i pairs.
Proof.
  induction 1 as [|source [title link] sources pairs (fields & -> & Ht & Hu) _ IH]; intros i.
  - reflexivity.
  - cbn [citations numbered]. rewrite IH. unfold citation, field_or.
    cbn in Ht, Hu. now rewrite Ht, Hu.
Qed.

Lemma cites_is_dict (sources : list json) (pairs : list (string * string)) :
  Forall2 cites sources pairs → forallb is_dict sources = true.
Proof.
  induction 1 as [|source pair sources pairs (fields & -> & _) _ IH]; [reflexivity|].
  cbn. exact IH.
Qed.

(** [C4]: when a 2xx response decodes to an object whose first choice
    carries the content string [c], whose usage is an object and whose
    search results carry, in order, the (title, url) pairs [pairs], the
    pipeline returns the object and [perplexity_report.md] is the opening,
    then [c] verbatim, then the divider, then the sources numbered from 1
    in the order of the response, each as [i. [title](url)] on its line. *)
Theorem report_has_content_then_numbered_sources
    (env : environment) (r : http_response) (d choice message usage : list (string * json))
    (others sources : list json) (c : string) (pairs : list (string * string)) (w : world) :
  requests_post env = PostReturns r →
  (200 <= status_code r < 300)%Z →
  json_body r = inr (JDict d) →
  assoc "choices" d = Some (JList (JDict choice :: others)) →
  assoc "message" choice = Some (JDict message) →
  assoc "content" message = Some (JStr c) →
  assoc "usage" d = Some (JDict usage) →
  assoc "search_results" d = Some (JList sources) →
  Forall2 cites sources pairs →
  ∃ w',
    run_perplexity_research env w = (Returned (Some (JDict d)), w')
    ∧ files w' !! in_output_dir "perplexity_report.md"
      = Some (FText (report_opening env +:+ c +:+ report_divider +:+ numbered 1 pairs)).
Proof.
  intros Hp Hs Hb Hc Hm Hcontent Hu Hsr Hpairs.
  assert (He : http_error r = None) by (apply http_error_None; lia).
  assert (Hok : shape_ok (JDict d) = true).
  { unfold shape_ok, field_ok. rewrite Hc, Hu, Hsr. cbn. unfold field_ok. rewrite Hm. cbn.
    apply (cites_is_dict _ _ Hpairs). }
  eexists. split; [apply (run_perplexity_success _ _ _ _ Hp He Hb Hok)|].
  cbn. rewrite lookup_insert_eq. do 2 f_equal.
  unfold perplexity_report, content_of, sources_of, field_or, first_or, items_of.
  rewrite Hc, Hsr. cbn. rewrite Hm. cbn. rewrite Hcontent. cbn.
  rewrite (citations_numbered _ _ _ Hpairs).
  unfold perplexity_report_head, report_opening, report_divider, json_str, py_str. cbn.
  now rewrite !append_assoc.
Qed.

Lemma report_has_content_then_numbered_sources_witness :
  ∃ w',
    run_perplexity_research
      (with_post (PostReturns (json_response 200 "OK" sample_result)) sample_env)
      (initial_world ∅) = (Returned (Some sample_result), w')
    ∧ files w' !! in_output_dir "perplexity_report.md"
      = Some (FText (report_opening sample_env +:+ "FINDINGS" +:+ report_divider
                       +:+ numbered 1 [("AI Act", "https://eur-lex.europa.eu/ai");
                                       ("FTC notice", "https://www.ftc.gov/ai")])).
Proof.
  eapply (report_has_content_then_numbered_sources
            (with_post (PostReturns (json_response 200 "OK" sample_result)) sample_env)
            (json_response 200 "OK" sample_result)).
  - reflexivity.
  - cbn. lia.
  - reflexivity.
  - reflexivity.
  - reflexivity.
  - reflexivity.
  - reflexivity.
  - reflexivity.
  - repeat constructor; eexists; repeat split; reflexivity.
Defined.

(** Against [C7] as written: a source without a title is listed under the
    title Untitled, which is neither empty nor N/A. *)
Lemma untitled_source_counterexample :
  let env := with_post (PostReturns (json_response 200 "OK" untitled_result)) sample_env in
  let run := run_perplexity_research env (initial_world ∅) in
  run.1 = Returned (Some untitled_result)
  ∧ run.2.(files) !! in_output_dir "perplexity_report.md"
    = Some (FText (perplexity_report_head env (JStr "") +:+ "1. [Untitled]()" +:+ nl))
  ∧ "Untitled" ≠ "" ∧ "Untitled" ≠ "N/A".
Proof.
  cbv zeta. repeat split; discriminate.
Qed.

(** ** Provider B: obtaining the client *)

#[local] Arguments poll : simpl nomatch.

Lemma make_client_eq (env : environment) (w : world) :
  make_client env w =
  ((client_run env).1,
   mkWorld (console w ++ console (client_run env).2) (files w)
           (trace w ++ trace (client_run env).2)).
Proof.
  unfold client_run, make_client, try_except.
  destruct (import_genai env) as [e1|], (genai_Client env) as [e2|],
    (pip_install env) as [e3|], (import_genai_again env) as [e4|],
    (genai_Client_again env) as [e5|];
    exec;
    try (destruct (is_ImportError e1)); try (destruct (is_ImportError e2));
    exec; rewrite ?app_nil_r, <- ?app_assoc; reflexivity.
Qed.

Lemma make_client_keeps (env : environment) : keeps is_setup no_file (make_client env).
Proof. unfold make_client. keeps_walk. Qed.

Lemma make_client_imports_first (env : environment) :
  ∃ evs, trace (client_run env).2 = EvImport :: evs ∧ forallb is_setup evs = true.
Proof.
  unfold client_run, make_client.
  pose proof (try_except_extends is_setup no_file
    (emit EvImport;; raise_if (import_genai env);;
     emit (EvClient (GOOGLE_API_KEY env));; raise_if (genai_Client env))
    is_ImportError
    (λ _, print "Installing google-genai package...";; emit EvPipInstall;;
          raise_if (pip_install env);; emit EvImport;;
          raise_if (import_genai_again env);;
          emit (EvClient (GOOGLE_API_KEY env));; raise_if (genai_Client_again env))
    (initial_world ∅)) as H1.
  pose proof (bind_extends is_setup no_file (emit EvImport)
    (λ _, raise_if (import_genai env);;
          emit (EvClient (GOOGLE_API_KEY env));; raise_if (genai_Client env))
    (initial_world ∅)) as H2.
  assert (H : extends is_setup no_file (emit EvImport (initial_world ∅)).2
                (client_run env).2).
  { eapply extends_trans; [apply H2|apply H1]; intros; keeps_walk. }
  destruct H as (_ & (evs & Ht & Hp) & _). exists evs. split; [exact Ht|exact Hp].
Qed.

Lemma client_ready_returns (env : environment) (w : world) :
  client_ready env = true → (make_client env w).1 = Returned tt.
Proof.
  unfold client_ready. rewrite make_client_eq. cbn.
  destruct (client_run env).1 as [[]| |]; [reflexivity|discriminate|discriminate].
Qed.

(** ** Provider B: the poll loop *)

Lemma poll_round (env : environment) (fuel k : nat) (i i' id status : pyval) (w : world) :
  py_attr i "id" = inr id →
  interactions_get env k = inr i' →
  py_attr i' "status" = inr status →
  py_eq_str status "completed" = false →
  py_eq_str status "failed" = false →
  poll env (S fuel) k i w
  = poll env fuel (S k) i'
      (mkWorld (console w ++ [status_line env k status]) (files w)
               (trace w ++ [EvGet id; EvSleep 10])).
Proof.
  intros Hid Hget Hst Hc Hf. cbn [poll]. unfold status_line.
  unfold mbind, M_bind, bind, lift, emit, print_end, ret.
  rewrite Hid. cbn. rewrite Hget. cbn. rewrite Hst. cbn. rewrite Hc, Hf. cbn.
  now rewrite <- app_assoc.
Qed.

Lemma poll_completed (env : environment) (fuel k : nat) (i i' id : pyval) (w : world) :
  py_attr i "id" = inr id →
  interactions_get env k = inr i' →
  py_attr i' "status" = inr (PStr "completed") →
  poll env (S fuel) k i w
  = (Returned (Some i'),
     mkWorld (console w ++ [(nl +:+ "✓ Research completed in " +:+ str_of_Z (elapsed_at env k)
                               +:+ " seconds!") +:+ nl])
             (files w) (trace w ++ [EvGet id])).
Proof.
  intros Hid Hget Hst. cbn [poll].
  unfold mbind, M_bind, bind, lift, emit, print, print_end, ret, mret, M_ret.
  rewrite Hid. cbn. rewrite Hget. cbn. rewrite Hst. reflexivity.
Qed.

Lemma poll_failed (env : environment) (fuel k : nat) (i i' id error : pyval) (w : world) :
  py_attr i "id" = inr id →
  interactions_get env k = inr i' →
  py_attr i' "status" = inr (PStr "failed") →
  py_attr i' "error" = inr error →
  poll env (S fuel) k i w
  = (Returned None,
     mkWorld (console w ++ [(nl +:+ "✗ Research failed: " +:+ py_str env error) +:+ nl])
             (files w) (trace w ++ [EvGet id])).
Proof.
  intros Hid Hget Hst Herr. cbn [poll].
  unfold mbind, M_bind, bind, lift, emit, print, print_end, ret, mret, M_ret.
  rewrite Hid. cbn. rewrite Hget. cbn. rewrite Hst. cbn. rewrite Herr. reflexivity.
Qed.

Lemma poll_keeps (env : environment) (fuel : nat) :
  ∀ (k : nat) (i : pyval), keeps is_poll_event no_file (poll env fuel k i).
Proof.
  induction fuel as [|fuel IH]; intros k i; cbn [poll].
  - apply keeps_pending.
  - keeps_walk. apply IH.
Qed.

Lemma keeps_polling_inv (v : pyval) :
  keeps_polling v = true →
  ∃ id status,
    py_attr v "id" = inr id ∧ py_attr v "status" = inr status
    ∧ py_eq_str status "completed" = false ∧ py_eq_str status "failed" = false.
Proof.
  unfold keeps_polling, has_id.
  destruct (py_attr v "status") as [|status]; [discriminate|].
  destruct (py_attr v "id") as [|id]; [discriminate|].
  intros H. exists id, status.
  destruct (py_eq_str status "completed"), (py_eq_str status "failed");
    try discriminate. now repeat split.
Qed.

Lemma fetches_app (evs evs' : list event) : fetches (evs ++ evs') = (fetches evs + fetches evs')%nat.
Proof. unfold fetches. now rewrite List.filter_app, length_app. Qed.

(** [n] idle rounds, one after the other *)
Lemma poll_idle (env : environment) (n : nat) :
  ∀ (fuel k : nat) (i : pyval) (w : world),
    has_id i = true →
    (∀ j, (j < n)%nat → ∃ i', interactions_get env (k + j) = inr i' ∧ keeps_polling i' = true) →
    ∃ i' w',
      poll env (n + fuel) k i w = poll env fuel (k + n) i' w'
      ∧ has_id i' = true
      ∧ extends is_poll_event no_file w w'
      ∧ fetches (trace w') = (fetches (trace w) + n)%nat.
Proof.
  induction n as [|n IH]; intros fuel k i w Hid Hidle.
  - exists i, w. rewrite Nat.add_0_r. repeat split; auto using extends_refl.
    + exists []. now rewrite app_nil_r.
    + exists []. now rewrite app_nil_r.
  - destruct (Hidle 0%nat ltac:(lia)) as (i1 & Hget & Hk). rewrite Nat.add_0_r in Hget.
    destruct (keeps_polling_inv _ Hk) as (id1 & status & Hid1 & Hst & Hc & Hf).
    unfold has_id in Hid. destruct (py_attr i "id") as [|id] eqn:Ei; [discriminate|].
    cbn [Nat.add]. rewrite (poll_round env _ k i i1 id status w Ei Hget Hst Hc Hf).
    destruct (IH fuel (S k) i1
                (mkWorld (console w ++ [status_line env k status]) (files w)
                         (trace w ++ [EvGet id; EvSleep 10])))
      as (i' & w' & Heq & Hid' & Hext & Hfetch).
    + unfold has_id. now rewrite Hid1.
    + intros j Hj. destruct (Hidle (S j) ltac:(lia)) as (i2 & Hget2 & Hk2).
      exists i2. split; [|exact Hk2]. now rewrite <- Hget2, Nat.add_succ_r.
    + exists i', w'. rewrite Heq, Nat.add_succ_r. repeat split; try assumption.
      * destruct Hext as ((l & Hl) & _). cbn in Hl. exists (status_line env k status :: l).
        now rewrite Hl, <- app_assoc.
      * destruct Hext as (_ & (evs & Ht & Hp) & _). cbn in Ht.
        exists (EvGet id :: EvSleep 10 :: evs). split; [now rewrite Ht, <- app_assoc|exact Hp].
      * destruct Hext as (_ & _ & Hfiles). exact Hfiles.
      * rewrite Hfetch. cbn [trace]. rewrite fetches_app.
        change (fetches [EvGet id; EvSleep 10%Z]) with 1%nat. lia.
Qed.

(** ** Provider B: saving, and the whole pipeline *)

Lemma keeps_weaken {A} (P P' : event → bool) (F F' : string → bool) (m : M A) :
  (∀ ev, P ev = true → P' ev = true) →
  (∀ path, F path = true → F' path = true) →
  keeps P F m → keeps P' F' m.
Proof. intros HP HF Hm w. eapply extends_weaken; eauto. Qed.

Lemma save_gemini_results_ok (env : environment) (i id content : pyval) (j : json)
    (w : world) :
  py_attr i "id" = inr id →
  final_text i = inr content →
  snapshot i = inr j →
  save_gemini_results env i w = (Returned (Some i), gemini_saved env i id content j w).
Proof.
  intros Hid Hfinal Hsnap. unfold snapshot in Hsnap.
  destruct (raw_data i (py_getattr i "usage" (PDict []))) as [|data] eqn:Er; [discriminate|].
  unfold save_gemini_results, json_dump, gemini_saved.
  unfold mbind, M_bind, bind, lift, emit, print, print_end, ret, mret, M_ret, write_file.
  rewrite Hfinal. cbn. rewrite Er. cbn. rewrite Hsnap. cbn. rewrite Hid. cbn.
  now rewrite <- !app_assoc.
Qed.

Lemma save_gemini_results_keeps (env : environment) (i : pyval) :
  keeps is_mkdir gemini_files (save_gemini_results env i).
Proof. unfold save_gemini_results, json_dump. keeps_walk. Qed.

Lemma gemini_job_keeps (env : environment) (fuel : nat) :
  keeps is_job_event gemini_files (gemini_job env fuel).
Proof.
  unfold gemini_job. keeps_walk.
  - eapply keeps_weaken; [| |apply poll_keeps]; [now intros []|discriminate].
  - unfold after_poll. keeps_walk.
    eapply keeps_weaken; [| |apply save_gemini_results_keeps]; [now intros []|auto].
Qed.

Lemma gemini_handler_eq (e : exc) (w : world) :
  gemini_handler e w
  = (Returned None,
     mkWorld (console w ++ [("✗ Gemini API error: " +:+ exc_msg e) +:+ nl]) (files w) (trace w)).
Proof. reflexivity. Qed.

Lemma gemini_handler_keeps (P : event → bool) (F : string → bool) (e : exc) :
  keeps P F (gemini_handler e).
Proof. unfold gemini_handler. keeps_walk. Qed.

Lemma run_gemini_research_eq (env : environment) (fuel : nat) (w : world) :
  client_ready env = true →
  run_gemini_research env fuel w
  = try_except (gemini_job env fuel) (λ _, true) gemini_handler (gemini_started env w).
Proof.
  intros Hc. pose proof (client_ready_returns env) as Hr.
  unfold run_gemini_research, gemini_started, mbind, M_bind, bind, print, print_end.
  cbn. rewrite make_client_eq in *. specialize (Hr (initial_world ∅) Hc).
  rewrite make_client_eq in Hr. cbn in Hr. rewrite Hr. cbn.
  now rewrite <- !app_assoc.
Qed.

(** without a client the pipeline ends where obtaining it ended *)
Lemma run_gemini_research_no_client (env : environment) (fuel : nat) (w : world) :
  client_ready env = false →
  ∃ e, (client_run env).1 = Raised e ∧ (run_gemini_research env fuel w).1 = Raised e.
Proof.
  unfold client_ready. intros Hc.
  assert (Hnp : ∀ w0, (make_client env w0).1 ≠ Pending).
  { intros w0. unfold make_client, try_except.
    destruct (import_genai env) as [e1|], (genai_Client env) as [e2|],
      (pip_install env) as [e3|], (import_genai_again env) as [e4|],
      (genai_Client_again env) as [e5|];
      exec;
      try (destruct (is_ImportError e1)); try (destruct (is_ImportError e2));
      exec; discriminate. }
  specialize (Hnp (initial_world ∅)). fold (client_run env) in Hnp.
  destruct (client_run env).1 as [[]|e|] eqn:E; [discriminate| |congruence].
  exists e. split; [reflexivity|].
  unfold run_gemini_research, mbind, M_bind, bind, print, print_end.
  cbn. rewrite make_client_eq. rewrite E. reflexivity.
Qed.

Lemma gemini_job_eq (env : environment) (fuel : nat) (i0 id0 : pyval) (w : world) :
  interactions_create env = inr i0 →
  py_attr i0 "id" = inr id0 →
  gemini_job env fuel w = (poll env fuel 0 i0 ≫= after_poll env) (job_created env id0 w).
Proof.
  intros Hcreate Hid.
  unfold gemini_job, job_created, mbind, M_bind, bind, lift, emit, print, print_end, ret.
  rewrite Hcreate. cbn. rewrite Hid. cbn. reflexivity.
Qed.

(** a [try] that catches everything with a handler that returns does not raise *)
Lemma try_except_all {A} (m : M A) (handler : exc → M A) (w : world) :
  (∀ e w', ∃ a w'', handler e w' = (Returned a, w'')) →
  ∀ e, (try_except m (λ _, true) handler w).1 ≠ Raised e.
Proof.
  intros Hh e. unfold try_except. destruct (m w) as [[a|e'|] w1]; cbn; try discriminate.
  destruct (Hh e' w1) as (a & w2 & ->). discriminate.
Qed.

Lemma run_gemini_research_contained (env : environment) (fuel : nat) (w : world) :
  client_ready env = true → ∀ e, (run_gemini_research env fuel w).1 ≠ Raised e.
Proof.
  intros Hc e. rewrite (run_gemini_research_eq _ _ _ Hc).
  apply try_except_all. intros e' w'. rewrite gemini_handler_eq. eauto.
Qed.

(** ** Provider B: claims *)

Lemma filter_excluded (P Q : event → bool) (evs : list event) :
  (∀ ev, P ev = true → Q ev = false) →
  forallb P evs = true → List.filter Q evs = [].
Proof.
  intros HPQ. induction evs as [|ev evs IH]; [reflexivity|].
  cbn. intros H. apply andb_prop in H as [Hev Hevs].
  rewrite (HPQ _ Hev). auto.
Qed.

Lemma client_trace_setup (env : environment) :
  forallb is_setup (trace (client_run env).2) = true.
Proof. destruct (make_client_imports_first env) as (evs & -> & H). exact H. Qed.

Lemma gemini_report_eq (env : environment) (id : pyval) (s : string) :
  gemini_report env id (PStr s) = gemini_opening env id +:+ s +:+ nl.
Proof.
  unfold gemini_report, gemini_opening.
  change (py_str env (PStr s)) with s. now rewrite !append_assoc.
Qed.

(** [C1]: the client is there, the job is created, the first two fetches
    return an interaction whose status is "in_progress", the third one an
    interaction whose status is "completed", whose last output has the
    text REPORT and whose snapshot [json.dump] can write.  Then the
    pipeline returns that interaction, it has fetched exactly three times,
    each time by the id of the interaction it held, with a sleep of 10
    seconds after each of the two fetches that were not terminal and none
    after the third, and [gemini_report.md] is the opening followed by
    REPORT and a newline. *)
Theorem three_fetches_then_report
    (env : environment) (fuel : nat) (i0 i1 i2 i3 id0 id1 id2 id3 final : pyval)
    (outs : list pyval) (j : json) (w : world) :
  client_ready env = true →
  interactions_create env = inr i0 → py_attr i0 "id" = inr id0 →
  interactions_get env 0 = inr i1 →
  py_attr i1 "id" = inr id1 → py_attr i1 "status" = inr (PStr "in_progress") →
  interactions_get env 1 = inr i2 →
  py_attr i2 "id" = inr id2 → py_attr i2 "status" = inr (PStr "in_progress") →
  interactions_get env 2 = inr i3 →
  py_attr i3 "id" = inr id3 → py_attr i3 "status" = inr (PStr "completed") →
  py_attr i3 "outputs" = inr (PList outs) →
  last outs = Some final → py_attr final "text" = inr (PStr "REPORT") →
  snapshot i3 = inr j →
  (3 <= fuel)%nat →
  ∃ w',
    run_gemini_research env fuel w = (Returned (Some i3), w')
    ∧ List.filter is_poll_event (trace w')
      = List.filter is_poll_event (trace w)
          ++ [EvGet id0; EvSleep 10; EvGet id1; EvSleep 10; EvGet id2]
    ∧ fetches (trace w') = (fetches (trace w) + 3)%nat
    ∧ files w' !! in_output_dir "gemini_report.md"
      = Some (FText (gemini_opening env id3 +:+ "REPORT" +:+ nl))
    ∧ contains (gemini_opening env id3 +:+ "REPORT" +:+ nl) "REPORT".
Proof.
  intros Hc Hcreate H0 Hg1 Hid1 Hs1 Hg2 Hid2 Hs2 Hg3 Hid3 Hs3 Houts Hlast Htext Hsnap Hfuel.
  destruct fuel as [|[|[|fuel]]]; try lia.
  assert (Hfinal : final_text i3 = inr (PStr "REPORT")).
  { unfold final_text. rewrite Houts. destruct outs as [|o outs]; [discriminate|].
    cbn. now rewrite Hlast. }
  eexists. split.
  - rewrite (run_gemini_research_eq _ _ _ Hc). unfold try_except.
    rewrite (gemini_job_eq _ _ _ _ _ Hcreate H0).
    unfold mbind at 1, M_bind, bind.
    rewrite (poll_round env _ 0 i0 i1 id0 _ _ H0 Hg1 Hs1 eq_refl eq_refl).
    rewrite (poll_round env _ 1 i1 i2 id1 _ _ Hid1 Hg2 Hs2 eq_refl eq_refl).
    rewrite (poll_completed env _ 2 i2 i3 id2 _ Hid2 Hg3 Hs3).
    unfold after_poll. rewrite (save_gemini_results_ok _ _ _ _ _ _ Hid3 Hfinal Hsnap).
    reflexivity.
  - cbn. repeat split.
    + rewrite !List.filter_app.
      rewrite (filter_excluded is_setup is_poll_event _ ltac:(now intros []) (client_trace_setup env)).
      cbn. now rewrite <- !app_assoc.
    + unfold fetches. rewrite !List.filter_app.
      rewrite (filter_excluded is_setup is_fetch _ ltac:(now intros []) (client_trace_setup env)).
      cbn. rewrite !length_app. cbn. lia.
    + rewrite lookup_insert_eq. now rewrite gemini_report_eq.
    + apply contains_intro.
Qed.

Lemma three_fetches_then_report_witness :
  ∃ w',
    run_gemini_research (job_then 2 finished sample_env) 5 (initial_world ∅)
    = (Returned (Some finished), w')
    ∧ List.filter is_poll_event (trace w')
      = List.filter is_poll_event []
          ++ [EvGet (PStr "job-1"); EvSleep 10; EvGet (PStr "job-1"); EvSleep 10;
              EvGet (PStr "job-1")]
    ∧ fetches (trace w') = (fetches [] + 3)%nat
    ∧ files w' !! in_output_dir "gemini_report.md"
      = Some (FText (gemini_opening (job_then 2 finished sample_env) (PStr "job-1")
                       +:+ "REPORT" +:+ nl))
    ∧ contains (gemini_opening (job_then 2 finished sample_env) (PStr "job-1")
                  +:+ "REPORT" +:+ nl) "REPORT".
Proof.
  eapply (three_fetches_then_report (job_then 2 finished sample_env) 5
            (interaction_obj "job-1" "created" []) running running finished
            (PStr "job-1") (PStr "job-1") (PStr "job-1") (PStr "job-1")
            (text_output "REPORT") [text_output "thinking"; text_output "REPORT"]).
  all: try (vm_compute; reflexivity).
  lia.
Defined.

Lemma has_id_inv (v : pyval) : has_id v = true → ∃ id, py_attr v "id" = inr id.
Proof. unfold has_id. destruct (py_attr v "id") as [|id]; [discriminate|eauto]. Qed.

Lemma fetches_setup (env : environment) : fetches (trace (client_run env).2) = 0%nat.
Proof.
  unfold fetches.
  now rewrite (filter_excluded is_setup is_fetch _ ltac:(now intros []) (client_trace_setup env)).
Qed.

(** the world in which the loop is entered has seen no fetch of this run *)
Lemma fetches_job_created (env : environment) (id : pyval) (w : world) :
  fetches (trace (job_created env id (gemini_started env w))) = fetches (trace w).
Proof.
  cbn [job_created gemini_started trace]. rewrite !fetches_app, fetches_setup.
  change (fetches [EvCreate _]) with 0%nat. lia.
Qed.

Lemma files_job_created (env : environment) (id : pyval) (w : world) :
  files (job_created env id (gemini_started env w)) = files w.
Proof. reflexivity. Qed.

Lemma extends_no_file (P : event → bool) (w w' : world) :
  extends P no_file w w' → files w' = files w.
Proof. intros (_ & _ & H). apply map_eq. intros path. now apply H. Qed.

(** [C5]: the client is there, the job is created, [n] fetches return
    interactions that keep the loop going and the next fetch returns an
    interaction whose status is "failed" and which has an [error].  Then
    the pipeline returns [None] without raising, the last thing it prints
    is the line with that error, the fetch that reported the failure is
    the last call it makes, it has fetched exactly [n + 1] times, and it
    has written no file. *)
Theorem failed_status_ends_the_pipeline
    (env : environment) (fuel n : nat) (i0 lost error : pyval) (w : world) :
  client_ready env = true →
  interactions_create env = inr i0 → has_id i0 = true →
  (∀ j, (j < n)%nat → ∃ i, interactions_get env j = inr i ∧ keeps_polling i = true) →
  interactions_get env n = inr lost →
  py_attr lost "status" = inr (PStr "failed") →
  py_attr lost "error" = inr error →
  (n < fuel)%nat →
  ∃ w',
    run_gemini_research env fuel w = (Returned None, w')
    ∧ last (console w') = Some ((nl +:+ "✗ Research failed: " +:+ py_str env error) +:+ nl)
    ∧ (∃ id, last (trace w') = Some (EvGet id))
    ∧ fetches (trace w') = (fetches (trace w) + S n)%nat
    ∧ files w' = files w.
Proof.
  intros Hc Hcreate Hid0 Hidle Hget Hst Herr Hfuel.
  destruct (has_id_inv _ Hid0) as (id0 & H0).
  replace fuel with (n + S (fuel - S n))%nat by lia.
  destruct (poll_idle env n (S (fuel - S n)) 0 i0
              (job_created env id0 (gemini_started env w)) Hid0 Hidle)
    as (i' & w1 & Heq & Hid' & Hext & Hfetch).
  destruct (has_id_inv _ Hid') as (id' & H').
  eexists. split.
  - rewrite (run_gemini_research_eq _ _ _ Hc). unfold try_except.
    rewrite (gemini_job_eq _ _ _ _ _ Hcreate H0).
    unfold mbind, M_bind, bind. rewrite Heq.
    rewrite (poll_failed env _ (0 + n) i' lost id' error w1 H' Hget Hst Herr).
    reflexivity.
  - cbn. repeat split.
    + apply last_snoc.
    + exists id'. apply last_snoc.
    + rewrite fetches_app, Hfetch, fetches_job_created.
      change (fetches [EvGet id']) with 1%nat. lia.
    + rewrite (extends_no_file _ _ _ Hext). reflexivity.
Qed.

Lemma failed_status_ends_the_pipeline_witness :
  ∃ w',
    run_gemini_research (job_then 4 failed sample_env) 9 (initial_world ∅) = (Returned None, w')
    ∧ last (console w') = Some ((nl +:+ "✗ Research failed: " +:+ "quota exceeded") +:+ nl)
    ∧ (∃ id, last (trace w') = Some (EvGet id))
    ∧ fetches (trace w') = (fetches [] + 5)%nat
    ∧ files w' = ∅.
Proof.
  apply (failed_status_ends_the_pipeline (job_then 4 failed sample_env) 9 4
           (interaction_obj "job-1" "created" []) failed (PStr "quota exceeded")
           (initial_world ∅)); try reflexivity.
  - intros j Hj. exists running. split; [|reflexivity].
    do 4 (destruct j as [|j]; [reflexivity|]). lia.
  - lia.
Defined.

(** [C8]: the client is there, the job is created and every fetch
    returns an interaction that keeps the loop going (a status other than
    "completed" and "failed", and an id).  Then whatever number of rounds
    is allowed, the loop is still running after them and has fetched once
    per round: no bound in the loop or in the pipeline ends it. *)
Theorem poll_loop_has_no_bound (env : environment) (i0 : pyval) :
  client_ready env = true →
  interactions_create env = inr i0 → has_id i0 = true →
  (∀ k, ∃ i, interactions_get env k = inr i ∧ keeps_polling i = true) →
  ∀ (fuel : nat) (w : world),
    (poll env fuel 0 i0 w).1 = Pending
    ∧ (run_gemini_research env fuel w).1 = Pending
    ∧ fetches (trace (run_gemini_research env fuel w).2) = (fetches (trace w) + fuel)%nat.
Proof.
  intros Hc Hcreate Hid0 Hidle fuel w.
  destruct (has_id_inv _ Hid0) as (id0 & H0).
  split.
  - destruct (poll_idle env fuel 0 0 i0 w Hid0 ltac:(intros; apply Hidle))
      as (i' & w1 & Heq & _).
    rewrite Nat.add_0_r in Heq. now rewrite Heq.
  - destruct (poll_idle env fuel 0 0 i0 (job_created env id0 (gemini_started env w))
                Hid0 ltac:(intros; apply Hidle))
      as (i' & w1 & Heq & _ & _ & Hfetch).
    rewrite Nat.add_0_r in Heq.
    rewrite (run_gemini_research_eq _ _ _ Hc). unfold try_except.
    rewrite (gemini_job_eq _ _ _ _ _ Hcreate H0).
    unfold mbind, M_bind, bind. rewrite Heq. cbn.
    split; [reflexivity|]. now rewrite Hfetch, fetches_job_created.
Qed.

Lemma poll_loop_has_no_bound_witness :
  (poll (job_forever sample_env) 40 0 (interaction_obj "job-1" "created" [])
     (initial_world ∅)).1 = Pending
  ∧ (run_gemini_research (job_forever sample_env) 40 (initial_world ∅)).1 = Pending
  ∧ fetches (trace (run_gemini_research (job_forever sample_env) 40 (initial_world ∅)).2)
    = (fetches [] + 40)%nat.
Proof.
  apply (poll_loop_has_no_bound (job_forever sample_env) (interaction_obj "job-1" "created" []));
    try reflexivity.
  intros k. exists running. split; reflexivity.
Defined.

Lemma snapshot_without_outputs (i id outputs : pyval) (j_id j_usage : json) :
  py_attr i "id" = inr id →
  py_attr i "status" = inr (PStr "completed") →
  py_attr i "outputs" = inr outputs →
  py_truthy outputs = false →
  to_json id = inr j_id →
  to_json (usage_record (py_getattr i "usage" (PDict []))) = inr j_usage →
  snapshot i
  = inr (JDict [("id", j_id); ("status", JStr "completed"); ("outputs", JList []);
                ("usage", j_usage)]).
Proof.
  intros Hid Hst Houts Hfalsy Hjid Hju.
  unfold snapshot, raw_data. rewrite Hid, Hst, Houts, Hfalsy.
  cbn. rewrite Hjid, Hju. reflexivity.
Qed.

(** ** json.dump and json.load *)

Lemma pyval_nested_ind (P : pyval → Prop) :
  P PNone → (∀ b, P (PBool b)) → (∀ z, P (PInt z)) → (∀ r, P (PFloat r)) →
  (∀ s, P (PStr s)) →
  (∀ l, Forall P l → P (PList l)) →
  (∀ d, Forall (λ kv, P kv.2) d → P (PDict d)) →
  (∀ cls attrs, P (PObj cls attrs)) →
  ∀ v, P v.
Proof.
  intros HN HB HI HF HS HL HD HO.
  fix IH 1.
  intros [| | | | |l|d|cls attrs];
    [apply HN|apply HB|apply HI|apply HF|apply HS| | |apply HO].
  - apply HL. induction l as [|x l IHl]; constructor; [apply IH|exact IHl].
  - apply HD. induction d as [|[k x] d IHd]; constructor; [apply IH|exact IHd].
Qed.

Lemma to_json_list_cons (x : pyval) (l : list pyval) (j : json) :
  to_json (PList (x :: l)) = inr j →
  ∃ jx jl, to_json x = inr jx ∧ to_json (PList l) = inr (JList jl) ∧ j = JList (jx :: jl).
Proof.
  cbn. destruct (to_json x) as [|jx]; [discriminate|].
  match goal with |- context [match ?f l with inl _ => _ | inr _ => _ end] =>
    destruct (f l) as [|jl]; [discriminate|] end.
  intros [= <-]. eauto.
Qed.

Lemma to_json_dict_cons (k : string) (x : pyval) (d : list (string * pyval)) (j : json) :
  to_json (PDict ((k, x) :: d)) = inr j →
  ∃ jx jd, to_json x = inr jx ∧ to_json (PDict d) = inr (JDict jd) ∧ j = JDict ((k, jx) :: jd).
Proof.
  cbn. destruct (to_json x) as [|jx]; [discriminate|].
  match goal with |- context [match ?f d with inl _ => _ | inr _ => _ end] =>
    destruct (f d) as [|jd]; [discriminate|] end.
  intros [= <-]. eauto.
Qed.

(** what [json.dump] wrote, [json.load] reads back as the same value *)
Lemma of_json_to_json (v : pyval) : ∀ j, to_json v = inr j → of_json j = v.
Proof.
  induction v as [| | | | |l IH|d IH|cls attrs] using pyval_nested_ind; intros j.
  1-5: now intros [= <-].
  - revert j. induction IH as [|x l Hx _ IHl]; intros j.
    + now intros [= <-].
    + intros H. apply to_json_list_cons in H as (jx & jl & Hjx & Hjl & ->).
      specialize (IHl _ Hjl). cbn in IHl. injection IHl as IHl.
      cbn. now rewrite (Hx _ Hjx), IHl.
  - revert j. induction IH as [|[k x] d Hx _ IHd]; intros j.
    + now intros [= <-].
    + intros H. apply to_json_dict_cons in H as (jx & jd & Hjx & Hjd & ->).
      specialize (IHd _ Hjd). cbn in IHd. injection IHd as IHd.
      cbn. cbn in Hx. now rewrite (Hx _ Hjx), IHd.
  - discriminate.
Qed.

(** every decoded JSON value can be written *)
Lemma to_json_of_json (j : json) : to_json (of_json j) = inr j.
Proof.
  revert j. fix IH 1. intros [| | | | |l|d]; try reflexivity.
  - assert (H : to_json (PList (map of_json l)) = inr (JList l)).
    { induction l as [|x l IHl]; [reflexivity|].
      cbn in *. rewrite (IH x).
      match goal with |- context [match ?f (map of_json l) with inl _ => _ | inr _ => _ end] =>
        destruct (f (map of_json l)) as [|jl]; [discriminate|] end.
      now injection IHl as ->. }
    exact H.
  - assert (H : to_json (PDict (map (λ kv, (kv.1, of_json kv.2)) d)) = inr (JDict d)).
    { induction d as [|[k x] d IHd]; [reflexivity|].
      cbn in *. rewrite (IH x).
      match goal with
      | |- context [match ?f (map ?g d) with inl _ => _ | inr _ => _ end] =>
          destruct (f (map g d)) as [|jd]; [discriminate|]
      end.
      now injection IHd as ->. }
    exact H.
Qed.

(** ** Provider B: a completed job *)

Lemma run_gemini_research_completed
    (env : environment) (fuel n : nat) (i0 done id content : pyval) (j : json) (w : world) :
  client_ready env = true →
  interactions_create env = inr i0 → has_id i0 = true →
  (∀ k, (k < n)%nat → ∃ i, interactions_get env k = inr i ∧ keeps_polling i = true) →
  interactions_get env n = inr done →
  py_attr done "status" = inr (PStr "completed") →
  py_attr done "id" = inr id →
  final_text done = inr content →
  snapshot done = inr j →
  (n < fuel)%nat →
  ∃ w1,
    run_gemini_research env fuel w
    = (Returned (Some done), gemini_saved env done id content j w1)
    ∧ files w1 = files w
    ∧ fetches (trace w1) = (fetches (trace w) + S n)%nat.
Proof.
  intros Hc Hcreate Hid0 Hidle Hget Hst Hid Hfinal Hsnap Hfuel.
  destruct (has_id_inv _ Hid0) as (id0 & H0).
  replace fuel with (n + S (fuel - S n))%nat by lia.
  destruct (poll_idle env n (S (fuel - S n)) 0 i0
              (job_created env id0 (gemini_started env w)) Hid0 Hidle)
    as (i' & w1 & Heq & Hid' & Hext & Hfetch).
  destruct (has_id_inv _ Hid') as (id' & H').
  eexists. split; [|split].
  - rewrite (run_gemini_research_eq _ _ _ Hc). unfold try_except.
    rewrite (gemini_job_eq _ _ _ _ _ Hcreate H0).
    unfold mbind, M_bind, bind. rewrite Heq.
    rewrite (poll_completed env _ (0 + n) i' done id' w1 H' Hget Hst).
    unfold after_poll. rewrite (save_gemini_results_ok _ _ _ _ _ _ Hid Hfinal Hsnap).
    reflexivity.
  - cbn. now rewrite (extends_no_file _ _ _ Hext).
  - cbn [trace]. rewrite fetches_app, Hfetch, fetches_job_created.
    change (fetches [EvGet id']) with 1%nat. lia.
Qed.

(** the total the snapshot records is the total the usage object has *)
Lemma snapshot_total_tokens (i total : pyval) (j : json) :
  snapshot i = inr j →
  py_attr (py_getattr i "usage" (PDict [])) "total_tokens" = inr total →
  ∃ jv, metric_of j "total_tokens" = Some jv ∧ to_json total = inr jv.
Proof.
  unfold snapshot, raw_data. intros Hsnap Htotal.
  set (usage := py_getattr i "usage" (PDict [])) in *.
  assert (Hu : usage_record usage
               = PDict [("prompt_tokens", py_getattr usage "prompt_tokens" PNone);
                        ("completion_tokens", py_getattr usage "completion_tokens" PNone);
                        ("total_tokens", total)]).
  { unfold usage_record, py_getattr at 3. rewrite Htotal.
    destruct usage; try discriminate. reflexivity. }
  rewrite Hu in Hsnap. clearbody usage.
  destruct (py_attr i "id") as [|id]; [discriminate|].
  destruct (py_attr i "status") as [|status]; [discriminate|].
  destruct (py_attr i "outputs") as [|outputs]; [discriminate|].
  match type of Hsnap with
  | match (match ?r with _ => _ end) with _ => _ end = _ =>
      destruct r as [|records]; [discriminate|]
  end.
  apply to_json_dict_cons in Hsnap as (j1 & d1 & _ & Hsnap & ->).
  apply to_json_dict_cons in Hsnap as (j2 & d2 & _ & Hsnap & [= ->]).
  apply to_json_dict_cons in Hsnap as (j3 & d3 & _ & Hsnap & [= ->]).
  apply to_json_dict_cons in Hsnap as (j4 & d4 & Husage & Hsnap & [= ->]).
  injection Hsnap as <-.
  apply to_json_dict_cons in Husage as (u1 & e1 & _ & Husage & ->).
  apply to_json_dict_cons in Husage as (u2 & e2 & _ & Husage & [= ->]).
  apply to_json_dict_cons in Husage as (u3 & e3 & Hv & Husage & [= ->]).
  injection Husage as <-.
  exists u3. split; [reflexivity|exact Hv].
Qed.

(** ** Round trip of the usage figures *)

(** the usage entry of the snapshot is the usage record, written *)
Lemma snapshot_usage_record (i : pyval) (j : json) :
  snapshot i = inr j →
  ∃ ju, to_json (usage_record (py_getattr i "usage" (PDict []))) = inr ju
        ∧ field_or j "usage" (JDict []) = ju.
Proof.
  unfold snapshot, raw_data. intros Hsnap.
  destruct (py_attr i "id") as [|id]; [discriminate|].
  destruct (py_attr i "status") as [|status]; [discriminate|].
  destruct (py_attr i "outputs") as [|outputs]; [discriminate|].
  match type of Hsnap with
  | match (match ?r with _ => _ end) with _ => _ end = _ =>
      destruct r as [|records]; [discriminate|]
  end.
  apply to_json_dict_cons in Hsnap as (j1 & d1 & _ & Hsnap & ->).
  apply to_json_dict_cons in Hsnap as (j2 & d2 & _ & Hsnap & [= ->]).
  apply to_json_dict_cons in Hsnap as (j3 & d3 & _ & Hsnap & [= ->]).
  apply to_json_dict_cons in Hsnap as (j4 & d4 & Husage & Hsnap & [= ->]).
  injection Hsnap as <-. exists j4. split; [exact Husage|reflexivity].
Qed.

Lemma falsy_has_no_attribute (v : pyval) (attr : string) :
  py_truthy v = false → ∃ e, py_attr v attr = inl e.
Proof. destruct v; try discriminate; cbn; eauto. Qed.

(** [C9], with what happens to a figure the answer lacks.  Provider A:
    after a successful run the raw artifact parses back to the decoded
    body itself, and the console line of each of the three usage figures
    shows the value the parsed artifact has for it, or N/A when the
    parsed artifact has none.  Provider B: after a successful run the raw
    artifact parses back to a snapshot; when the usage object has a
    [total_tokens], the snapshot holds it under usage and it is the value
    on the console line; when the usage object is truthy and has no
    [total_tokens], the console line shows N/A and the snapshot holds
    [null]; when the usage object is missing or falsy, the console line
    shows N/A and the snapshot has no entry for the total. *)
Theorem usage_figures_round_trip :
  (∀ (env : environment) (r : http_response) (result : json) (w : world),
     requests_post env = PostReturns r →
     http_error r = None →
     json_body r = inr result →
     shape_ok result = true →
     ∃ w',
       run_perplexity_research env w = (Returned (Some result), w')
       ∧ files w' !! in_output_dir "perplexity_full_response.json" ≫= json_load = Some result
       ∧ ∀ key label,
           In (key, label) perplexity_metrics →
           In ((label +:+ match metric_of result key with
                          | Some v => json_str env v
                          | None => "N/A"
                          end) +:+ nl) (console w'))
  ∧
  (∀ (env : environment) (fuel n : nat) (i0 done id content : pyval) (j : json) (w : world),
     client_ready env = true →
     interactions_create env = inr i0 → has_id i0 = true →
     (∀ k, (k < n)%nat → ∃ i, interactions_get env k = inr i ∧ keeps_polling i = true) →
     interactions_get env n = inr done →
     py_attr done "status" = inr (PStr "completed") →
     py_attr done "id" = inr id →
     final_text done = inr content →
     snapshot done = inr j →
     (n < fuel)%nat →
     ∃ w',
       run_gemini_research env fuel w = (Returned (Some done), w')
       ∧ files w' !! in_output_dir "gemini_full_response.json" ≫= json_load = Some j
       ∧ (∀ total,
            py_attr (py_getattr done "usage" (PDict [])) "total_tokens" = inr total →
            ∃ jv, metric_of j "total_tokens" = Some jv
                  ∧ of_json jv = total
                  ∧ In (("  - Total tokens: " +:+ json_str env jv) +:+ nl) (console w'))
       ∧ (py_truthy (py_getattr done "usage" (PDict [])) = true →
          (∃ e, py_attr (py_getattr done "usage" (PDict [])) "total_tokens" = inl e) →
          metric_of j "total_tokens" = Some JNull
          ∧ In (("  - Total tokens: " +:+ "N/A") +:+ nl) (console w'))
       ∧ (py_truthy (py_getattr done "usage" (PDict [])) = false →
          metric_of j "total_tokens" = None
          ∧ In (("  - Total tokens: " +:+ "N/A") +:+ nl) (console w'))).
Proof.
  split.
  - intros env r result w Hp He Hb Hok.
    exists (perplexity_saved env result (perplexity_started env w)).
    split; [apply (run_perplexity_success _ _ _ _ Hp He Hb Hok)|]. split.
    + cbn [perplexity_saved files].
      rewrite lookup_insert_ne by (vm_compute; discriminate).
      now rewrite lookup_insert_eq.
    + intros key label Hin. cbn [perplexity_saved console].
      apply in_or_app. right.
      unfold metric_of, perplexity_summary, usage_of.
      assert (Hu : ∃ u, field_or result "usage" (JDict []) = JDict u).
      { destruct result as [| | | | | |d]; try discriminate. cbn in Hok.
        apply andb_prop in Hok as [Hok _]. apply andb_prop in Hok as [_ Hu].
        unfold field_ok in Hu. cbn. destruct (assoc "usage" d) as [[| | | | | |u]|];
          try discriminate; cbn; eauto. }
      destruct Hu as (u & ->). unfold field_or.
      cbn in Hin. destruct Hin as [[= <- <-]|[[= <- <-]|[[= <- <-]|[]]]].
      * destruct (assoc "prompt_tokens" u); cbn; auto.
      * destruct (assoc "completion_tokens" u); cbn; auto.
      * destruct (assoc "num_search_queries" u); cbn; auto.
  - intros env fuel n i0 done id content j w
      Hc Hcreate Hid0 Hidle Hget Hst Hid Hfinal Hsnap Hfuel.
    destruct (run_gemini_research_completed _ _ _ _ _ _ _ _ w
                Hc Hcreate Hid0 Hidle Hget Hst Hid Hfinal Hsnap Hfuel) as (w1 & Hrun & _).
    exists (gemini_saved env done id content j w1).
    split; [exact Hrun|]. split; [|split; [|split]].
    + cbn [gemini_saved files].
      rewrite lookup_insert_ne by (vm_compute; discriminate).
      now rewrite lookup_insert_eq.
    + intros total Htotal.
      destruct (snapshot_total_tokens _ _ _ Hsnap Htotal) as (jv & Hm & Hjv).
      exists jv. split; [exact Hm|]. split; [now apply of_json_to_json|].
      cbn [gemini_saved console]. apply in_or_app. right. left.
      unfold json_str. rewrite (of_json_to_json _ _ Hjv).
      unfold py_getattr at 1. now rewrite Htotal.
    + intros Htruthy (e & Hmissing).
      destruct (snapshot_usage_record _ _ Hsnap) as (ju & Hju & Hfield).
      set (usage := py_getattr done "usage" (PDict [])) in *.
      unfold usage_record in Hju. rewrite Htruthy in Hju.
      unfold py_getattr at 3 in Hju. rewrite Hmissing in Hju.
      apply to_json_dict_cons in Hju as (u1 & e1 & _ & Hju & ->).
      apply to_json_dict_cons in Hju as (u2 & e2 & _ & Hju & [= ->]).
      apply to_json_dict_cons in Hju as (u3 & e3 & Hv & Hju & [= ->]).
      injection Hju as <-. injection Hv as <-. subst usage.
      split.
      * unfold metric_of. now rewrite Hfield.
      * cbn [gemini_saved console]. apply in_or_app. right. left.
        unfold py_getattr at 1. now rewrite Hmissing.
    + intros Hfalsy.
      destruct (snapshot_usage_record _ _ Hsnap) as (ju & Hju & Hfield).
      unfold usage_record in Hju. rewrite Hfalsy in Hju. injection Hju as <-.
      destruct (falsy_has_no_attribute _ "total_tokens" Hfalsy) as (e & Hmissing).
      split.
      * unfold metric_of. now rewrite Hfield.
      * cbn [gemini_saved console]. apply in_or_app. right. left.
        unfold py_getattr at 1. now rewrite Hmissing.
Qed.

Lemma usage_figures_round_trip_witness :
  (∃ w',
     run_perplexity_research
       (with_post (PostReturns (json_response 200 "OK" sample_result)) sample_env)
       (initial_world ∅) = (Returned (Some sample_result), w')
     ∧ files w' !! in_output_dir "perplexity_full_response.json" ≫= json_load
       = Some sample_result
     ∧ In ("  - Prompt tokens: 120" +:+ nl) (console w')
     ∧ In ("  - Completion tokens: 4500" +:+ nl) (console w')
     ∧ In ("  - Search queries: 28" +:+ nl) (console w'))
  ∧
  (∃ w' j,
     run_gemini_research (job_then 2 finished sample_env) 3 (initial_world ∅)
     = (Returned (Some finished), w')
     ∧ files w' !! in_output_dir "gemini_full_response.json" ≫= json_load = Some j
     ∧ metric_of j "total_tokens" = Some (JInt 9000)
     ∧ In ("  - Total tokens: 9000" +:+ nl) (console w')).
Proof.
  split.
  - destruct (proj1 usage_figures_round_trip
                (with_post (PostReturns (json_response 200 "OK" sample_result)) sample_env)
                (json_response 200 "OK" sample_result) sample_result (initial_world ∅))
      as (w' & Hrun & Hfile & Hlines); try reflexivity.
    exists w'. split; [exact Hrun|]. split; [exact Hfile|].
    repeat split.
    + apply (Hlines "prompt_tokens" "  - Prompt tokens: "). now left.
    + apply (Hlines "completion_tokens" "  - Completion tokens: "). right. now left.
    + apply (Hlines "num_search_queries" "  - Search queries: "). right. right. now left.
  - destruct (snapshot finished) as [|j] eqn:Hsnap; [discriminate|].
    destruct (proj2 usage_figures_round_trip (job_then 2 finished sample_env) 3%nat 2%nat
                (interaction_obj "job-1" "created" []) finished (PStr "job-1")
                (PStr "REPORT") j (initial_world ∅))
      as (w' & Hrun & Hfile & Hpresent & _); try reflexivity; try exact Hsnap; try lia.
    + intros k Hk. exists running. split; [|reflexivity].
      do 2 (destruct k as [|k]; [reflexivity|]). lia.
    + destruct (Hpresent (PInt 9000) eq_refl) as (jv & Hm & Hof & Hin).
      exists w', j. split; [exact Hrun|]. split; [exact Hfile|].
      destruct jv; cbn in Hof; try (discriminate Hof). injection Hof as ->.
      split; [exact Hm|exact Hin].
Defined.

(** Against [C9] as written: a completed job whose usage object has no
    total is a successful run; the console shows N/A for the total and the
    parsed artifact holds [null]. *)
Lemma missing_total_counterexample :
  let env := job_then 0 finished_unmetered sample_env in
  let run := run_gemini_research env 1 (initial_world ∅) in
  run.1 = Returned (Some finished_unmetered)
  ∧ In ("  - Total tokens: N/A" +:+ nl) (console run.2)
  ∧ (files run.2 !! in_output_dir "gemini_full_response.json" ≫= json_load)
      ≫= (λ parsed, metric_of parsed "total_tokens") = Some JNull
  ∧ json_str env JNull ≠ "N/A".
Proof.
  cbv zeta. split; [reflexivity|]. split; [|split; [reflexivity|discriminate]].
  vm_compute. tauto.
Qed.

(** ** The driver *)

#[local] Arguments summary_lines : simpl never.
#[local] Arguments main_opening : simpl never.

Lemma main_eq (env : environment) (fuel : nat) (w : world) :
  main env fuel w = main_outline env fuel w.
Proof.
  unfold main, main_outline, main_started, main_opening, pipeline_a, pipeline_b,
    summary_lines.
  unfold mbind, M_bind, bind, print, print_end, mret, M_ret, ret. cbn.
  destruct (key_truthy (PERPLEXITY_API_KEY env)), (key_truthy (GOOGLE_API_KEY env)); cbn;
    rewrite <- ?app_assoc; cbn.
  all: repeat match goal with
       | |- match ?x with (_, _) => _ end = match ?y with (_, _) => _ end =>
           change y with x; destruct x as [[?|?|] ?]; cbn
       end.
  all: rewrite <- ?app_assoc; reflexivity.
Qed.

Section Settles.
Context {A B : Type}.

Lemma settles_ret (a : A) : settles (mret a).
Proof. intros w. discriminate. Qed.

Lemma settles_raise (e : exc) : settles (@raise A e).
Proof. intros w. discriminate. Qed.

Lemma settles_lift (r : exc + A) : settles (lift r).
Proof. destruct r; intros w; discriminate. Qed.

Lemma settles_raise_if (o : option exc) : settles (raise_if o).
Proof. destruct o; intros w; discriminate. Qed.

Lemma settles_print_end (s t : string) : settles (print_end s t).
Proof. intros w. discriminate. Qed.

Lemma settles_print (s : string) : settles (print s).
Proof. intros w. discriminate. Qed.

Lemma settles_emit (ev : event) : settles (emit ev).
Proof. intros w. discriminate. Qed.

Lemma settles_write_file (path : string) (content : file) : settles (write_file path content).
Proof. intros w. discriminate. Qed.

Lemma settles_bind (m : M A) (k : A → M B) :
  settles m → (∀ a, settles (k a)) → settles (m ≫= k).
Proof.
  intros Hm Hk w. specialize (Hm w). unfold mbind, M_bind, bind.
  destruct (m w) as [[a|e|] w1]; cbn in *; [apply Hk|discriminate|congruence].
Qed.

Lemma settles_try_except (m : M A) (catches : exc → bool) (handler : exc → M A) :
  settles m → (∀ e, settles (handler e)) → settles (try_except m catches handler).
Proof.
  intros Hm Hh w. specialize (Hm w). unfold try_except.
  destruct (m w) as [[a|e|] w1]; cbn in *; [discriminate| |congruence].
  destruct (catches e); [apply Hh|discriminate].
Qed.
End Settles.

Ltac settles_walk :=
  repeat first
    [ match goal with
      | |- settles (mbind _ _) => apply settles_bind; [|intros ?]
      | |- settles (try_except _ _ _) => apply settles_try_except; [|intros ?]
      end
    | apply settles_ret | apply settles_raise | apply settles_lift
    | apply settles_raise_if | apply settles_print | apply settles_print_end
    | apply settles_emit | apply settles_write_file
    | match goal with
      | |- settles (if ?b then _ else _) => destruct b
      | |- settles (match ?x with _ => _ end) => destruct x
      end ].

Lemma append_sources_settles (env : environment) (sources : list json) :
  ∀ (i : nat) (acc : string), settles (append_sources env i sources acc).
Proof.
  induction sources as [|source rest IH]; intros i acc; cbn [append_sources].
  - apply settles_ret.
  - settles_walk. apply IH.
Qed.

(** provider A's pipeline always ends: it makes one call, with a timeout *)
Lemma run_perplexity_research_settles (env : environment) :
  settles (run_perplexity_research env).
Proof.
  unfold run_perplexity_research, perplexity_call, perplexity_handler,
    requests_post_call, raise_for_status, response_json, save_perplexity_results.
  settles_walk. apply append_sources_settles.
Qed.

(** what a run of provider A adds to the console and to the trace *)
Lemma run_perplexity_research_trace (env : environment) (w : world) :
  ∃ lines evs,
    console (run_perplexity_research env w).2 = console w ++ lines
    ∧ trace (run_perplexity_research env w).2 = trace w ++ perplexity_request env :: evs
    ∧ forallb is_mkdir evs = true.
Proof.
  destruct (run_perplexity_research_footprint env w) as ((l & Hl) & (evs & Ht & Hp) & _).
  cbn in Hl, Ht. exists (perplexity_banner ++ l), evs. repeat split.
  - now rewrite Hl, app_assoc.
  - now rewrite Ht, <- app_assoc.
  - exact Hp.
Qed.

(** what a run of provider B adds to the console and to the trace *)
Lemma run_gemini_research_trace (env : environment) (fuel : nat) (w : world) :
  ∃ lines evs,
    console (run_gemini_research env fuel w).2 = console w ++ lines
    ∧ trace (run_gemini_research env fuel w).2 = trace w ++ EvImport :: evs
    ∧ forallb is_gemini_event evs = true.
Proof.
  set (rest := print "Starting Gemini deep research...";;
               print ("Query: " +:+ substring 0 100 RESEARCH_QUERY +:+ "...");;
               print "(This may take up to 20 minutes for comprehensive research)";;
               try_except (gemini_job env fuel) (λ _, true) gemini_handler).
  set (w3 := mkWorld (((console w ++ [(nl +:+ str_repeat "=" 60) +:+ nl])
                         ++ ["GOOGLE GEMINI DEEP RESEARCH" +:+ nl])
                        ++ [str_repeat "=" 60 +:+ nl]) (files w) (trace w)).
  assert (Hrun : run_gemini_research env fuel w = (make_client env ≫= λ _, rest) w3)
    by reflexivity.
  rewrite Hrun.
  assert (Hrest : keeps is_gemini_event gemini_files rest).
  { unfold rest. keeps_walk.
    eapply keeps_weaken; [| |apply gemini_job_keeps]; [|auto].
    intros ev H. unfold is_gemini_event. rewrite H. apply orb_true_r. }
  pose proof (bind_extends is_gemini_event gemini_files (make_client env) (λ _, rest) w3
                (λ _, Hrest)) as ((l & Hl) & (evs & Ht & Hp) & _).
  rewrite make_client_eq in Hl, Ht. cbn in Hl, Ht.
  destruct (make_client_imports_first env) as (evs0 & Hevs0 & Hp0).
  rewrite Hevs0 in Ht.
  eexists _, (evs0 ++ evs). repeat split.
  - rewrite Hl. unfold w3. cbn. rewrite <- !app_assoc. reflexivity.
  - rewrite Ht. now rewrite <- app_assoc.
  - rewrite forallb_app, Hp, andb_true_r.
    rewrite forallb_forall in *. intros ev Hin. unfold is_gemini_event.
    now rewrite (Hp0 _ Hin).
Qed.

Lemma existsb_excluded (P Q : event → bool) (evs : list event) :
  (∀ ev, P ev = true → Q ev = false) →
  forallb P evs = true → existsb Q evs = false.
Proof.
  intros HPQ. induction evs as [|ev evs IH]; [reflexivity|].
  cbn. intros H. apply andb_prop in H as [Hev Hevs].
  rewrite (HPQ _ Hev). auto.
Qed.

Lemma pipeline_a_outcome (env : environment) (w : world) :
  ∃ lines evs,
    console (pipeline_a env w).2 = console w ++ lines
    ∧ trace (pipeline_a env w).2 = trace w ++ evs
    ∧ existsb is_post evs = key_truthy (PERPLEXITY_API_KEY env)
    ∧ existsb is_import evs = false
    ∧ (pipeline_a env w).1 ≠ Pending
    ∧ (∀ e, (pipeline_a env w).1 = Raised e →
         key_truthy (PERPLEXITY_API_KEY env) = true
         ∧ (run_perplexity_research env w).1 = Raised e)
    ∧ (∀ pr, (pipeline_a env w).1 = Returned pr →
         (key_truthy (PERPLEXITY_API_KEY env) = false → pr = None)
         ∧ (key_truthy (PERPLEXITY_API_KEY env) = true
            → (run_perplexity_research env w).1 = Returned pr)).
Proof.
  unfold pipeline_a. destruct (key_truthy (PERPLEXITY_API_KEY env)).
  - destruct (run_perplexity_research_trace env w) as (lines & evs & Hl & Ht & Hp).
    exists lines, (perplexity_request env :: evs). repeat split; auto.
    + cbn. apply (existsb_excluded is_mkdir is_import); [now intros []|exact Hp].
    + apply run_perplexity_research_settles.
    + discriminate.
  - exists [], []. cbn. rewrite !app_nil_r. repeat split; try discriminate.
    congruence.
Qed.

Lemma pipeline_b_outcome (env : environment) (fuel : nat) (w : world) :
  ∃ lines evs,
    console (pipeline_b env fuel w).2 = console w ++ lines
    ∧ trace (pipeline_b env fuel w).2 = trace w ++ evs
    ∧ existsb is_post evs = false
    ∧ existsb is_import evs = key_truthy (GOOGLE_API_KEY env)
    ∧ (key_truthy (GOOGLE_API_KEY env) = false → (pipeline_b env fuel w).1 = Returned None)
    ∧ (∀ e, (pipeline_b env fuel w).1 = Raised e →
         key_truthy (GOOGLE_API_KEY env) = true
         ∧ (run_gemini_research env fuel w).1 = Raised e)
    ∧ (∀ gr, (pipeline_b env fuel w).1 = Returned gr →
         (key_truthy (GOOGLE_API_KEY env) = false → gr = None)
         ∧ (key_truthy (GOOGLE_API_KEY env) = true
            → (run_gemini_research env fuel w).1 = Returned gr)).
Proof.
  unfold pipeline_b. destruct (key_truthy (GOOGLE_API_KEY env)).
  - destruct (run_gemini_research_trace env fuel w) as (lines & evs & Hl & Ht & Hp).
    exists lines, (EvImport :: evs). repeat split; auto; try discriminate.
    cbn. apply (existsb_excluded is_gemini_event is_post); [now intros []|exact Hp].
  - exists [], []. cbn. rewrite !app_nil_r. repeat split; try discriminate.
    congruence.
Qed.

Lemma warning_a_shown (env : environment) :
  key_truthy (PERPLEXITY_API_KEY env) = false → In warning_a (main_opening env).
Proof.
  intros H. unfold main_opening. rewrite H. apply in_or_app. right.
  apply in_or_app. left. now left.
Qed.

Lemma warning_b_shown (env : environment) :
  key_truthy (GOOGLE_API_KEY env) = false → In warning_b (main_opening env).
Proof.
  intros H. unfold main_opening. rewrite H. apply in_or_app. right.
  apply in_or_app. right. now left.
Qed.

(** [C3], with what a pipeline raises let through: for every combination
    of the two credentials the driver only adds to the console and to the
    calls made; it prints a warning for each credential that is not set;
    it sends provider A's request exactly when provider A's credential is
    set; it starts provider B's pipeline only when provider B's credential
    is set, and always then unless provider A's pipeline raised; when it
    returns, its output ends with the summary of the two results, the
    result of a skipped pipeline being [None], the result a failed one
    returns; with no credential set it returns; and an exception leaves it
    only when a pipeline it ran raised that exception. *)
Theorem driver_follows_credentials (env : environment) (fuel : nat) (w : world) :
  ∃ lines evs,
    console (main env fuel w).2 = console w ++ lines
    ∧ trace (main env fuel w).2 = trace w ++ evs
    ∧ (key_truthy (PERPLEXITY_API_KEY env) = false → In warning_a lines)
    ∧ (key_truthy (GOOGLE_API_KEY env) = false → In warning_b lines)
    ∧ existsb is_post evs = key_truthy (PERPLEXITY_API_KEY env)
    ∧ (existsb is_import evs = true → key_truthy (GOOGLE_API_KEY env) = true)
    ∧ ((∀ e, (main env fuel w).1 ≠ Raised e)
       → existsb is_import evs = key_truthy (GOOGLE_API_KEY env))
    ∧ ((main env fuel w).1 = Returned tt →
       ∃ before pr gr,
         lines = before ++ summary_lines env pr gr
         ∧ (key_truthy (PERPLEXITY_API_KEY env) = false → pr = None)
         ∧ (key_truthy (GOOGLE_API_KEY env) = false → gr = None)
         ∧ (key_truthy (PERPLEXITY_API_KEY env) = true
            → ∃ w1, (run_perplexity_research env w1).1 = Returned pr)
         ∧ (key_truthy (GOOGLE_API_KEY env) = true
            → ∃ w1, (run_gemini_research env fuel w1).1 = Returned gr))
    ∧ (key_truthy (PERPLEXITY_API_KEY env) = false
       → key_truthy (GOOGLE_API_KEY env) = false
       → (main env fuel w).1 = Returned tt)
    ∧ (∀ e, (main env fuel w).1 = Raised e →
         (key_truthy (PERPLEXITY_API_KEY env) = true
          ∧ ∃ w1, (run_perplexity_research env w1).1 = Raised e)
         ∨ (key_truthy (GOOGLE_API_KEY env) = true
            ∧ ∃ w1, (run_gemini_research env fuel w1).1 = Raised e)).
Proof.
  rewrite main_eq. unfold main_outline.
  destruct (pipeline_a_outcome env (main_started env w))
    as (la & ea & Hla & Hta & Hpost_a & Himp_a & Hsettle & Hraise_a & Hret_a).
  destruct (pipeline_a env (main_started env w)) as [[pr|e|] w2] eqn:Ea; cbn in *;
    [|clear Hret_a|congruence].
  - destruct (pipeline_b_outcome env fuel w2)
      as (lb & eb & Hlb & Htb & Hpost_b & Himp_b & Hskip & Hraise_b & Hret_b).
    destruct (Hret_a _ eq_refl) as [Hskip_a Hran_a]. clear Hraise_a.
    destruct (pipeline_b env fuel w2) as [[gr|e|] w3] eqn:Eb; cbn in *.
    + destruct (Hret_b _ eq_refl) as [Hskip_b Hran_b].
      exists (main_opening env ++ la ++ lb ++ summary_lines env pr gr), (ea ++ eb).
      split; [now rewrite Hlb, Hla, <- !app_assoc|].
      split; [now rewrite Htb, Hta, <- !app_assoc|].
      rewrite !existsb_app, Hpost_a, Hpost_b, Himp_a, Himp_b, orb_false_r.
      repeat split; auto using in_or_app, warning_a_shown, warning_b_shown; try discriminate.
      intros _. exists (main_opening env ++ la ++ lb), pr, gr.
      rewrite <- !app_assoc. repeat split; eauto.
    + destruct (Hraise_b _ eq_refl) as [Hb Hrun].
      exists (main_opening env ++ la ++ lb), (ea ++ eb).
      split; [now rewrite Hlb, Hla, <- !app_assoc|].
      split; [now rewrite Htb, Hta, <- !app_assoc|].
      rewrite !existsb_app, Hpost_a, Hpost_b, Himp_a, Himp_b, orb_false_r.
      repeat split; auto using in_or_app, warning_a_shown, warning_b_shown;
        try discriminate; try congruence.
      intros e' [= <-]. right. eauto.
    + exists (main_opening env ++ la ++ lb), (ea ++ eb).
      split; [now rewrite Hlb, Hla, <- !app_assoc|].
      split; [now rewrite Htb, Hta, <- !app_assoc|].
      rewrite !existsb_app, Hpost_a, Hpost_b, Himp_a, Himp_b, orb_false_r.
      repeat split; auto using in_or_app, warning_a_shown, warning_b_shown;
        try discriminate.
      intros Ha Hb. specialize (Hskip Hb). discriminate.
  - destruct (Hraise_a _ eq_refl) as [Ha Hrun].
    exists (main_opening env ++ la), ea.
    split; [now rewrite Hla, <- !app_assoc|].
    split; [exact Hta|].
    rewrite Hpost_a, Himp_a.
    repeat split; auto using in_or_app, warning_a_shown, warning_b_shown;
      try discriminate; try congruence.
    + intros H. exfalso. exact (H e eq_refl).
    + intros e' [= <-]. left. eauto.
Qed.

(** Against [C3] as written: with provider B's credential set, the
    package missing and its installation failing, the driver raises. *)
Lemma failed_install_counterexample :
  key_truthy (PERPLEXITY_API_KEY install_fails) = false
  ∧ key_truthy (GOOGLE_API_KEY install_fails) = true
  ∧ (main install_fails 0 (initial_world ∅)).1
    = Raised (mkExc (OtherException "CalledProcessError")
                "Command '['pip', 'install', 'google-genai']' returned non-zero exit status 1."
                None).
Proof. repeat split. Qed.

Lemma pipeline_a_contained (env : environment) (w : world) :
  perplexity_contained env = true → ∃ pr w2, pipeline_a env w = (Returned pr, w2).
Proof.
  unfold perplexity_contained, pipeline_a.
  destruct (key_truthy (PERPLEXITY_API_KEY env)); cbn; [|eauto].
  destruct (requests_post env) as [e|r] eqn:Ep.
  - intros He. eexists _, _. apply (run_perplexity_failure env e).
    unfold transport_failure. now rewrite Ep, He.
  - destruct (http_error r) as [e|] eqn:Eh.
    + intros _. eexists _, _. apply (run_perplexity_failure env e).
      unfold transport_failure. now rewrite Ep.
    + destruct (json_body r) as [msg|result] eqn:Eb; intros Hok.
      * eexists _, _. apply (run_perplexity_undecodable _ _ _ _ Ep Eh Eb).
      * eexists _, _. apply (run_perplexity_success _ _ _ _ Ep Eh Eb Hok).
Qed.

Lemma save_gemini_results_settles (env : environment) (i : pyval) :
  settles (save_gemini_results env i).
Proof. unfold save_gemini_results, json_dump. settles_walk. Qed.

(** the pipeline of provider B waits only inside the poll loop *)
Lemma run_gemini_research_pending (env : environment) (fuel : nat) (w : world) :
  client_ready env = true →
  (run_gemini_research env fuel w).1 = Pending →
  ∃ i0 w1, interactions_create env = inr i0 ∧ (poll env fuel 0 i0 w1).1 = Pending.
Proof.
  intros Hc. rewrite (run_gemini_research_eq _ _ _ Hc). unfold try_except.
  destruct (gemini_job env fuel (gemini_started env w)) as [[?|?|] ?] eqn:Ej;
    [discriminate|rewrite gemini_handler_eq; discriminate|].
  intros _. revert Ej. unfold gemini_job.
  unfold mbind, M_bind, bind, emit, lift, print, print_end, ret, raise. cbn.
  destruct (interactions_create env) as [|i0]; [discriminate|]. cbn.
  destruct (py_attr i0 "id") as [|id0]; [discriminate|]. cbn.
  match goal with |- context [poll env fuel 0 i0 ?w1] =>
    destruct (poll env fuel 0 i0 w1) as [[polled|?|] w2] eqn:Ep end.
  - intros H. exfalso. destruct polled as [i|]; cbn in H; [|discriminate].
    pose proof (save_gemini_results_settles env i w2) as Hs.
    rewrite H in Hs. now apply Hs.
  - discriminate.
  - intros _. eexists _, _. split; [reflexivity|]. now rewrite Ep.
Qed.

Lemma pipeline_b_contained (env : environment) (fuel : nat) (w : world) :
  gemini_contained env = true →
  (∃ gr w3, pipeline_b env fuel w = (Returned gr, w3))
  ∨ ((pipeline_b env fuel w).1 = Pending
     ∧ ∃ i0 w1, interactions_create env = inr i0 ∧ (poll env fuel 0 i0 w1).1 = Pending).
Proof.
  unfold gemini_contained, pipeline_b.
  destruct (key_truthy (GOOGLE_API_KEY env)); cbn; [|left; eauto].
  intros Hc. pose proof (run_gemini_research_contained env fuel w Hc) as Hnr.
  pose proof (run_gemini_research_pending env fuel w Hc) as Hp.
  destruct (run_gemini_research env fuel w) as [[gr|e|] w3]; cbn in *.
  - left. eauto.
  - exfalso. now apply (Hnr e).
  - right. auto.
Qed.

(** With provider A contained and provider B contained, no exception
    leaves [main]: it returns, unless it is still inside the poll loop. *)
Lemma main_contained (env : environment) (fuel : nat) (w : world) :
  perplexity_contained env = true →
  gemini_contained env = true →
  exit_status (main env fuel w).1 = Some 0%Z
  ∨ ((main env fuel w).1 = Pending
     ∧ ∃ i0 w1, interactions_create env = inr i0 ∧ (poll env fuel 0 i0 w1).1 = Pending).
Proof.
  intros Ha Hb. rewrite main_eq. unfold main_outline.
  destruct (pipeline_a_contained env (main_started env w) Ha) as (pr & w2 & ->).
  destruct (pipeline_b_contained env fuel w2 Hb) as [(gr & w3 & ->)|[Hp Hpoll]].
  - left. reflexivity.
  - right. destruct (pipeline_b env fuel w2) as [[?|?|] ?]; cbn in *; try discriminate.
    split; [reflexivity|exact Hpoll].
Qed.

(** Against [C6] as written: a 200 response whose [choices] list is empty
    makes the extraction raise [IndexError], which the pipeline does not
    catch; the process exits with status 1 and no installation was
    attempted. *)
Lemma empty_choices_counterexample :
  let env := with_post (PostReturns (json_response 200 "OK" no_choices_result)) sample_env in
  let run := main env 7 (initial_world ∅) in
  run.1 = Raised (mkExc IndexError "list index out of range" None)
  ∧ exit_status run.1 = Some 1%Z
  ∧ existsb is_pip_install (trace run.2) = false.
Proof. repeat split. Qed.

(** * Further properties of the pipelines *)

(** ** Provider A *)

Lemma save_perplexity_results_loop (env : environment) (d : list (string * json))
    (sources : list json) (w : world) :
  field_ok d "choices" choices_ok = true →
  field_ok d "usage" is_dict = true →
  assoc "search_results" d = Some (JList sources) →
  save_perplexity_results env (JDict d) w
  = (append_sources env 1 sources (perplexity_report_head env (content_of (JDict d)))
       ≫= λ report_content,
            write_file (in_output_dir "perplexity_report.md") (FText report_content);;
            print ("  - Report saved to: " +:+ OUTPUT_DIR +:+ "/perplexity_report.md");;
            mret (Some (JDict d)))
      (perplexity_dumped env (JDict d) w).
Proof.
  intros Hc Hu Hs.
  unfold save_perplexity_results, perplexity_dumped, perplexity_summary,
    content_of, usage_of, sources_of, field_or, field_ok in *.
  unfold mbind at 1 2 3 4 5 6 7 8 9 10 11 12 13 14 15 16 17 18.
  unfold M_bind, bind, lift, print, print_end, emit, write_file, ret, raise. cbn.
  rewrite Hs in *. cbn.
  destruct (assoc "choices" d) as [choices|]; cbn in *.
  - destruct choices as [| | | | |[|[| | | | | |c] others]|]; try discriminate. cbn in *.
    unfold field_ok in Hc.
    destruct (assoc "message" c) as [[| | | | | |m]|]; try discriminate; cbn in *.
    all: destruct (assoc "usage" d) as [[| | | | | |u]|]; try discriminate; cbn in *.
    all: rewrite <- ?app_assoc; reflexivity.
  - destruct (assoc "usage" d) as [[| | | | | |u]|]; try discriminate; cbn in *.
    all: rewrite <- ?app_assoc; reflexivity.
Qed.

Lemma append_sources_bad (env : environment) (sources : list json) :
  forallb is_dict sources = false →
  ∃ e, exc_cls e = AttributeError
       ∧ ∀ i acc w, append_sources env i sources acc w = (Raised e, w).
Proof.
  induction sources as [|source rest IH]; [discriminate|].
  cbn. destruct (is_dict source) eqn:Ed; cbn.
  - intros H. destruct (IH H) as (e & He & Hrun). exists e. split; [exact He|].
    intros i acc w. destruct source; try discriminate.
    unfold mbind, M_bind, bind, lift, ret. cbn. apply Hrun.
  - intros _. exists (no_attribute (json_type_name source) "get"). split; [reflexivity|].
    intros i acc w. destruct source; try discriminate; reflexivity.
Qed.

(** A response with a non-error status whose body does not decode is
    handled like a failed call: the pipeline returns [None], its last
    line is the decoder's message, there is no line for a response body
    (the decoding error carries no response), and no file is touched. *)
Theorem undecodable_body_is_reported
    (env : environment) (r : http_response) (msg : string) (w : world) :
  requests_post env = PostReturns r →
  http_error r = None →
  json_body r = inl msg →
  ∃ w',
    run_perplexity_research env w = (Returned None, w')
    ∧ last (console w') = Some (("✗ Perplexity API error: " +:+ msg) +:+ nl)
    ∧ files w' = files w
    ∧ trace w' = trace w ++ [perplexity_request env].
Proof.
  intros Hp He Hb. eexists. split; [apply (run_perplexity_undecodable _ _ _ _ Hp He Hb)|].
  cbn. repeat split. unfold failure_report. cbn. rewrite !app_assoc. apply last_snoc.
Qed.

Lemma undecodable_body_is_reported_witness :
  ∃ w',
    run_perplexity_research (with_post (PostReturns html_body) sample_env) (initial_world ∅)
    = (Returned None, w')
    ∧ last (console w')
      = Some (("✗ Perplexity API error: " +:+ "Expecting value: line 1 column 1 (char 0)")
                +:+ nl)
    ∧ files w' = ∅
    ∧ trace w' = [] ++ [perplexity_request (with_post (PostReturns html_body) sample_env)].
Proof.
  apply (undecodable_body_is_reported (with_post (PostReturns html_body) sample_env)
           html_body "Expecting value: line 1 column 1 (char 0)" (initial_world ∅));
    reflexivity.
Defined.

(** The [except] clause of provider A covers the exceptions of requests
    only.  When the body decodes to something that is not an object, the
    first [.get] raises [AttributeError], which leaves the pipeline; by
    then the request is the only call made and no file is touched. *)
Theorem non_object_body_raises
    (env : environment) (r : http_response) (result : json) (w : world) :
  requests_post env = PostReturns r →
  http_error r = None →
  json_body r = inr result →
  is_dict result = false →
  ∃ w',
    run_perplexity_research env w
    = (Raised (no_attribute (json_type_name result) "get"), w')
    ∧ files w' = files w
    ∧ trace w' = trace w ++ [perplexity_request env].
Proof.
  intros Hp He Hb Hd. rewrite (run_perplexity_decoded _ _ _ _ Hp He Hb).
  unfold try_except, save_perplexity_results.
  destruct result; try discriminate; cbn; eexists; repeat split.
Qed.

Lemma non_object_body_raises_witness :
  ∃ w',
    run_perplexity_research (with_post (PostReturns list_body) sample_env) (initial_world ∅)
    = (Raised (no_attribute "list" "get"), w')
    ∧ files w' = ∅
    ∧ trace w' = [] ++ [perplexity_request (with_post (PostReturns list_body) sample_env)].
Proof.
  apply (non_object_body_raises (with_post (PostReturns list_body) sample_env)
           list_body (JList [JStr "unexpected"]) (initial_world ∅));
    reflexivity.
Defined.

(** The raw artifact is written before the report is assembled.  When a
    well-formed body lists a source that is not an object, the loop over
    the sources raises [AttributeError], which leaves the pipeline:
    [perplexity_full_response.json] holds the response, and
    [perplexity_report.md] is as it was before the run. *)
Theorem malformed_source_leaves_raw_artifact_only
    (env : environment) (r : http_response) (d : list (string * json))
    (sources : list json) (w : world) :
  requests_post env = PostReturns r →
  http_error r = None →
  json_body r = inr (JDict d) →
  field_ok d "choices" choices_ok = true →
  field_ok d "usage" is_dict = true →
  assoc "search_results" d = Some (JList sources) →
  forallb is_dict sources = false →
  ∃ e w',
    run_perplexity_research env w = (Raised e, w')
    ∧ exc_cls e = AttributeError
    ∧ files w' !! in_output_dir "perplexity_full_response.json" = Some (FJson (JDict d))
    ∧ files w' !! in_output_dir "perplexity_report.md"
      = files w !! in_output_dir "perplexity_report.md".
Proof.
  intros Hp He Hb Hc Hu Hs Hbad.
  destruct (append_sources_bad env sources Hbad) as (e & Hcls & Hloop).
  exists e. eexists. split.
  - rewrite (run_perplexity_decoded _ _ _ _ Hp He Hb). unfold try_except.
    rewrite (save_perplexity_results_loop _ _ _ _ Hc Hu Hs).
    unfold mbind at 1, M_bind, bind. rewrite Hloop.
    unfold is_RequestException. rewrite Hcls. reflexivity.
  - split; [exact Hcls|]. cbn. split.
    + apply lookup_insert_eq.
    + apply lookup_insert_ne. vm_compute. discriminate.
Qed.

Lemma malformed_source_leaves_raw_artifact_only_witness :
  ∃ e w',
    run_perplexity_research
      (with_post (PostReturns (json_response 200 "OK" bad_source_result)) sample_env)
      (initial_world ∅) = (Raised e, w')
    ∧ exc_cls e = AttributeError
    ∧ files w' !! in_output_dir "perplexity_full_response.json"
      = Some (FJson bad_source_result)
    ∧ files w' !! in_output_dir "perplexity_report.md"
      = (∅ : gmap string file) !! in_output_dir "perplexity_report.md".
Proof.
  eapply (malformed_source_leaves_raw_artifact_only
            (with_post (PostReturns (json_response 200 "OK" bad_source_result)) sample_env)
            (json_response 200 "OK" bad_source_result));
    reflexivity.
Defined.

(** Provider A's pipeline sends its request once, however the run ends:
    there is no retry. *)
Theorem one_request_per_run (env : environment) (w : world) :
  List.filter is_post (trace (run_perplexity_research env w).2)
  = List.filter is_post (trace w) ++ [perplexity_request env].
Proof.
  destruct (run_perplexity_research_trace env w) as (lines & evs & _ & Ht & Hp).
  rewrite Ht, List.filter_app. cbn.
  now rewrite (filter_excluded is_mkdir is_post _ ltac:(now intros []) Hp).
Qed.

(** Provider A's pipeline changes no file but its own two, however the
    run ends. *)
Theorem perplexity_writes_only_its_files (env : environment) (w : world) (path : string) :
  perplexity_files path = false →
  files (run_perplexity_research env w).2 !! path = files w !! path.
Proof.
  intros H. destruct (run_perplexity_research_footprint env w) as (_ & _ & Hf).
  now rewrite (Hf _ H).
Qed.

Lemma perplexity_writes_only_its_files_witness :
  files (run_perplexity_research
           (with_post (PostReturns (json_response 200 "OK" sample_result)) sample_env)
           earlier_run).2 !! in_output_dir "gemini_report.md"
  = files earlier_run !! in_output_dir "gemini_report.md".
Proof.
  apply (perplexity_writes_only_its_files
           (with_post (PostReturns (json_response 200 "OK" sample_result)) sample_env)
           earlier_run (in_output_dir "gemini_report.md")).
  reflexivity.
Defined.

Lemma run_gemini_research_keeps (env : environment) (fuel : nat) :
  keeps is_gemini_event gemini_files (run_gemini_research env fuel).
Proof.
  unfold run_gemini_research. keeps_walk.
  - eapply keeps_weaken; [| |apply make_client_keeps]; [|discriminate].
    intros ev H. unfold is_gemini_event. now rewrite H.
  - eapply keeps_weaken; [| |apply gemini_job_keeps]; [|auto].
    intros ev H. unfold is_gemini_event. rewrite H. apply orb_true_r.
Qed.

(** When no installation is needed, provider B's pipeline changes no
    file but its own two, however the run ends and however long it
    polls.  (What an installation writes is not the pipeline's own
    doing and is not followed here.) *)
Theorem gemini_writes_only_its_files
    (env : environment) (fuel : nat) (w : world) (path : string) :
  install_needed env = false →
  gemini_files path = false →
  files (run_gemini_research env fuel w).2 !! path = files w !! path.
Proof.
  intros _ H. destruct (run_gemini_research_keeps env fuel w) as (_ & _ & Hf).
  now rewrite (Hf _ H).
Qed.

Lemma gemini_writes_only_its_files_witness :
  files (run_gemini_research (job_then 2 finished sample_env) 3 earlier_run).2
    !! in_output_dir "perplexity_report.md"
  = files earlier_run !! in_output_dir "perplexity_report.md".
Proof.
  apply (gemini_writes_only_its_files (job_then 2 finished sample_env) 3 earlier_run
           (in_output_dir "perplexity_report.md")); reflexivity.
Defined.

(** ** The driver *)

(** With no credential set (unset, or set to the empty string) the driver
    prints its opening with both warnings and the summary with both
    pipelines failed or skipped; it makes no call and touches no file. *)
Theorem no_credentials_no_effects (env : environment) (fuel : nat) (w : world) :
  key_truthy (PERPLEXITY_API_KEY env) = false →
  key_truthy (GOOGLE_API_KEY env) = false →
  main env fuel w
  = (Returned tt,
     mkWorld (console w
                ++ [(nl +:+ str_repeat "#" 60) +:+ nl;
                    "# DEEP RESEARCH COMPARISON" +:+ nl;
                    "# Query: AI Regulation (EU, US, UK, Canada)" +:+ nl;
                    str_repeat "#" 60 +:+ nl;
                    warning_a; warning_b;
                    (nl +:+ str_repeat "=" 60) +:+ nl;
                    "SUMMARY" +:+ nl;
                    str_repeat "=" 60 +:+ nl;
                    "Perplexity: ✗ Failed or skipped" +:+ nl;
                    "Gemini:     ✗ Failed or skipped" +:+ nl;
                    (nl +:+ "Results saved to: " +:+ OUTPUT_DIR_absolute env +:+ "/") +:+ nl])
             (files w) (trace w)).
Proof.
  intros Ha Hb. rewrite main_eq.
  unfold main_outline, pipeline_a, pipeline_b, main_started, main_opening, summary_lines.
  rewrite Ha, Hb. cbn. now rewrite <- app_assoc.
Qed.

Lemma no_credentials_no_effects_witness :
  main no_keys 3 earlier_run
  = (Returned tt,
     mkWorld ([]
                ++ [(nl +:+ str_repeat "#" 60) +:+ nl;
                    "# DEEP RESEARCH COMPARISON" +:+ nl;
                    "# Query: AI Regulation (EU, US, UK, Canada)" +:+ nl;
                    str_repeat "#" 60 +:+ nl;
                    warning_a; warning_b;
                    (nl +:+ str_repeat "=" 60) +:+ nl;
                    "SUMMARY" +:+ nl;
                    str_repeat "=" 60 +:+ nl;
                    "Perplexity: ✗ Failed or skipped" +:+ nl;
                    "Gemini:     ✗ Failed or skipped" +:+ nl;
                    (nl +:+ "Results saved to: " +:+ "/work/research_results" +:+ "/") +:+ nl])
             (files earlier_run) []).
Proof.
  apply (no_credentials_no_effects no_keys 3 earlier_run); reflexivity.
Defined.

(** A result counts as completed when it is truthy, and an empty object
    is not: when the body of a successful response is [{}], provider A's
    pipeline writes its report, and the summary of a driver that returns
    lists provider A as failed or skipped. *)
Theorem empty_object_is_summarised_as_failed
    (env : environment) (fuel : nat) (r : http_response) (w : world) :
  key_truthy (PERPLEXITY_API_KEY env) = true →
  requests_post env = PostReturns r →
  http_error r = None →
  json_body r = inr (JDict []) →
  (main env fuel w).1 = Returned tt →
  In ("Perplexity: ✗ Failed or skipped" +:+ nl) (console (main env fuel w).2)
  ∧ files (main env fuel w).2 !! in_output_dir "perplexity_report.md"
    = Some (FText (perplexity_report env (JDict []))).
Proof.
  intros Ha Hp He Hb. rewrite main_eq. unfold main_outline, pipeline_a. rewrite Ha.
  rewrite (run_perplexity_success _ _ _ _ Hp He Hb eq_refl).
  set (w2 := perplexity_saved env (JDict []) (perplexity_started env (main_started env w))).
  assert (Hfile : ∀ w3, (∀ path, gemini_files path = false → files w3 !! path = files w2 !! path) →
            files w3 !! in_output_dir "perplexity_report.md"
            = Some (FText (perplexity_report env (JDict [])))).
  { intros w3 H. rewrite H by reflexivity. apply lookup_insert_eq. }
  unfold pipeline_b. destruct (key_truthy (GOOGLE_API_KEY env)).
  - pose proof (run_gemini_research_keeps env fuel w2) as (_ & _ & Hf).
    destruct (run_gemini_research env fuel w2) as [[gr|e|] w3]; cbn in *; try discriminate.
    intros _. split; [|now apply Hfile].
    apply in_or_app. right. unfold summary_lines. cbn. auto.
  - cbn. intros _. split; [|apply lookup_insert_eq].
    apply in_or_app. right. unfold summary_lines. cbn. auto.
Qed.

Lemma empty_object_is_summarised_as_failed_witness :
  In ("Perplexity: ✗ Failed or skipped" +:+ nl)
     (console (main (with_post (PostReturns (json_response 200 "OK" (JDict []))) sample_env)
                 3 (initial_world ∅)).2)
  ∧ files (main (with_post (PostReturns (json_response 200 "OK" (JDict []))) sample_env)
             3 (initial_world ∅)).2 !! in_output_dir "perplexity_report.md"
    = Some (FText (perplexity_report
                     (with_post (PostReturns (json_response 200 "OK" (JDict []))) sample_env)
                     (JDict []))).
Proof.
  apply (empty_object_is_summarised_as_failed
           (with_post (PostReturns (json_response 200 "OK" (JDict []))) sample_env) 3
           (json_response 200 "OK" (JDict [])) (initial_world ∅));
    reflexivity.
Defined.

(** ** Provider B *)

#[local] Arguments gemini_started : simpl never.
#[local] Arguments job_created : simpl never.

(** The installation is attempted exactly when the import, or else the
    construction of the client, raises [ImportError], and then once. *)
Theorem install_only_after_import_error (env : environment) (w : world) :
  List.filter is_pip_install (trace (make_client env w).2)
  = List.filter is_pip_install (trace w) ++ (if install_needed env then [EvPipInstall] else []).
Proof.
  unfold make_client, try_except, install_needed.
  destruct (import_genai env) as [e1|], (genai_Client env) as [e2|],
    (pip_install env) as [e3|], (import_genai_again env) as [e4|],
    (genai_Client_again env) as [e5|];
    exec;
    try (destruct (is_ImportError e1)); try (destruct (is_ImportError e2));
    exec; rewrite ?List.filter_app, ?app_nil_r; cbn; rewrite ?app_nil_r; reflexivity.
Qed.

Lemma run_gemini_research_stopped (env : environment) (fuel : nat) (w : world) :
  client_ready env = false →
  ∃ e, (client_run env).1 = Raised e
       ∧ run_gemini_research env fuel w = (Raised e, gemini_stopped env w).
Proof.
  intros Hc. destruct (run_gemini_research_no_client env fuel w Hc) as (e & He & _).
  exists e. split; [exact He|].
  unfold run_gemini_research, gemini_stopped, mbind, M_bind, bind, print, print_end.
  cbn. rewrite make_client_eq, He. cbn. now rewrite <- !app_assoc.
Qed.

(** What is raised while the client is obtained is raised before the
    second [try]: it leaves the pipeline.  No job has been created or
    fetched then, and when no installation was attempted no file is
    touched. *)
Theorem client_failure_leaves_the_pipeline (env : environment) (fuel : nat) (w : world) :
  client_ready env = false →
  ∃ e w',
    run_gemini_research env fuel w = (Raised e, w')
    ∧ (client_run env).1 = Raised e
    ∧ List.filter is_job_event (trace w') = List.filter is_job_event (trace w)
    ∧ (install_needed env = false → files w' = files w).
Proof.
  intros Hc. destruct (run_gemini_research_stopped env fuel w Hc) as (e & He & Hrun).
  exists e, (gemini_stopped env w). repeat split; auto.
  cbn. rewrite List.filter_app.
  rewrite (filter_excluded is_setup is_job_event _ ltac:(now intros []) (client_trace_setup env)).
  apply app_nil_r.
Qed.

Lemma client_failure_leaves_the_pipeline_witness :
  ∃ e w',
    run_gemini_research rejected_key 3 (initial_world ∅) = (Raised e, w')
    ∧ (client_run rejected_key).1 = Raised e
    ∧ List.filter is_job_event (trace w') = List.filter is_job_event []
    ∧ files w' = ∅.
Proof.
  destruct (client_failure_leaves_the_pipeline rejected_key 3 (initial_world ∅) eq_refl)
    as (e & w' & Hrun & He & Hjob & Hfiles).
  exists e, w'. repeat split; [exact Hrun|exact He|exact Hjob|exact (Hfiles eq_refl)].
Defined.

Lemma poll_raises (env : environment) (fuel k : nat) (i id : pyval) (e : exc) (w : world) :
  py_attr i "id" = inr id →
  interactions_get env k = inl e →
  poll env (S fuel) k i w
  = (Raised e, mkWorld (console w) (files w) (trace w ++ [EvGet id])).
Proof.
  intros Hid Hget. cbn [poll].
  unfold mbind, M_bind, bind, lift, emit, ret, raise.
  rewrite Hid. cbn. rewrite Hget. reflexivity.
Qed.

(** An exception raised by the creation of the job is caught: the
    pipeline returns [None], its last line names the error, it has not
    fetched and has touched no file. *)
Theorem create_failure_is_caught (env : environment) (fuel : nat) (e : exc) (w : world) :
  client_ready env = true →
  interactions_create env = inl e →
  ∃ w',
    run_gemini_research env fuel w = (Returned None, w')
    ∧ last (console w') = Some (("✗ Gemini API error: " +:+ exc_msg e) +:+ nl)
    ∧ fetches (trace w') = fetches (trace w)
    ∧ files w' = files w.
Proof.
  intros Hc Hcreate. eexists. split.
  - rewrite (run_gemini_research_eq _ _ _ Hc). unfold try_except, gemini_job.
    unfold mbind, M_bind, bind, emit, lift, raise. rewrite Hcreate. cbn.
    rewrite gemini_handler_eq. reflexivity.
  - cbn. repeat split.
    + apply last_snoc.
    + unfold gemini_started. cbn. rewrite !fetches_app, fetches_setup.
      change (fetches [EvCreate _]) with 0%nat. lia.
Qed.

Lemma create_failure_is_caught_witness :
  ∃ w',
    run_gemini_research sample_env 3 (initial_world ∅) = (Returned None, w')
    ∧ last (console w') = Some (("✗ Gemini API error: " +:+ "no client in this run") +:+ nl)
    ∧ fetches (trace w') = fetches []
    ∧ files w' = ∅.
Proof.
  apply (create_failure_is_caught sample_env 3 no_client (initial_world ∅)); reflexivity.
Defined.

(** An exception raised by a fetch, after any number of idle rounds, is
    caught: the pipeline returns [None], its last line names the error,
    the failed fetch was its last, and it has touched no file. *)
Theorem fetch_failure_is_caught
    (env : environment) (fuel n : nat) (i0 : pyval) (e : exc) (w : world) :
  client_ready env = true →
  interactions_create env = inr i0 → has_id i0 = true →
  (∀ k, (k < n)%nat → ∃ i, interactions_get env k = inr i ∧ keeps_polling i = true) →
  interactions_get env n = inl e →
  (n < fuel)%nat →
  ∃ w',
    run_gemini_research env fuel w = (Returned None, w')
    ∧ last (console w') = Some (("✗ Gemini API error: " +:+ exc_msg e) +:+ nl)
    ∧ fetches (trace w') = (fetches (trace w) + S n)%nat
    ∧ files w' = files w.
Proof.
  intros Hc Hcreate Hid0 Hidle Hget Hfuel.
  destruct (has_id_inv _ Hid0) as (id0 & H0).
  replace fuel with (n + S (fuel - S n))%nat by lia.
  destruct (poll_idle env n (S (fuel - S n)) 0 i0
              (job_created env id0 (gemini_started env w)) Hid0 Hidle)
    as (i' & w1 & Heq & Hid' & Hext & Hfetch).
  destruct (has_id_inv _ Hid') as (id' & H').
  eexists. split.
  - rewrite (run_gemini_research_eq _ _ _ Hc). unfold try_except.
    rewrite (gemini_job_eq _ _ _ _ _ Hcreate H0).
    unfold mbind, M_bind, bind. rewrite Heq.
    rewrite (poll_raises env _ (0 + n) i' id' e w1 H' Hget).
    rewrite gemini_handler_eq. reflexivity.
  - cbn. repeat split.
    + apply last_snoc.
    + rewrite fetches_app, Hfetch, fetches_job_created.
      change (fetches [EvGet id']) with 1%nat. lia.
    + now rewrite (extends_no_file _ _ _ Hext).
Qed.

Lemma fetch_failure_is_caught_witness :
  ∃ w',
    run_gemini_research (job_then_raises 2 connection_lost sample_env) 5 (initial_world ∅)
    = (Returned None, w')
    ∧ last (console w')
      = Some (("✗ Gemini API error: " +:+ "connection reset by peer") +:+ nl)
    ∧ fetches (trace w') = (fetches [] + 3)%nat
    ∧ files w' = ∅.
Proof.
  apply (fetch_failure_is_caught (job_then_raises 2 connection_lost sample_env) 5 2
           (interaction_obj "job-1" "created" []) connection_lost (initial_world ∅));
    try reflexivity.
  - intros k Hk. exists running. split; [|reflexivity].
    do 2 (destruct k as [|k]; [reflexivity|]). lia.
  - lia.
Defined.

Lemma run_gemini_research_saving
    (env : environment) (fuel n : nat) (i0 done : pyval) (w : world) :
  client_ready env = true →
  interactions_create env = inr i0 → has_id i0 = true →
  (∀ k, (k < n)%nat → ∃ i, interactions_get env k = inr i ∧ keeps_polling i = true) →
  interactions_get env n = inr done →
  py_attr done "status" = inr (PStr "completed") →
  (n < fuel)%nat →
  ∃ w1,
    run_gemini_research env fuel w
    = try_except (save_gemini_results env done) (λ _, true) gemini_handler w1
    ∧ files w1 = files w.
Proof.
  intros Hc Hcreate Hid0 Hidle Hget Hst Hfuel.
  destruct (has_id_inv _ Hid0) as (id0 & H0).
  replace fuel with (n + S (fuel - S n))%nat by lia.
  destruct (poll_idle env n (S (fuel - S n)) 0 i0
              (job_created env id0 (gemini_started env w)) Hid0 Hidle)
    as (i' & w1 & Heq & Hid' & Hext & Hfetch).
  destruct (has_id_inv _ Hid') as (id' & H').
  eexists. split.
  - rewrite (run_gemini_research_eq _ _ _ Hc). unfold try_except.
    rewrite (gemini_job_eq _ _ _ _ _ Hcreate H0).
    unfold mbind, M_bind, bind. rewrite Heq.
    rewrite (poll_completed env _ (0 + n) i' done id' w1 H' Hget Hst).
    unfold after_poll. reflexivity.
  - cbn. now rewrite (extends_no_file _ _ _ Hext).
Qed.

(** When [json.dump] cannot write the snapshot of a completed job, the
    error is caught and the pipeline returns [None]: the raw artifact is
    left as the dump stopped, and the report, which is written after it,
    is not written although the job delivered its text. *)
Theorem unwritable_snapshot_loses_the_report
    (env : environment) (fuel n : nat) (i0 done content data : pyval) (e : exc) (w : world) :
  client_ready env = true →
  interactions_create env = inr i0 → has_id i0 = true →
  (∀ k, (k < n)%nat → ∃ i, interactions_get env k = inr i ∧ keeps_polling i = true) →
  interactions_get env n = inr done →
  py_attr done "status" = inr (PStr "completed") →
  final_text done = inr content →
  raw_data done (py_getattr done "usage" (PDict [])) = inr data →
  to_json data = inl e →
  (n < fuel)%nat →
  ∃ w',
    run_gemini_research env fuel w = (Returned None, w')
    ∧ last (console w') = Some (("✗ Gemini API error: " +:+ exc_msg e) +:+ nl)
    ∧ files w' !! in_output_dir "gemini_full_response.json" = Some FPartial
    ∧ files w' !! in_output_dir "gemini_report.md"
      = files w !! in_output_dir "gemini_report.md".
Proof.
  intros Hc Hcreate Hid0 Hidle Hget Hst Hfinal Hraw Hjson Hfuel.
  destruct (run_gemini_research_saving _ _ _ _ _ w Hc Hcreate Hid0 Hidle Hget Hst Hfuel)
    as (w1 & Hrun & Hfiles).
  eexists. split.
  - rewrite Hrun. unfold try_except, save_gemini_results, json_dump.
    unfold mbind, M_bind, bind, lift, emit, print, print_end, ret, raise, write_file.
    rewrite Hfinal. cbn. rewrite Hraw. cbn. rewrite Hjson. cbn.
    rewrite gemini_handler_eq. reflexivity.
  - cbn. repeat split.
    + apply last_snoc.
    + apply lookup_insert_eq.
    + rewrite lookup_insert_ne by (vm_compute; discriminate). now rewrite Hfiles.
Qed.

Lemma unwritable_snapshot_loses_the_report_witness :
  ∃ w',
    run_gemini_research (job_then 1 finished_decimal sample_env) 4 (initial_world ∅)
    = (Returned None, w')
    ∧ last (console w')
      = Some (("✗ Gemini API error: " +:+ "Object of type Decimal is not JSON serializable")
                +:+ nl)
    ∧ files w' !! in_output_dir "gemini_full_response.json" = Some FPartial
    ∧ files w' !! in_output_dir "gemini_report.md"
      = (∅ : gmap string file) !! in_output_dir "gemini_report.md".
Proof.
  eapply (unwritable_snapshot_loses_the_report (job_then 1 finished_decimal sample_env) 4 1
            (interaction_obj "job-1" "created" []) finished_decimal (PStr "REPORT") _
            (type_error "Object of type Decimal is not JSON serializable")
            (initial_world ∅)).
  all: try (vm_compute; reflexivity); try lia.
  intros k Hk. exists running. split; [|reflexivity].
  destruct k as [|k]; [reflexivity|lia].
Defined.

Lemma output_records_without_text (outs : list pyval) :
  forallb has_text outs = false →
  ∃ e, output_records outs = inl e ∧ exc_cls e = AttributeError.
Proof.
  induction outs as [|o outs IH]; [discriminate|].
  cbn. unfold has_text at 1. destruct (py_attr o "text") as [e|t] eqn:Et; cbn.
  - intros _. exists e. split; [reflexivity|].
    unfold py_attr in Et. destruct o; try (now injection Et as <-).
    destruct (assoc "text" attrs); [discriminate|now injection Et as <-].
  - intros H. destruct (IH H) as (e & -> & He). eauto.
Qed.

(** The snapshot reads the text of every output segment, the report only
    that of the last.  When some segment of a completed job has no text,
    the error is caught and the pipeline returns [None] without having
    written any file, although the last segment has the report text. *)
Theorem segment_without_text_loses_both_artifacts
    (env : environment) (fuel n : nat) (i0 done id final content : pyval)
    (outs : list pyval) (w : world) :
  client_ready env = true →
  interactions_create env = inr i0 → has_id i0 = true →
  (∀ k, (k < n)%nat → ∃ i, interactions_get env k = inr i ∧ keeps_polling i = true) →
  interactions_get env n = inr done →
  py_attr done "status" = inr (PStr "completed") →
  py_attr done "id" = inr id →
  py_attr done "outputs" = inr (PList outs) →
  last outs = Some final → py_attr final "text" = inr content →
  forallb has_text outs = false →
  (n < fuel)%nat →
  ∃ e w',
    run_gemini_research env fuel w = (Returned None, w')
    ∧ exc_cls e = AttributeError
    ∧ last (console w') = Some (("✗ Gemini API error: " +:+ exc_msg e) +:+ nl)
    ∧ files w' = files w.
Proof.
  intros Hc Hcreate Hid0 Hidle Hget Hst Hid Houts Hlast Htext Hbad Hfuel.
  destruct (run_gemini_research_saving _ _ _ _ _ w Hc Hcreate Hid0 Hidle Hget Hst Hfuel)
    as (w1 & Hrun & Hfiles).
  destruct (output_records_without_text _ Hbad) as (e & Hrec & Hcls).
  assert (Htruthy : py_truthy (PList outs) = true) by (destruct outs; [discriminate|reflexivity]).
  assert (Hfinal : final_text done = inr content).
  { unfold final_text. rewrite Houts, Htruthy. cbn. now rewrite Hlast. }
  assert (Hraw : raw_data done (py_getattr done "usage" (PDict [])) = inl e).
  { unfold raw_data. rewrite Hid, Hst, Houts, Htruthy. cbn. now rewrite Hrec. }
  exists e. eexists. split.
  - rewrite Hrun. unfold try_except, save_gemini_results.
    unfold mbind, M_bind, bind, lift, emit, print, print_end, ret, raise.
    rewrite Hfinal. cbn. rewrite Hraw. cbn.
    rewrite gemini_handler_eq. reflexivity.
  - cbn. repeat split; [exact Hcls|apply last_snoc|exact Hfiles].
Qed.

Lemma segment_without_text_loses_both_artifacts_witness :
  ∃ e w',
    run_gemini_research (job_then 1 finished_with_image sample_env) 4 (initial_world ∅)
    = (Returned None, w')
    ∧ exc_cls e = AttributeError
    ∧ last (console w') = Some (("✗ Gemini API error: " +:+ exc_msg e) +:+ nl)
    ∧ files w' = ∅.
Proof.
  eapply (segment_without_text_loses_both_artifacts
            (job_then 1 finished_with_image sample_env) 4 1
            (interaction_obj "job-1" "created" []) finished_with_image (PStr "job-1")
            (text_output "REPORT") (PStr "REPORT")
            [PObj "ImageContent" [("type", PStr "image")]; text_output "REPORT"]).
  all: try (vm_compute; reflexivity); try lia.
  intros k Hk. exists running. split; [|reflexivity].
  destruct k as [|k]; [reflexivity|lia].
Defined.

(** After a successful run of provider B the raw artifact parses back to
    the [raw_data] dictionary the pipeline built: nothing is lost or
    altered by writing it. *)
Theorem snapshot_parses_back
    (env : environment) (fuel n : nat) (i0 done id content : pyval) (j : json) (w : world) :
  client_ready env = true →
  interactions_create env = inr i0 → has_id i0 = true →
  (∀ k, (k < n)%nat → ∃ i, interactions_get env k = inr i ∧ keeps_polling i = true) →
  interactions_get env n = inr done →
  py_attr done "status" = inr (PStr "completed") →
  py_attr done "id" = inr id →
  final_text done = inr content →
  snapshot done = inr j →
  (n < fuel)%nat →
  ∃ w' parsed,
    run_gemini_research env fuel w = (Returned (Some done), w')
    ∧ files w' !! in_output_dir "gemini_full_response.json" ≫= json_load = Some parsed
    ∧ raw_data done (py_getattr done "usage" (PDict [])) = inr (of_json parsed).
Proof.
  intros Hc Hcreate Hid0 Hidle Hget Hst Hid Hfinal Hsnap Hfuel.
  destruct (run_gemini_research_completed _ _ _ _ _ _ _ _ w
              Hc Hcreate Hid0 Hidle Hget Hst Hid Hfinal Hsnap Hfuel) as (w1 & Hrun & _).
  exists (gemini_saved env done id content j w1), j. split; [exact Hrun|]. split.
  - cbn [gemini_saved files].
    rewrite lookup_insert_ne by (vm_compute; discriminate).
    now rewrite lookup_insert_eq.
  - unfold snapshot in Hsnap.
    destruct (raw_data done (py_getattr done "usage" (PDict []))) as [|data]; [discriminate|].
    now rewrite (of_json_to_json _ _ Hsnap).
Qed.

Lemma snapshot_parses_back_witness :
  ∃ w' parsed,
    run_gemini_research (job_then 2 finished sample_env) 3 (initial_world ∅)
    = (Returned (Some finished), w')
    ∧ files w' !! in_output_dir "gemini_full_response.json" ≫= json_load = Some parsed
    ∧ raw_data finished (py_getattr finished "usage" (PDict [])) = inr (of_json parsed).
Proof.
  eapply (snapshot_parses_back (job_then 2 finished sample_env) 3 2
            (interaction_obj "job-1" "created" []) finished (PStr "job-1") (PStr "REPORT")).
  all: try (vm_compute; reflexivity); try lia.
  intros k Hk. exists running. split; [|reflexivity].
  do 2 (destruct k as [|k]; [reflexivity|]). lia.
Defined.

Lemma gemini_job_creates_first (env : environment) (fuel : nat) (w : world) :
  ∃ evs,
    trace (try_except (gemini_job env fuel) (λ _, true) gemini_handler w).2
    = trace w ++ EvCreate "deep-research-pro-preview-12-2025" :: evs
    ∧ forallb is_loop_event evs = true.
Proof.
  pose proof (try_except_extends is_loop_event gemini_files (gemini_job env fuel)
                (λ _, true) gemini_handler w
                (λ e, gemini_handler_keeps _ _ e)) as H1.
  assert (H2 : extends is_loop_event gemini_files
                 (emit (EvCreate "deep-research-pro-preview-12-2025") w).2
                 (gemini_job env fuel w).2).
  { unfold gemini_job. apply bind_extends. intros _. keeps_walk.
    - eapply keeps_weaken; [| |apply poll_keeps]; [|discriminate].
      intros ev H. unfold is_loop_event. now rewrite H.
    - unfold after_poll. keeps_walk.
      eapply keeps_weaken; [| |apply save_gemini_results_keeps]; [|auto].
      intros ev H. unfold is_loop_event. rewrite H. apply orb_true_r. }
  destruct (extends_trans _ _ _ _ _ H2 H1) as (_ & (evs & Ht & Hp) & _).
  exists evs. split; [|exact Hp]. rewrite Ht. cbn. now rewrite <- app_assoc.
Qed.

(** A run of provider B creates one job when the client is obtained, and
    none otherwise: polling never creates another, however long it
    lasts and however the run ends. *)
Theorem job_is_created_once (env : environment) (fuel : nat) (w : world) :
  List.filter is_create (trace (run_gemini_research env fuel w).2)
  = List.filter is_create (trace w)
      ++ (if client_ready env then [EvCreate "deep-research-pro-preview-12-2025"] else []).
Proof.
  destruct (client_ready env) eqn:Hc.
  - rewrite (run_gemini_research_eq _ _ _ Hc).
    destruct (gemini_job_creates_first env fuel (gemini_started env w)) as (evs & -> & Hp).
    unfold gemini_started. cbn [trace]. rewrite !List.filter_app. cbn.
    rewrite (filter_excluded is_setup is_create _ ltac:(now intros []) (client_trace_setup env)).
    rewrite (filter_excluded is_loop_event is_create _ ltac:(now intros []) Hp).
    now rewrite app_nil_r.
  - destruct (run_gemini_research_stopped env fuel w Hc) as (e & _ & ->).
    cbn. rewrite List.filter_app.
    rewrite (filter_excluded is_setup is_create _ ltac:(now intros []) (client_trace_setup env)).
    reflexivity.
Qed.

(** * The script under hazards *)

(** ** On calm hazards it is the script above *)

Lemma same_refl {A} (m : M A) : same m m.
Proof. now intros w. Qed.

Lemma same_bind {A B} (m1 m2 : M A) (k1 k2 : A → M B) :
  same m1 m2 → (∀ a, same (k1 a) (k2 a)) → same (m1 ≫= k1) (m2 ≫= k2).
Proof.
  intros Hm Hk w. unfold mbind, M_bind, bind. rewrite (Hm w).
  destruct (m2 w) as [[a|e|] w1]; [apply Hk|reflexivity|reflexivity].
Qed.

Lemma same_try_except {A} (m1 m2 : M A) (catches : exc → bool) (h1 h2 : exc → M A) :
  same m1 m2 → (∀ e, same (h1 e) (h2 e)) →
  same (try_except m1 catches h1) (try_except m2 catches h2).
Proof.
  intros Hm Hh w. unfold try_except. rewrite (Hm w).
  destruct (m2 w) as [[a|e|] w1]; try reflexivity.
  destruct (catches e); [apply Hh|reflexivity].
Qed.

Section Calm.
Context (hz : hazards) (Hcalm : calm hz).

Lemma same_print_end (s t : string) : same (print_end_on hz s t) (print_end s t).
Proof.
  destruct Hcalm as (Hp & _). intros w. unfold print_end_on.
  unfold mbind, M_bind, bind. now rewrite Hp.
Qed.

Lemma same_print (s : string) : same (print_on hz s) (print s).
Proof. apply same_print_end. Qed.

Lemma same_mkdir (path : string) : same (mkdir_on hz path) (emit (EvMkdir path)).
Proof.
  destruct Hcalm as (_ & Hm & _). intros w. unfold mkdir_on.
  unfold mbind, M_bind, bind. now rewrite Hm.
Qed.

Lemma same_write (path : string) (content : file) :
  same (write_on hz path content) (write_file path content).
Proof.
  destruct Hcalm as (_ & _ & Ho & Hw & _). intros w. unfold write_on.
  unfold mbind, M_bind, bind. now rewrite Ho, Hw.
Qed.

Lemma same_json_dump (path : string) (data : pyval) :
  same (json_dump_on hz path data) (json_dump path data).
Proof.
  destruct Hcalm as (_ & _ & Ho & Hw & _). intros w. unfold json_dump_on, json_dump.
  unfold mbind, M_bind, bind. rewrite Ho. cbn.
  destruct (to_json data) as [e|j]; [reflexivity|now rewrite Hw].
Qed.

Lemma same_response_json (r : http_response) :
  same (response_json_on hz r) (response_json r).
Proof.
  destruct Hcalm as (_ & _ & _ & _ & Hj). intros w. unfold response_json_on.
  unfold mbind, M_bind, bind. now rewrite Hj.
Qed.

(** Walk the two scripts side by side. *)
Ltac same_walk :=
  repeat first
    [ match goal with
      | |- same (mbind _ _) (mbind _ _) => apply same_bind; [|intros ?]
      | |- same (try_except _ _ _) (try_except _ _ _) => apply same_try_except; [|intros ?]
      | |- same (print_on _ _) _ => apply same_print
      | |- same (print_end_on _ _ _) _ => apply same_print_end
      | |- same (mkdir_on _ _) _ => apply same_mkdir
      | |- same (write_on _ _ _) _ => apply same_write
      | |- same (json_dump_on _ _ _) _ => apply same_json_dump
      | |- same (response_json_on _ _) _ => apply same_response_json
      | |- same (if ?b then _ else _) (if ?b then _ else _) => destruct b
      | |- same (match ?x with _ => _ end) (match ?x with _ => _ end) => destruct x
      end
    | apply same_refl ].

Lemma same_save_perplexity_results (env : environment) (result : json) :
  same (save_perplexity_results_on hz env result) (save_perplexity_results env result).
Proof. unfold save_perplexity_results_on, save_perplexity_results. same_walk. Qed.

Lemma same_run_perplexity_research (env : environment) :
  same (run_perplexity_research_on hz env) (run_perplexity_research env).
Proof.
  unfold run_perplexity_research_on, run_perplexity_research,
    perplexity_call_on, perplexity_call, perplexity_handler_on, perplexity_handler.
  same_walk. apply same_save_perplexity_results.
Qed.

Lemma same_poll (env : environment) (fuel : nat) :
  ∀ (k : nat) (i : pyval), same (poll_on hz env fuel k i) (poll env fuel k i).
Proof.
  induction fuel as [|fuel IH]; intros k i; cbn [poll_on poll].
  - apply same_refl.
  - same_walk. apply IH.
Qed.

Lemma same_make_client (env : environment) : same (make_client_on hz env) (make_client env).
Proof. unfold make_client_on, make_client. same_walk. Qed.

Lemma same_save_gemini_results (env : environment) (i : pyval) :
  same (save_gemini_results_on hz env i) (save_gemini_results env i).
Proof. unfold save_gemini_results_on, save_gemini_results. same_walk. Qed.

Lemma same_run_gemini_research (env : environment) (fuel : nat) :
  same (run_gemini_research_on hz env fuel) (run_gemini_research env fuel).
Proof.
  unfold run_gemini_research_on, run_gemini_research, gemini_job_on, gemini_job,
    gemini_handler_on, gemini_handler.
  same_walk.
  - apply same_make_client.
  - apply same_poll.
  - unfold after_poll_on, after_poll. same_walk. apply same_save_gemini_results.
Qed.

Lemma same_main (env : environment) (fuel : nat) : same (main_on hz env fuel) (main env fuel).
Proof.
  unfold main_on, main. same_walk.
  - apply same_run_perplexity_research.
  - apply same_run_gemini_research.
Qed.

End Calm.

Lemma no_hazards_calm : calm no_hazards.
Proof. repeat split. Qed.

(** ** Claims that say the run gets through *)

(** [C7], for a response with a non-error status whose decoded body is an
    object in which every field of the wire contract is either missing or
    of the contract's shape ([shape_ok]), on a console and a file system
    that refuse nothing and with a decoder that raised nothing ([calm]):
    nothing raises, the pipeline returns the body, prints the summary
    lines and writes both artifacts.  What is missing is replaced as
    [content_of], [usage_of], [sources_of], [perplexity_summary] and
    [citation] spell out: a missing choices list, message or content gives
    the empty content, a missing usage object or usage figure prints as
    N/A, a missing source list gives no entries, a missing url gives the
    empty string and a missing title gives Untitled. *)
Theorem missing_fields_take_defaults
    (hz : hazards) (env : environment) (r : http_response) (result : json) (w : world) :
  calm hz →
  requests_post env = PostReturns r →
  http_error r = None →
  json_body r = inr result →
  shape_ok result = true →
  ∃ w',
    run_perplexity_research_on hz env w = (Returned (Some result), w')
    ∧ console w' = console w ++ perplexity_banner ++ perplexity_summary env result
    ∧ files w' !! in_output_dir "perplexity_full_response.json" = Some (FJson result)
    ∧ files w' !! in_output_dir "perplexity_report.md"
      = Some (FText (perplexity_report_head env (content_of result)
                       +:+ citations env 1 (sources_of result))).
Proof.
  intros Hcalm Hp He Hb Hok. rewrite (same_run_perplexity_research hz Hcalm env w).
  eexists. split; [apply (run_perplexity_success _ _ _ _ Hp He Hb Hok)|].
  cbn. repeat split.
  - now rewrite app_assoc.
  - rewrite lookup_insert_ne by (vm_compute; discriminate). apply lookup_insert_eq.
  - apply lookup_insert_eq.
Qed.

Lemma missing_fields_take_defaults_witness :
  ∃ w',
    run_perplexity_research_on no_hazards
      (with_post (PostReturns (json_response 200 "OK" (JDict []))) sample_env)
      (initial_world ∅) = (Returned (Some (JDict [])), w')
    ∧ console w'
      = [] ++ perplexity_banner
           ++ [(nl +:+ "✓ Research completed!") +:+ nl;
               "  - Prompt tokens: N/A" +:+ nl;
               "  - Completion tokens: N/A" +:+ nl;
               "  - Search queries: N/A" +:+ nl;
               "  - Citations: 0 sources" +:+ nl;
               "  - Report saved to: research_results/perplexity_report.md" +:+ nl]
    ∧ files w' !! in_output_dir "perplexity_full_response.json" = Some (FJson (JDict []))
    ∧ files w' !! in_output_dir "perplexity_report.md"
      = Some (FText (perplexity_report_head sample_env (JStr "") +:+ "")).
Proof.
  apply (missing_fields_take_defaults no_hazards
           (with_post (PostReturns (json_response 200 "OK" (JDict []))) sample_env)
           (json_response 200 "OK" (JDict [])) (JDict []) (initial_world ∅));
    [exact no_hazards_calm|reflexivity..].
Defined.

(** [C6], for the failures the pipelines handle, on a console and a file
    system that refuse nothing and with a decoder that fails only with
    requests' [JSONDecodeError] ([calm]): provider A is skipped, or its
    call fails with an exception of requests or a 4xx or 5xx status, or
    its body does not decode, or the decoded body has the shape of the
    wire contract; provider B is skipped or its client is obtained.  Then
    no exception leaves [main]: the process exits with status zero, unless
    it is still inside the poll loop of provider B. *)
Theorem contained_failures_exit_zero
    (hz : hazards) (env : environment) (fuel : nat) (w : world) :
  calm hz →
  perplexity_contained env = true →
  gemini_contained env = true →
  exit_status (main_on hz env fuel w).1 = Some 0%Z
  ∨ ((main_on hz env fuel w).1 = Pending
     ∧ ∃ i0 w1, interactions_create env = inr i0
                ∧ (poll_on hz env fuel 0 i0 w1).1 = Pending).
Proof.
  intros Hcalm Ha Hb. rewrite (same_main hz Hcalm env fuel w).
  destruct (main_contained env fuel w Ha Hb) as [H|(H & i0 & w1 & Hc & Hp)].
  - now left.
  - right. split; [exact H|]. exists i0, w1. split; [exact Hc|].
    now rewrite (same_poll hz Hcalm env fuel 0 i0 w1).
Qed.

Lemma contained_failures_exit_zero_witness :
  exit_status (main_on no_hazards sample_env 7 (initial_world ∅)).1 = Some 0%Z
  ∨ ((main_on no_hazards sample_env 7 (initial_world ∅)).1 = Pending
     ∧ ∃ i0 w1, interactions_create sample_env = inr i0
                ∧ (poll_on no_hazards sample_env 7 0 i0 w1).1 = Pending).
Proof.
  apply (contained_failures_exit_zero no_hazards sample_env 7 (initial_world ∅));
    [exact no_hazards_calm|reflexivity|reflexivity].
Defined.

(** ** Provider B: claims restated *)

Lemma run_gemini_research_without_outputs
    (env : environment) (fuel n : nat) (i0 done id outputs : pyval) (j_id j_usage : json)
    (w : world) :
  client_ready env = true →
  interactions_create env = inr i0 → has_id i0 = true →
  (∀ j, (j < n)%nat → ∃ i, interactions_get env j = inr i ∧ keeps_polling i = true) →
  interactions_get env n = inr done →
  py_attr done "id" = inr id →
  py_attr done "status" = inr (PStr "completed") →
  py_attr done "outputs" = inr outputs →
  py_truthy outputs = false →
  to_json id = inr j_id →
  to_json (usage_record (py_getattr done "usage" (PDict []))) = inr j_usage →
  (n < fuel)%nat →
  ∃ w',
    run_gemini_research env fuel w = (Returned (Some done), w')
    ∧ files w' !! in_output_dir "gemini_report.md"
      = Some (FText (gemini_opening env id +:+ "" +:+ nl))
    ∧ files w' !! in_output_dir "gemini_full_response.json"
      = Some (FJson (JDict [("id", j_id); ("status", JStr "completed");
                            ("outputs", JList []); ("usage", j_usage)])).
Proof.
  intros Hc Hcreate Hid0 Hidle Hget Hid Hst Houts Hfalsy Hjid Hju Hfuel.
  assert (Hfinal : final_text done = inr (PStr "")).
  { unfold final_text. now rewrite Houts, Hfalsy. }
  pose proof (snapshot_without_outputs _ _ _ _ _ Hid Hst Houts Hfalsy Hjid Hju) as Hsnap.
  destruct (run_gemini_research_completed _ _ _ _ _ _ _ _ w
              Hc Hcreate Hid0 Hidle Hget Hst Hid Hfinal Hsnap Hfuel) as (w1 & Hrun & _).
  eexists. split; [exact Hrun|]. cbn. split.
  - rewrite lookup_insert_eq. now rewrite gemini_report_eq.
  - rewrite lookup_insert_ne by (vm_compute; discriminate). apply lookup_insert_eq.
Qed.

(** [C10], for an interaction that [json.dump] can write: the client is
    there, the job is created, [n] fetches keep the loop going and the
    next one returns an interaction whose status is "completed" and whose
    [outputs] is there and empty or [None] (any falsy value), with an id
    and usage figures that are JSON values.  Then the pipeline does not
    raise and returns the interaction; [gemini_report.md] is the opening
    followed by an empty body, and the snapshot in
    [gemini_full_response.json] has an empty [outputs] list.  And when
    provider B's credential is set and provider A's part of [main] has
    returned, [main] returns, its output ends with the summary, and the
    summary has the line that reports Gemini as completed. *)
Theorem completed_without_outputs
    (env : environment) (fuel n : nat) (i0 done id outputs : pyval) (j_id j_usage : json)
    (w : world) :
  client_ready env = true →
  interactions_create env = inr i0 → has_id i0 = true →
  (∀ j, (j < n)%nat → ∃ i, interactions_get env j = inr i ∧ keeps_polling i = true) →
  interactions_get env n = inr done →
  py_attr done "id" = inr id →
  py_attr done "status" = inr (PStr "completed") →
  py_attr done "outputs" = inr outputs →
  py_truthy outputs = false →
  to_json id = inr j_id →
  to_json (usage_record (py_getattr done "usage" (PDict []))) = inr j_usage →
  (n < fuel)%nat →
  (∃ w',
     run_gemini_research env fuel w = (Returned (Some done), w')
     ∧ files w' !! in_output_dir "gemini_report.md"
       = Some (FText (gemini_opening env id +:+ "" +:+ nl))
     ∧ files w' !! in_output_dir "gemini_full_response.json"
       = Some (FJson (JDict [("id", j_id); ("status", JStr "completed");
                             ("outputs", JList []); ("usage", j_usage)])))
  ∧ (key_truthy (GOOGLE_API_KEY env) = true →
     ∀ pr w2,
       pipeline_a env (main_started env w) = (Returned pr, w2) →
       ∃ w' before,
         main env fuel w = (Returned tt, w')
         ∧ console w' = before ++ summary_lines env pr (Some done)
         ∧ In ("Gemini:     ✓ Completed" +:+ nl) (summary_lines env pr (Some done))
         ∧ files w' !! in_output_dir "gemini_report.md"
           = Some (FText (gemini_opening env id +:+ "" +:+ nl))
         ∧ files w' !! in_output_dir "gemini_full_response.json"
           = Some (FJson (JDict [("id", j_id); ("status", JStr "completed");
                                 ("outputs", JList []); ("usage", j_usage)]))).
Proof.
  intros Hc Hcreate Hid0 Hidle Hget Hid Hst Houts Hfalsy Hjid Hju Hfuel.
  split.
  - apply (run_gemini_research_without_outputs env fuel n i0 done id outputs); assumption.
  - intros Hkey pr w2 Ha.
    destruct (run_gemini_research_without_outputs env fuel n i0 done id outputs j_id j_usage w2
                Hc Hcreate Hid0 Hidle Hget Hid Hst Houts Hfalsy Hjid Hju Hfuel)
      as (w3 & Hrun & Hreport & Hraw).
    eexists _, (console w3). split.
    { rewrite main_eq. unfold main_outline. rewrite Ha. unfold pipeline_b.
      rewrite Hkey, Hrun. reflexivity. }
    cbn. repeat split; [|exact Hreport|exact Hraw].
    unfold summary_lines. destruct done; try discriminate. cbn. auto 10.
Qed.

Lemma completed_without_outputs_witness :
  (∃ w',
     run_gemini_research (job_then 1 finished_empty (only_gemini sample_env)) 2
       (initial_world ∅) = (Returned (Some finished_empty), w')
     ∧ files w' !! in_output_dir "gemini_report.md"
       = Some (FText (gemini_opening (job_then 1 finished_empty (only_gemini sample_env))
                        (PStr "job-1") +:+ "" +:+ nl))
     ∧ files w' !! in_output_dir "gemini_full_response.json"
       = Some (FJson (JDict [("id", JStr "job-1"); ("status", JStr "completed");
                             ("outputs", JList []);
                             ("usage", JDict [("prompt_tokens", JNull);
                                              ("completion_tokens", JNull);
                                              ("total_tokens", JInt 0)])])))
  ∧ ∃ w',
      main (job_then 1 finished_empty (only_gemini sample_env)) 2 (initial_world ∅)
      = (Returned tt, w')
      ∧ In ("Gemini:     ✓ Completed" +:+ nl) (console w').
Proof.
  destruct (completed_without_outputs (job_then 1 finished_empty (only_gemini sample_env)) 2 1
              (interaction_obj "job-1" "created" []) finished_empty (PStr "job-1") PNone
              (JStr "job-1")
              (JDict [("prompt_tokens", JNull); ("completion_tokens", JNull);
                      ("total_tokens", JInt 0)])
              (initial_world ∅)) as [Hrun Hmain]; try reflexivity.
  - intros j Hj. exists running. split; [|reflexivity].
    destruct j as [|j]; [reflexivity|lia].
  - lia.
  - split; [exact Hrun|].
    destruct (Hmain eq_refl None _ eq_refl) as (w' & before & Hm & Hconsole & Hin & _).
    exists w'. split; [exact Hm|]. rewrite Hconsole. apply in_or_app. now right.
Defined.

(** Against [C10] as written: a completed interaction without outputs
    whose usage total is not a JSON value.  [json.dump] raises, the
    pipeline returns [None], the raw artifact is cut short and the report
    is not written. *)
Lemma unwritable_usage_counterexample :
  let env := job_then 0 finished_empty_decimal sample_env in
  let run := run_gemini_research env 3 (initial_world ∅) in
  interactions_get env 0 = inr finished_empty_decimal
  ∧ py_attr finished_empty_decimal "status" = inr (PStr "completed")
  ∧ py_attr finished_empty_decimal "outputs" = inr PNone
  ∧ run.1 = Returned None
  ∧ files run.2 !! in_output_dir "gemini_full_response.json" = Some FPartial
  ∧ files run.2 !! in_output_dir "gemini_report.md" = None.
Proof. cbv zeta. repeat split. Qed.

(** Against [C1] as written: the statuses are in_progress, in_progress,
    completed and the last output of the completed interaction has the
    text REPORT, but its first output has no text.  The pipeline fetches
    three times, the snapshot raises [AttributeError], the pipeline
    returns [None] and [gemini_report.md] is not written. *)
Lemma textless_segment_counterexample :
  let env := job_then 2 finished_with_image sample_env in
  let run := run_gemini_research env 5 (initial_world ∅) in
  interactions_get env 0 = inr running
  ∧ interactions_get env 1 = inr running
  ∧ py_attr running "status" = inr (PStr "in_progress")
  ∧ interactions_get env 2 = inr finished_with_image
  ∧ py_attr finished_with_image "status" = inr (PStr "completed")
  ∧ final_text finished_with_image = inr (PStr "REPORT")
  ∧ run.1 = Returned None
  ∧ fetches (trace run.2) = 3%nat
  ∧ files run.2 !! in_output_dir "gemini_report.md" = None.
Proof. cbv zeta. repeat split. Qed.

(** ** A file system that refuses the report *)

(** When the file system takes the raw artifact and refuses the text of
    the report (the encoding of the file cannot hold it, or the disk is
    full), the exception of the write is not one of requests: it leaves
    provider A's pipeline.  The raw artifact holds the response and the
    report is left opened and cut short. *)
Theorem refused_report_leaves_the_pipeline
    (hz : hazards) (env : environment) (r : http_response) (result : json) (e : exc)
    (w : world) :
  requests_post env = PostReturns r →
  http_error r = None →
  json_body r = inr result →
  shape_ok result = true →
  (∀ s, print_raises hz s = None) →
  mkdir_raises hz = None →
  (∀ path, open_raises hz path = None) →
  json_raises hz = None →
  write_raises hz (in_output_dir "perplexity_full_response.json") (FJson result) = None →
  write_raises hz (in_output_dir "perplexity_report.md") (FText (perplexity_report env result))
  = Some e →
  is_RequestException e = false →
  ∃ w',
    run_perplexity_research_on hz env w = (Raised e, w')
    ∧ files w' !! in_output_dir "perplexity_full_response.json" = Some (FJson result)
    ∧ files w' !! in_output_dir "perplexity_report.md" = Some FPartial.
Proof.
  intros Hpost He Hb Hok Hp Hm Ho Hj Hraw Hrep Hcls.
  destruct result as [| | | | | |d]; try discriminate.
  cbn in Hok. apply andb_prop in Hok as [Hok Hs]. apply andb_prop in Hok as [Hc Hu].
  unfold run_perplexity_research_on, try_except, perplexity_call_on, requests_post_call,
    raise_for_status, response_json_on, response_json, save_perplexity_results_on.
  unfold perplexity_report, content_of, sources_of, field_or, field_ok in *.
  repeat (progress (unfold print_on, print_end_on, mkdir_on, write_on,
                      mbind, mret, M_bind, M_ret, bind, ret, print, print_end,
                      emit, raise, lift, write_file, raise_if; cbn;
                    rewrite ?Hp, ?Hm, ?Ho, ?Hj, ?Hpost, ?He, ?Hb, ?Hraw)).
  destruct (assoc "choices" d) as [choices|]; cbn in *.
  - destruct choices as [| | | | |[|[| | | | | |c] others]|]; try discriminate. cbn in *.
    unfold field_ok in Hc.
    destruct (assoc "message" c) as [[| | | | | |m]|]; try discriminate; cbn in *.
    all: destruct (assoc "usage" d) as [[| | | | | |u]|]; try discriminate; cbn in *.
    all: destruct (assoc "search_results" d) as [[| | | | |srcs|]|]; try discriminate;
      cbn in *.
    all: repeat (progress (unfold print_on, print_end_on, mkdir_on, write_on,
                             mbind, mret, M_bind, M_ret, bind, ret, print, print_end,
                             emit, raise, lift, write_file, raise_if; cbn;
                           rewrite ?Hp, ?Hm, ?Ho, ?Hraw,
                             ?(append_sources_ok _ _ _ _ _ Hs), ?append_empty_r)).
    all: rewrite ?append_empty_r in Hrep; rewrite Hrep; cbn; rewrite Hcls.
    all: eexists; split; [reflexivity|]; cbn; split;
      [rewrite lookup_insert_ne by (vm_compute; discriminate); apply lookup_insert_eq
      |apply lookup_insert_eq].
  - destruct (assoc "usage" d) as [[| | | | | |u]|]; try discriminate; cbn in *.
    all: destruct (assoc "search_results" d) as [[| | | | |srcs|]|]; try discriminate;
      cbn in *.
    all: repeat (progress (unfold print_on, print_end_on, mkdir_on, write_on,
                             mbind, mret, M_bind, M_ret, bind, ret, print, print_end,
                             emit, raise, lift, write_file, raise_if; cbn;
                           rewrite ?Hp, ?Hm, ?Ho, ?Hraw,
                             ?(append_sources_ok _ _ _ _ _ Hs), ?append_empty_r)).
    all: rewrite ?append_empty_r in Hrep; rewrite Hrep; cbn; rewrite Hcls.
    all: eexists; split; [reflexivity|]; cbn; split;
      [rewrite lookup_insert_ne by (vm_compute; discriminate); apply lookup_insert_eq
      |apply lookup_insert_eq].
Qed.

Lemma refused_report_leaves_the_pipeline_witness :
  ∃ w',
    run_perplexity_research_on
      (unencodable_report
         (perplexity_report
            (with_post (PostReturns (json_response 200 "OK" sample_result)) sample_env)
            sample_result))
      (with_post (PostReturns (json_response 200 "OK" sample_result)) sample_env)
      (initial_world ∅)
    = (Raised (mkExc (OtherException "UnicodeEncodeError")
                 "'utf-8' codec can't encode character: surrogates not allowed" None), w')
    ∧ files w' !! in_output_dir "perplexity_full_response.json" = Some (FJson sample_result)
    ∧ files w' !! in_output_dir "perplexity_report.md" = Some FPartial.
Proof.
  apply (refused_report_leaves_the_pipeline
           (unencodable_report
              (perplexity_report
                 (with_post (PostReturns (json_response 200 "OK" sample_result)) sample_env)
                 sample_result))
           (with_post (PostReturns (json_response 200 "OK" sample_result)) sample_env)
           (json_response 200 "OK" sample_result) sample_result);
    try (intros; vm_compute; reflexivity).
Defined.
